(** * The text-extraction endpoint [src/pages/api/extract-text.js]

    A shallow embedding of the file-intake and type-classification pipeline
    of the endpoint, and of the request handler around it.

    Data are modelled as the JavaScript code has them:
    - a [Buffer] is a [list byte];
    - a JavaScript string is the list of its UTF-16 code units ([list N]),
      so that [length] is the [.length] of the source;
    - a JavaScript value (a parsed JSON body, a result object, a response
      body) is a [value];
    - the rate-limit [Map] is a [gmap];
    - a thrown exception is the [Throw] case of [outcome]. *)

From Stdlib Require Import ZArith NArith List String Ascii Lia Bool.
From Stdlib.Strings Require Import Byte.
From stdpp Require Import base option list gmap strings pretty.

Set Warnings "-register-all".
Open Scope N_scope.

(** ** JavaScript strings *)

Abbreviation jsstring := (list N).

(** An ASCII literal of the source as a JavaScript string. *)
Definition js (s : string) : jsstring :=
  map N_of_ascii (list_ascii_of_string s).

(** [s.startsWith(p)] *)
Fixpoint startsWith (s p : jsstring) {struct p} : bool :=
  match p, s with
  | [], _ => true
  | _ :: _, [] => false
  | a :: p', b :: s' => (a =? b) && startsWith s' p'
  end.

(** [s.includes(p)] for a string [p] *)
Fixpoint includes (s p : jsstring) : bool :=
  startsWith s p ||
  match s with
  | [] => false
  | _ :: s' => includes s' p
  end.

(** [s.replace(p, r)] for a string pattern: the first occurrence only. *)
Fixpoint replace (s p r : jsstring) : jsstring :=
  if startsWith s p then r ++ drop (length p) s
  else match s with
       | [] => []
       | c :: s' => c :: replace s' p r
       end.

(** [s.toLowerCase()].  Only the letters A-Z are mapped here.  The two code
    points outside ASCII whose lower case contains an ASCII letter (U+212A
    and U+0130) give [k] and [i], which occur in no allowed extension, so
    this is exact for the one use of the method in [detectFileType]. *)
Definition toLowerCase (s : jsstring) : jsstring :=
  map (fun c => if (65 <=? c) && (c <=? 90) then c + 32 else c) s.

(** [s.substring(0, n)] *)
Definition substring0 (s : jsstring) (n : N) : jsstring := take (N.to_nat n) s.

(** [s.split(sep)] for a separator of one code unit. *)
Fixpoint split (sep : N) (s : jsstring) : list jsstring :=
  match s with
  | [] => [[]]
  | c :: s' =>
      if c =? sep then [] :: split sep s'
      else match split sep s' with
           | seg :: segs => (c :: seg) :: segs
           | [] => [[c]]
           end
  end.

(** The string a number is converted to in a template literal or a string
    concatenation (integers only occur). *)
Definition Number_toString (z : Z) : jsstring := js (pretty z).

Definition LF : N := 10.
Definition CR : N := 13.
Definition TAB : N := 9.

(** ** JavaScript values *)

(** The values the handler sees: what [JSON.parse] returns, the object
    literals of the source, and [undefined].  A number is an integer here:
    every number the code produces is one, and a number with a fractional
    part in a request body is outside the model.  Property names are ASCII,
    as are all the names the code looks up. *)
Inductive value :=
| VUndefined
| VNull
| VBool (b : bool)
| VNumber (n : Z)
| VString (s : jsstring)
| VArray (xs : list value)
| VObject (fields : list (string * value)).

(** The value of [if (v)], [!v], [v || d]. *)
Definition truthy (v : value) : bool :=
  match v with
  | VUndefined | VNull => false
  | VBool b => b
  | VNumber n => negb (n =? 0)%Z
  | VString s => negb (bool_decide (s = []))
  | VArray _ | VObject _ => true
  end.

(** [v || d] *)
Definition or_else (v d : value) : value := if truthy v then v else d.

Fixpoint lookup_field (k : string) (fs : list (string * value)) : value :=
  match fs with
  | [] => VUndefined
  | (k', v) :: fs' => if String.eqb k k' then v else lookup_field k fs'
  end.

(** [o.k] on an object the code built itself. *)
Definition get (k : string) (o : value) : value :=
  match o with
  | VObject fs => lookup_field k fs
  | _ => VUndefined
  end.

(** Exceptions carry the [message] of the error object. *)
Inductive exn := Error (message : jsstring).

Definition message (e : exn) : jsstring := let 'Error m := e in m.

Inductive outcome (A : Type) :=
| Ok (a : A)
| Throw (e : exn).
Arguments Ok {A} a.
Arguments Throw {A} e.

Definition obind {A B} (m : outcome A) (f : A -> outcome B) : outcome B :=
  match m with
  | Ok a => f a
  | Throw e => Throw e
  end.

Declare Scope outcome_scope.
Delimit Scope outcome_scope with outcome.
Notation "'let!' x ':=' m 'in' k" := (obind m (fun x => k))
  (at level 10, x name, m at level 100, k at level 200) : outcome_scope.

(** ** The Node runtime

    Library functions the endpoint calls and whose definition is not part
    of the repository.  Everything below is stated for an arbitrary
    runtime; [Posix.runtime] further down is one instance. *)
Class Runtime := {
  (** [path.extname(s)] and [path.basename(s)] on a string *)
  path_extname : jsstring -> jsstring;
  path_basename : jsstring -> jsstring;
  (** [new URL(v).protocol]; [Throw] when the constructor throws *)
  URL_protocol : value -> outcome jsstring;
  (** [Buffer.from(s, 'base64')] on a string: lenient, it never throws *)
  base64_decode : jsstring -> list byte;
  (** the byte an array element that is not a number is stored as *)
  ToUint8_other : value -> byte;
  (** [Buffer.from(o)] on an object that is not an array *)
  Buffer_fromObject : list (string * value) -> outcome (list byte);
  (** the message of a [TypeError] raised by the named library function *)
  TypeError_message : string -> value -> jsstring;
  (** [new Date(t).toISOString()] *)
  toISOString : Z -> jsstring
}.

(** [o.k] on an arbitrary value, for a name [k] that is no built-in
    property: reading a property of [null] or [undefined] throws. *)
Definition get_prop `{Runtime} (k : string) (o : value) : outcome value :=
  match o with
  | VUndefined | VNull => Throw (Error (TypeError_message "property" o))
  | VObject fs => Ok (lookup_field k fs)
  | _ => Ok VUndefined
  end.

(** ** Configuration *)

Record Config := {
  RATE_LIMIT_WINDOW_MS : Z;
  RATE_LIMIT_MAX_REQUESTS : nat;
  MAX_FILE_SIZE : N;
  ALLOWED_ORIGINS : list jsstring;
  ALLOWED_FILE_TYPES : list jsstring;
  MAX_TEXT_LENGTH : N
}.

Definition CONFIG : Config := {|
  RATE_LIMIT_WINDOW_MS := 60000;
  RATE_LIMIT_MAX_REQUESTS := 100;
  MAX_FILE_SIZE := 50 * 1024 * 1024;
  ALLOWED_ORIGINS :=
    [js "https://*.n8n.io"; js "https://n8n.io";
     js "http://localhost:3000"; js "http://localhost:5678"];
  ALLOWED_FILE_TYPES :=
    [js "pdf"; js "txt"; js "html"; js "htm"; js "doc"; js "docx"];
  MAX_TEXT_LENGTH := 50000
|}.

(** File type magic numbers *)
Module MAGIC_NUMBERS.
Definition PNG : jsstring := js "89504e47".
Definition JPEG : jsstring := js "ffd8".
Definition PDF : jsstring := js "25504446".
Definition DOC : jsstring := js "d0cf11e0".
Definition ZIP : jsstring := js "504b0304".
End MAGIC_NUMBERS.

(** ** Buffers *)

Module Buffer.

Definition hexdigit (d : N) : N := if d <? 10 then 48 + d else 87 + d.

Definition hex_of_byte (b : byte) : jsstring :=
  let n := Byte.to_N b in [hexdigit (n / 16); hexdigit (n mod 16)].

(** [buf.slice(start, end)], both ends clamped to the buffer *)
Definition slice (buf : list byte) (start stop : nat) : list byte :=
  take (stop - start) (drop start buf).

(** [buf.toString('hex', start, end)] *)
Definition toString_hex (buf : list byte) (start stop : nat) : jsstring :=
  flat_map hex_of_byte (slice buf start stop).

(** The UTF-8 decoder of [buf.toString('utf8')]: each maximal ill-formed
    subpart becomes one U+FFFD, a byte order mark is kept, a code point
    above U+FFFF becomes a surrogate pair.  It never throws. *)
Record utf8_state := {
  code_point : N;
  needed : nat;
  lower : N;
  upper : N
}.

Definition utf8_start : utf8_state :=
  {| code_point := 0; needed := 0; lower := 0x80; upper := 0xBF |}.

Definition code_units (c : N) : jsstring :=
  if c <? 0x10000 then [c]
  else [0xD800 + (c - 0x10000) / 0x400; 0xDC00 + (c - 0x10000) mod 0x400].

Definition utf8_lead (b : N) : jsstring * utf8_state :=
  if b <=? 0x7F then ([b], utf8_start)
  else if (0xC2 <=? b) && (b <=? 0xDF) then
    ([], {| code_point := N.land b 0x1F; needed := 1;
            lower := 0x80; upper := 0xBF |})
  else if (0xE0 <=? b) && (b <=? 0xEF) then
    ([], {| code_point := N.land b 0xF; needed := 2;
            lower := if b =? 0xE0 then 0xA0 else 0x80;
            upper := if b =? 0xED then 0x9F else 0xBF |})
  else if (0xF0 <=? b) && (b <=? 0xF4) then
    ([], {| code_point := N.land b 0x7; needed := 3;
            lower := if b =? 0xF0 then 0x90 else 0x80;
            upper := if b =? 0xF4 then 0x8F else 0xBF |})
  else ([0xFFFD], utf8_start).

Definition utf8_step (st : utf8_state) (b : N) : jsstring * utf8_state :=
  match needed st with
  | O => utf8_lead b
  | S k =>
      if (lower st <=? b) && (b <=? upper st) then
        let c := N.lor (N.shiftl (code_point st) 6) (N.land b 0x3F) in
        match k with
        | O => (code_units c, utf8_start)
        | S _ => ([], {| code_point := c; needed := k;
                         lower := 0x80; upper := 0xBF |})
        end
      else
        let '(out, st') := utf8_lead b in (0xFFFD :: out, st')
  end.

Fixpoint utf8_decode (st : utf8_state) (bs : list byte) : jsstring :=
  match bs with
  | [] => match needed st with O => [] | S _ => [0xFFFD] end
  | b :: bs' =>
      let '(out, st') := utf8_step st (Byte.to_N b) in
      out ++ utf8_decode st' bs'
  end.

(** [buf.toString('utf8')] *)
Definition toString_utf8 (buf : list byte) : jsstring :=
  utf8_decode utf8_start buf.

(** [buf.toString('utf8', start, end)] *)
Definition toString_utf8_range (buf : list byte) (start stop : nat)
  : jsstring :=
  utf8_decode utf8_start (slice buf start stop).

End Buffer.

Module BufferFrom.

Definition byte_of_N (n : N) : byte :=
  default x00 (Byte.of_N (n mod 256)).

(** The UTF-8 encoder of [Buffer.from(s)]: a surrogate pair is one code
    point of four bytes, a lone surrogate is encoded as U+FFFD. *)
Definition encode_code_point (c : N) : list byte :=
  if c <? 0x80 then [byte_of_N c]
  else if c <? 0x800 then
    [byte_of_N (0xC0 + c / 0x40); byte_of_N (0x80 + c mod 0x40)]
  else if c <? 0x10000 then
    [byte_of_N (0xE0 + c / 0x1000); byte_of_N (0x80 + (c / 0x40) mod 0x40);
     byte_of_N (0x80 + c mod 0x40)]
  else
    [byte_of_N (0xF0 + c / 0x40000); byte_of_N (0x80 + (c / 0x1000) mod 0x40);
     byte_of_N (0x80 + (c / 0x40) mod 0x40); byte_of_N (0x80 + c mod 0x40)].

Definition is_high (c : N) : bool := (0xD800 <=? c) && (c <=? 0xDBFF).
Definition is_low (c : N) : bool := (0xDC00 <=? c) && (c <=? 0xDFFF).

Fixpoint utf8_encode (s : jsstring) : list byte :=
  match s with
  | [] => []
  | c :: s' =>
      if is_high c then
        match s' with
        | d :: s'' =>
            if is_low d then
              encode_code_point
                (0x10000 + (c - 0xD800) * 0x400 + (d - 0xDC00))
                ++ utf8_encode s''
            else encode_code_point 0xFFFD ++ utf8_encode s'
        | [] => encode_code_point 0xFFFD
        end
      else if is_low c then encode_code_point 0xFFFD ++ utf8_encode s'
      else encode_code_point c ++ utf8_encode s'
  end.

(** The byte an array element is stored as. *)
Definition ToUint8 `{Runtime} (v : value) : byte :=
  match v with
  | VNumber n => byte_of_N (Z.to_N (n mod 256))
  | _ => ToUint8_other v
  end.

Inductive encoding := utf8 | base64.

(** [Buffer.from(v, encoding)]: a string is decoded, an array is copied
    element by element, and a value that is neither a string nor an
    object is a [TypeError]. *)
Definition from `{Runtime} (v : value) (enc : encoding)
  : outcome (list byte) :=
  match v with
  | VString s =>
      Ok (match enc with
          | base64 => base64_decode s
          | utf8 => utf8_encode s
          end)
  | VArray xs => Ok (map ToUint8 xs)
  | VObject o => Buffer_fromObject o
  | VUndefined | VNull | VBool _ | VNumber _ =>
      Throw (Error (TypeError_message "Buffer.from" v))
  end.

End BufferFrom.

(** ** Type detection and processing *)

Section Pipeline.
Context `{Runtime}.
Open Scope outcome_scope.

(** The code units the text heuristic counts: those that
    [/[^\x20-\x7E\n\r\t]/g] does not remove. *)
Definition printable (c : N) : bool :=
  ((0x20 <=? c) && (c <=? 0x7E)) || (c =? LF) || (c =? CR) || (c =? TAB).

(** The code units the PDF preview keeps: those that
    [/[^\x20-\x7E\n\r]/g] does not remove. *)
Definition previewable (c : N) : bool :=
  ((0x20 <=? c) && (c <=? 0x7E)) || (c =? LF) || (c =? CR).

(** [kept / total > 0.8] on two string lengths.  A string is shorter than
    2^30 code units, so both are exact doubles, the double quotient is the
    correctly rounded rational, and it exceeds the double 0.8 exactly when
    [5 * kept > 4 * total]: a quotient different from 4/5 differs from it
    by at least [1 / (5 * total)], far more than the rounding of either
    side.  For [total = 0] the quotient is NaN and the comparison is
    false, as is [0 < 0]. *)
Definition ratio_exceeds_0_8 (kept total : nat) : bool :=
  4 * N.of_nat total <? 5 * N.of_nat kept.

(** [path.extname(fileName)]: the argument has to be a string. *)
Definition extname (fileName : value) : outcome jsstring :=
  match fileName with
  | VString s => Ok (path_extname s)
  | _ => Throw (Error (TypeError_message "path.extname" fileName))
  end.

(** Enhanced file type detection.  The [try] around the text heuristic
    catches nothing here: the decoder does not throw. *)
Definition detectFileType (buffer : list byte) (fileName : value)
  : outcome jsstring :=
  let magic := Buffer.toString_hex buffer 0 8 in
  if startsWith magic MAGIC_NUMBERS.PDF then Ok (js "pdf")
  else if startsWith magic MAGIC_NUMBERS.PNG
          || startsWith magic MAGIC_NUMBERS.JPEG then Ok (js "image")
  else if startsWith magic MAGIC_NUMBERS.DOC
          || startsWith magic MAGIC_NUMBERS.ZIP then Ok (js "document")
  else
    let text := Buffer.toString_utf8 buffer in
    let nullBytes := includes text [0] in
    if negb nullBytes
       && ratio_exceeds_0_8 (length (filter (fun c => printable c) text))
                            (length text)
    then Ok (js "text")
    else if truthy fileName then
      let! e := extname fileName in
      let ext := drop 1 (toLowerCase e) in
      if bool_decide (ext ∈ ALLOWED_FILE_TYPES CONFIG) then Ok ext
      else Ok (js "unknown")
    else Ok (js "unknown").

(** Enhanced PDF detection (not called by the handler) *)
Definition isPdf (buffer : list byte) : bool :=
  startsWith (Buffer.toString_utf8_range buffer 0 4) (js "%PDF").

Definition fileTooLarge (fileSize : N) : jsstring :=
  js "File too large: " ++ Number_toString (Z.of_N fileSize)
    ++ js " bytes (max: " ++ Number_toString (Z.of_N (MAX_FILE_SIZE CONFIG))
    ++ js " bytes)".

Definition pdfNotice : jsstring :=
  js "PDF file detected. For enhanced text extraction with OCR and formatting preservation, use the dedicated resume parser service."
    ++ [LF; LF] ++ js "Preview (first 1000 bytes):" ++ [LF].

Definition truncationNotice : jsstring :=
  [LF; LF] ++ js "[Content truncated due to size limits]".

Definition num (n : nat) : value := VNumber (Z.of_nat n).

(** The object literals of the [switch (fileType)] of [processBuffer], one
    per case; the [catch] branches of the pdf and text cases are not
    reachable, since decoding does not throw. *)

(** [case 'pdf']; [preview] is [buffer.toString('utf8', 0, 1000)] *)
Definition pdfResult (fileName : value) (fileSize : nat) (preview : jsstring)
  : value :=
  let textPreview := filter (fun c => previewable c) preview in
  VObject
    [("success", VBool true);
     ("type", VString (js "pdf"));
     ("fileName", or_else fileName (VString (js "document.pdf")));
     ("text", VString (pdfNotice ++ textPreview));
     ("metadata",
       VObject [("fileSize", num fileSize);
                ("pages", VNumber 1);
                ("textPreviewLength", num (length textPreview))]);
     ("hint", VString (js "Upgrade to full PDF parsing service for complete text extraction"))].

(** [case 'text': case 'txt': case 'html': case 'htm']; [text] is
    [buffer.toString('utf8')] *)
Definition textResult (fileType : jsstring) (fileName : value)
    (fileSize : nat) (text : jsstring) : value :=
  if MAX_TEXT_LENGTH CONFIG <? N.of_nat (length text) then
    VObject
      [("success", VBool true);
       ("type", VString fileType);
       ("fileName", or_else fileName (VString (js "text.txt")));
       ("text", VString (substring0 text (MAX_TEXT_LENGTH CONFIG)
                           ++ truncationNotice));
       ("truncated", VBool true);
       ("originalLength", num (length text));
       ("extractedLength", VNumber (Z.of_N (MAX_TEXT_LENGTH CONFIG)))]
  else
    VObject
      [("success", VBool true);
       ("type", VString fileType);
       ("fileName", or_else fileName (VString (js "text.txt")));
       ("text", VString text);
       ("metadata",
         VObject [("fileSize", num fileSize);
                  ("textLength", num (length text));
                  ("lines", num (length (split LF text)))])].

(** [case 'image'], [case 'document'] and [default] *)
Definition rejection (fileType : jsstring) : value :=
  if bool_decide (fileType = js "image") then
    VObject
      [("success", VBool false);
       ("error", VString (js "Image files not supported. OCR service required."));
       ("type", VString (js "image"));
       ("hint", VString (js "Convert image to PDF or text first, or enable OCR capabilities"))]
  else if bool_decide (fileType = js "document") then
    VObject
      [("success", VBool false);
       ("error", VString (js "Document processing requires additional services"));
       ("type", VString (js "document"));
       ("hint", VString (js "Supported formats: PDF, TXT, HTML. Convert DOC/DOCX to PDF first."))]
  else
    VObject
      [("success", VBool false);
       ("error", VString (js "Unsupported file type"));
       ("type", VString (js "unknown"));
       ("allowedTypes", VArray (map VString (ALLOWED_FILE_TYPES CONFIG)))].

Definition textTypes : list jsstring :=
  [js "text"; js "txt"; js "html"; js "htm"].

(** Security: file size check *)
Definition oversized (fileSize : N) (fileType : jsstring) : value :=
  VObject
    [("success", VBool false);
     ("error", VString (fileTooLarge fileSize));
     ("type", VString fileType)].

(** The [switch (fileType)]: the per-type handlers. *)
Definition dispatch (fileType : jsstring) (buffer : list byte)
    (fileName : value) : value :=
  if bool_decide (fileType = js "pdf") then
    pdfResult fileName (length buffer)
              (Buffer.toString_utf8_range buffer 0 1000)
  else if bool_decide (fileType ∈ textTypes) then
    textResult fileType fileName (length buffer) (Buffer.toString_utf8 buffer)
  else rejection fileType.

(** Process different file types with enhanced security *)
Definition processBuffer (buffer : list byte) (fileName : value)
  : outcome value :=
  let! fileType := detectFileType buffer fileName in
  let fileSize := N.of_nat (length buffer) in
  if MAX_FILE_SIZE CONFIG <? fileSize then
    Ok (oversized fileSize fileType)
  else Ok (dispatch fileType buffer fileName).

End Pipeline.

(** ** Buffers by reference

    [detectFileType] and [processBuffer] once more, this time on a reference
    into a heap of buffers and with every method call on the buffer an
    operation of a state monad, so that a write to the buffer would show. *)

Module ByRef.
Section ByRef.
Context `{Runtime}.

Definition Heap := gmap nat (list byte).

Definition HM (A : Type) : Type := Heap -> outcome A * Heap.

Definition hret {A} (a : A) : HM A := fun h => (Ok a, h).

Definition hbind {A B} (m : HM A) (k : A -> HM B) : HM B :=
  fun h => match m h with
           | (Ok a, h') => k a h'
           | (Throw e, h') => (Throw e, h')
           end.

Definition lift {A} (m : outcome A) : HM A := fun h => (m, h).

(** A method of the buffer object that reads its bytes. *)
Definition read {A} (ref : nat) (method : list byte -> A) : HM A :=
  fun h => match h !! ref with
           | Some bytes => (Ok (method bytes), h)
           | None => (Throw (Error (TypeError_message "Buffer" VUndefined)), h)
           end.

Notation "'do' x '<-' m ';' k" := (hbind m (fun x => k))
  (at level 10, x name, m at level 100, k at level 200).

Definition detectFileType (buffer : nat) (fileName : value) : HM jsstring :=
  do magic <- read buffer (fun b => Buffer.toString_hex b 0 8);
  if startsWith magic MAGIC_NUMBERS.PDF then hret (js "pdf")
  else if startsWith magic MAGIC_NUMBERS.PNG
          || startsWith magic MAGIC_NUMBERS.JPEG then hret (js "image")
  else if startsWith magic MAGIC_NUMBERS.DOC
          || startsWith magic MAGIC_NUMBERS.ZIP then hret (js "document")
  else
    do text <- read buffer Buffer.toString_utf8;
    let nullBytes := includes text [0] in
    if negb nullBytes
       && ratio_exceeds_0_8 (length (filter (fun c => printable c) text))
                            (length text)
    then hret (js "text")
    else if truthy fileName then
      do e <- lift (extname fileName);
      let ext := drop 1 (toLowerCase e) in
      if bool_decide (ext ∈ ALLOWED_FILE_TYPES CONFIG) then hret ext
      else hret (js "unknown")
    else hret (js "unknown").

Definition processBuffer (buffer : nat) (fileName : value) : HM value :=
  do fileType <- detectFileType buffer fileName;
  do fileSize <- read buffer (fun b => length b);
  if MAX_FILE_SIZE CONFIG <? N.of_nat fileSize then
    hret (oversized (N.of_nat fileSize) fileType)
  else if bool_decide (fileType = js "pdf") then
    do preview <- read buffer (fun b => Buffer.toString_utf8_range b 0 1000);
    hret (pdfResult fileName fileSize preview)
  else if bool_decide (fileType ∈ textTypes) then
    do text <- read buffer Buffer.toString_utf8;
    hret (textResult fileType fileName fileSize text)
  else hret (rejection fileType).

End ByRef.
End ByRef.

(** ** Secure file download *)

(** What [https.get(url, options, callback)] does after the call: the
    events the request and the response emit, in order.  A request emits at
    most one response. *)
Inductive NetEvent :=
| EvResponse (statusCode : Z) (statusMessage : jsstring)
| EvData (chunk : list byte)
| EvEnd
| EvResponseError (e : exn)
| EvRequestError (e : exn)
| EvTimeout.

(** The call itself may throw (the library refuses the URL). *)
Inductive HttpsGet :=
| GetThrows (e : exn)
| GetEmits (events : list NetEvent).

Inductive Promise :=
| Pending
| Resolved (buffer : list byte)
| Rejected (e : exn).

(** The state of one download: the promise, whether the response callback
    has attached its listeners, and the callback's [chunks] and
    [totalSize]. *)
Record Download := {
  promise : Promise;
  listening : bool;
  chunks : list (list byte);
  totalSize : N
}.

Section Download.
Context `{Runtime}.

(** [resolve] and [reject] settle a pending promise and do nothing to a
    settled one. *)
Definition settle (p : Promise) (d : Download) : Download :=
  match promise d with
  | Pending => {| promise := p; listening := listening d;
                  chunks := chunks d; totalSize := totalSize d |}
  | _ => d
  end.

Definition on_event (d : Download) (ev : NetEvent) : Download :=
  match ev with
  | EvResponse statusCode statusMessage =>
      if negb (statusCode =? 200)%Z then
        settle (Rejected (Error (js "HTTP " ++ Number_toString statusCode
                                   ++ js ": " ++ statusMessage))) d
      else {| promise := promise d; listening := true;
              chunks := []; totalSize := 0 |}
  | EvData chunk =>
      if listening d then
        let total := totalSize d + N.of_nat (length chunk) in
        if MAX_FILE_SIZE CONFIG <? total then
          settle (Rejected (Error (js "File too large: "
                                     ++ Number_toString (Z.of_N total)
                                     ++ js " bytes")))
                 {| promise := promise d; listening := listening d;
                    chunks := chunks d; totalSize := total |}
        else {| promise := promise d; listening := listening d;
                chunks := chunks d ++ [chunk]; totalSize := total |}
      else d
  | EvEnd =>
      if listening d then settle (Resolved (concat (chunks d))) d else d
  | EvResponseError e =>
      if listening d then settle (Rejected e) d else d
  | EvRequestError e => settle (Rejected e) d
  | EvTimeout => settle (Rejected (Error (js "Request timeout"))) d
  end.

Definition download_start : Download :=
  {| promise := Pending; listening := false; chunks := []; totalSize := 0 |}.

(** [downloadFileFromUrl(url)], given what the network does.  An exception
    in the executor of the promise rejects it. *)
Definition downloadFileFromUrl (url : value) (net : HttpsGet) : Promise :=
  match URL_protocol url with
  | Throw e => Rejected e
  | Ok protocol =>
      if negb (bool_decide (protocol ∈ [js "http:"; js "https:"])) then
        Rejected (Error (js "Invalid URL protocol"))
      else
        match net with
        | GetThrows e => Rejected e
        | GetEmits events => promise (foldl on_event download_start events)
        end
  end.

End Download.

(** ** The request handler *)

Record UploadedFile := {
  filepath : jsstring;
  originalFilename : value;
  (** what [fs.readFileSync(filepath)] returns *)
  readFileSync : outcome (list byte)
}.

(** What [form.parse(req)] of formidable yields: the arrays [files.file],
    [files.resume] and [files.document] (empty when the field is absent). *)
Inductive Formidable :=
| ParseRejects (e : exn)
| Parsed (file resume document : list UploadedFile).

(** What reading the body and [JSON.parse] yield. *)
Inductive JsonBody :=
| ReadThrows (e : exn)
| InvalidJson
| Json (body : value).

(** A request as Node presents it: header names are in lower case. *)
Record Request := {
  method : jsstring;
  url : jsstring;
  headers : list (string * jsstring);
  remoteAddress : option jsstring;
  multipart : Formidable;
  json : JsonBody
}.

(** The surroundings of one request: the clock ([clock i] is what the
    [i]-th call of [Date.now()] returns), the process environment and the
    network. *)
Record Env := {
  clock : nat -> Z;
  REQUIRE_API_KEY : option jsstring;
  NODE_ENV : option jsstring;
  https_get : value -> HttpsGet
}.

Record World := {
  rateLimitStore : gmap jsstring (list Z);
  ticks : nat;
  console : list value
}.

Record Response := {
  status : Z;
  headers_out : list (string * jsstring);
  (** the argument of [res.json], [None] for [res.end()] *)
  body : option value
}.

(** The file the transport resolver hands on, a rejection it answers with
    status 400, or a download that never settles. *)
Inductive Intake :=
| File (buffer : list byte) (fileName : value)
| Reject (error : jsstring)
| Hang.

Section Handler.
Context `{Runtime}.
Variable env : Env.
Open Scope outcome_scope.

Definition State (A : Type) : Type := World -> A * World.

Definition ret {A} (a : A) : State A := fun w => (a, w).

Definition bind {A B} (m : State A) (k : A -> State B) : State B :=
  fun w => let '(a, w') := m w in k a w'.

Notation "'do' x '<-' m ';' k" := (bind m (fun x => k))
  (at level 10, x name, m at level 100, k at level 200).
Notation "m ';;' k" := (bind m (fun _ => k))
  (at level 100, k at level 200, right associativity).

Definition Date_now : State Z :=
  fun w => (clock env (ticks w),
            {| rateLimitStore := rateLimitStore w; ticks := S (ticks w);
               console := console w |}).

Definition console_log (v : value) : State unit :=
  fun w => (tt, {| rateLimitStore := rateLimitStore w; ticks := ticks w;
                   console := console w ++ [v] |}).

Definition header (req : Request) (name : string) : option jsstring :=
  snd <$> find (fun kv => String.eqb name (fst kv)) (headers req).

(** [a || b] on strings that may be undefined *)
Definition or_string (a b : option jsstring) : option jsstring :=
  match a with
  | Some (_ :: _) => a
  | _ => b
  end.

(** Security headers middleware *)
Definition setSecurityHeaders : list (string * jsstring) :=
  [("X-Content-Type-Options", js "nosniff");
   ("X-Frame-Options", js "DENY");
   ("X-XSS-Protection", js "1; mode=block");
   ("Strict-Transport-Security", js "max-age=31536000; includeSubDomains")].

(** CORS middleware *)
Definition handleCORS (req : Request) : list (string * jsstring) :=
  let origin := header req "origin" in
  (match origin with
   | Some o =>
       if existsb (fun allowed =>
                     if includes allowed (js "*")
                     then includes o (replace allowed (js "*") [])
                     else bool_decide (o = allowed))
                  (ALLOWED_ORIGINS CONFIG)
       then [("Access-Control-Allow-Origin", o)]
       else []
   | None => []
   end)
  ++ [("Access-Control-Allow-Methods", js "POST, OPTIONS");
      ("Access-Control-Allow-Headers", js "Content-Type, Authorization, X-API-Key");
      ("Access-Control-Max-Age", js "86400")].

Definition clientIP (req : Request) : jsstring :=
  default (js "unknown")
          (or_string (or_string (header req "x-forwarded-for")
                                (remoteAddress req))
                     (Some (js "unknown"))).

(** [Math.ceil(x / 1000)] on an integer [x] *)
Definition ceil_div_1000 (x : Z) : Z := (- ((- x) / 1000))%Z.

(** Rate limiting middleware: [inl] is the body of the 429 response it
    sends, [inr tt] is [true].  [clientTimestamps[0]] exists when the
    response is sent, unless the maximum is zero requests; [undefined]
    there makes [retryAfter] NaN, which is sent as [null]. *)
Definition rateLimit (req : Request) : State (value + unit) :=
  let clientIP := clientIP req in
  do now <- Date_now;
  let windowStart := (now - RATE_LIMIT_WINDOW_MS CONFIG)%Z in
  fun w =>
    let store :=
      (fun timestamps =>
         filter (fun timestamp => (windowStart < timestamp)%Z) timestamps)
        <$> rateLimitStore w in
    let clientTimestamps := default [] (store !! clientIP) in
    let requestsInWindow := length clientTimestamps in
    if bool_decide (RATE_LIMIT_MAX_REQUESTS CONFIG <= requestsInWindow)%nat
    then
      (inl (VObject
              [("error", VString (js "Rate limit exceeded"));
               ("retryAfter",
                 match clientTimestamps with
                 | first :: _ =>
                     VNumber (ceil_div_1000
                                (first + RATE_LIMIT_WINDOW_MS CONFIG - now))
                 | [] => VNull
                 end)]),
       {| rateLimitStore := store; ticks := ticks w; console := console w |})
    else
      (inr tt,
       {| rateLimitStore := <[clientIP := clientTimestamps ++ [now]]> store;
          ticks := ticks w; console := console w |}).

(** API Key authentication: [Some error] when the key is missing. *)
Definition authenticateAPIKey (req : Request) : option jsstring :=
  let apiKey :=
    or_string (header req "x-api-key")
              ((fun a => replace a (js "Bearer ") [])
                 <$> header req "authorization") in
  let requireAuth := bool_decide (REQUIRE_API_KEY env = Some (js "true")) in
  if requireAuth && negb (bool_decide (is_Some (or_string apiKey None)))
  then Some (js "API key required")
  else None.

(** Request logging for monitoring *)
Definition logRequest (req : Request) (result : value) (startTime : Z)
  : State unit :=
  do now <- Date_now;
  let duration := (now - startTime)%Z in
  let userAgent := default (js "unknown")
                     (or_string (header req "user-agent") None) in
  do timestamp <- Date_now;
  console_log
    (VObject
       [("timestamp", VString (toISOString timestamp));
        ("ip", VString (clientIP req));
        ("method", VString (method req));
        ("endpoint", VString (url req));
        ("userAgent", VString (substring0 userAgent 100));
        ("duration", VString (Number_toString duration ++ js "ms"));
        ("success", get "success" result);
        ("fileType", get "type" result);
        ("fileSize", or_else (get "fileSize" (get "metadata" result))
                             (VNumber 0));
        ("error", or_else (get "error" result) VNull)]).

(** [try { ... } catch (e) { ... }] *)
Definition try_catch {A} (block : outcome A) (handler : exn -> A) : A :=
  match block with
  | Ok a => a
  | Throw e => handler e
  end.

(** [path.basename(v)]: the argument has to be a string. *)
Definition basename (v : value) : outcome jsstring :=
  match v with
  | VString s => Ok (path_basename s)
  | _ => Throw (Error (TypeError_message "path.basename" v))
  end.

(** [files.file?.[0] || files.resume?.[0] || files.document?.[0]] *)
Definition uploadedFile (file resume document : list UploadedFile)
  : option UploadedFile :=
  match head file, head resume with
  | Some f, _ => Some f
  | None, Some f => Some f
  | None, None => head document
  end.

(** [req.headers['content-type'] || ''] *)
Definition contentType (req : Request) : jsstring :=
  default [] (or_string (header req "content-type") (Some [])).

(** The transport resolver: the part of the [try] block of the handler
    that comes before [processBuffer].  An exception that leaves it is
    caught by the [catch] of the handler. *)
Definition intake (req : Request) : outcome Intake :=
  if includes (contentType req) (js "multipart/form-data") then
    match multipart req with
    | ParseRejects e => Throw e
    | Parsed file resume document =>
        match uploadedFile file resume document with
        | None =>
            Ok (Reject (js "No file uploaded. Supported fields: 'file', 'resume', 'document'"))
        | Some f =>
            let! buffer := readFileSync f in
            Ok (File buffer (originalFilename f))
        end
    end
  else
    match json req with
    | ReadThrows e => Throw e
    | InvalidJson => Ok (Reject (js "Invalid JSON body"))
    | Json body =>
        let! fileUrl := get_prop "fileUrl" body in
        if truthy fileUrl then
          match downloadFileFromUrl fileUrl (https_get env fileUrl) with
          | Pending => Ok Hang
          | Rejected e =>
              Ok (Reject (js "URL download failed: " ++ message e))
          | Resolved buffer =>
              Ok (try_catch
                    (let! fileName := basename fileUrl in
                     Ok (File buffer (VString fileName)))
                    (fun e => Reject (js "URL download failed: " ++ message e)))
          end
        else
          let! fileBase64 := get_prop "fileBase64" body in
          if truthy fileBase64 then
            Ok (try_catch
                  (let! buffer := BufferFrom.from fileBase64 BufferFrom.base64 in
                   let! fileName := get_prop "fileName" body in
                   Ok (File buffer
                            (or_else fileName (VString (js "uploaded_file")))))
                  (fun _ => Reject (js "Invalid base64 encoding")))
          else
            let! binaryData := get_prop "binaryData" body in
            if truthy binaryData then
              Ok (try_catch
                    (let! data := get_prop "data" binaryData in
                     let! buffer := BufferFrom.from data BufferFrom.utf8 in
                     let! fileName := get_prop "fileName" body in
                     Ok (File buffer
                              (or_else fileName (VString (js "n8n_upload")))))
                    (fun _ => Reject (js "Invalid binary data")))
            else
              Ok (Reject (js "Missing file data. Provide fileUrl, fileBase64, or binaryData"))
    end.

Definition executionTime (now startTime : Z) : value :=
  VString (Number_toString (now - startTime) ++ js "ms").

(** The n8n-compatible success and error responses the handler sends for
    the result of [processBuffer]. *)
Definition sendResult (hdrs : list (string * jsstring)) (result : value)
    (startTime : Z) : State (option Response) :=
  do now <- Date_now;
  if truthy (get "success" result) then
    ret (Some {| status := 200; headers_out := hdrs;
                 body := Some (VObject
                   [("success", VBool true);
                    ("data", VObject
                       [("extractedText", get "text" result);
                        ("fileName", get "fileName" result);
                        ("fileType", get "type" result);
                        ("metadata", or_else (get "metadata" result)
                                             (VObject []));
                        ("truncated", or_else (get "truncated" result)
                                              (VBool false))]);
                    ("executionTime", executionTime now startTime)]) |})
  else
    ret (Some {| status := 400; headers_out := hdrs;
                 body := Some (VObject
                   [("success", VBool false);
                    ("error", VObject
                       [("message", get "error" result);
                        ("type", get "type" result);
                        ("hint", get "hint" result);
                        ("allowedTypes", get "allowedTypes" result)]);
                    ("executionTime", executionTime now startTime)]) |}).

(** An error answered before or instead of processing: it is logged and
    sent as [{ error }]. *)
Definition sendError (req : Request) (hdrs : list (string * jsstring))
    (code : Z) (error : jsstring) (startTime : Z) : State (option Response) :=
  let result := VObject [("error", VString error)] in
  logRequest req (VObject [("success", VBool false);
                           ("error", get "error" result)]) startTime ;;
  ret (Some {| status := code; headers_out := hdrs; body := Some result |}).

(** The [catch] of the handler: unexpected errors. *)
Definition internalError (req : Request) (hdrs : list (string * jsstring))
    (error : exn) (startTime : Z) : State (option Response) :=
  console_log (VArray [VString (js "API Error:"); VString (message error)]) ;;
  let result :=
    VObject
      [("success", VBool false);
       ("error", VString (js "Internal server error"));
       ("details",
         if bool_decide (NODE_ENV env = Some (js "development"))
         then VString (message error) else VUndefined)] in
  logRequest req result startTime ;;
  ret (Some {| status := 500; headers_out := hdrs; body := Some result |}).

(** Main API handler.  [None] is a request that is never answered. *)
Definition handler (req : Request) : State (option Response) :=
  do startTime <- Date_now;
  let hdrs := setSecurityHeaders ++ handleCORS req in
  if bool_decide (method req = js "OPTIONS") then
    ret (Some {| status := 200; headers_out := hdrs; body := None |})
  else if negb (bool_decide (method req = js "POST")) then
    sendError req hdrs 405
              (js "Method not allowed. Only POST requests accepted.") startTime
  else
    do allowed <- rateLimit req;
    match allowed with
    | inl tooMany =>
        logRequest req (VObject [("success", VBool false);
                                 ("error", VString (js "Rate limit exceeded"))])
                   startTime ;;
        ret (Some {| status := 429; headers_out := hdrs;
                     body := Some tooMany |})
    | inr _ =>
        match authenticateAPIKey req with
        | Some error => sendError req hdrs 401 error startTime
        | None =>
            match intake req with
            | Throw e => internalError req hdrs e startTime
            | Ok Hang => ret None
            | Ok (Reject error) => sendError req hdrs 400 error startTime
            | Ok (File buffer fileName) =>
                match processBuffer buffer fileName with
                | Throw e => internalError req hdrs e startTime
                | Ok result =>
                    logRequest req result startTime ;;
                    sendResult hdrs result startTime
                end
            end
        end
    end.

End Handler.

(** What [res.json(v)] puts on the wire: a property whose value is
    [undefined] is left out, an [undefined] array element becomes [null]. *)
Fixpoint prune (f : value -> value) (fs : list (string * value))
  : list (string * value) :=
  match fs with
  | [] => []
  | (k, x) :: fs' =>
      match f x with
      | VUndefined => prune f fs'
      | w => (k, w) :: prune f fs'
      end
  end.

Fixpoint wire (v : value) : value :=
  match v with
  | VArray xs =>
      VArray (map (fun x => match wire x with
                            | VUndefined => VNull
                            | w => w
                            end) xs)
  | VObject fs => VObject (prune wire fs)
  | _ => v
  end.

(** ** A runtime instance

    The POSIX flavour of [path], a scheme-only [URL] and a lenient base64
    decoder, to run the definitions on concrete requests. *)

Module Posix.

Definition slash : N := 47.
Definition dot : N := 46.

Fixpoint dropwhile (f : N -> bool) (s : jsstring) : jsstring :=
  match s with
  | [] => []
  | c :: s' => if f c then dropwhile f s' else s
  end.

Fixpoint takewhile (f : N -> bool) (s : jsstring) : jsstring :=
  match s with
  | [] => []
  | c :: s' => if f c then c :: takewhile f s' else []
  end.

(** The last component of a path, reversed; trailing slashes are dropped. *)
Definition rev_base (p : jsstring) : jsstring :=
  let r := dropwhile (fun c => c =? slash) (rev p) in
  takewhile (fun c => negb (c =? slash)) r.

Fixpoint dropwhile_not_dot (r : jsstring) : option jsstring :=
  match r with
  | [] => None
  | c :: r' => if c =? dot then Some r' else dropwhile_not_dot r'
  end.

Definition extname (p : jsstring) : jsstring :=
  let b := rev_base p in
  match dropwhile_not_dot b with
  | None => []
  | Some [] => []
  | Some (_ :: _) =>
      if bool_decide (b = [dot; dot]) then []
      else dot :: rev (takewhile (fun c => negb (c =? dot)) b)
  end.

Definition basename (p : jsstring) : jsstring := rev (rev_base p).

Definition scheme_char (c : N) : bool :=
  ((97 <=? c) && (c <=? 122)) || ((48 <=? c) && (c <=? 57))
  || (c =? 43) || (c =? 45) || (c =? 46).

Definition protocol (v : value) : outcome jsstring :=
  match v with
  | VString s =>
      let scheme := takewhile (fun c => negb (c =? 58)) (toLowerCase s) in
      if negb (bool_decide (scheme = [])) && forallb scheme_char scheme
         && (length scheme <? length s)%nat
      then Ok (scheme ++ [58])
      else Throw (Error (js "Invalid URL"))
  | _ => Throw (Error (js "Invalid URL"))
  end.

Definition sextet (c : N) : option N :=
  if (65 <=? c) && (c <=? 90) then Some (c - 65)
  else if (97 <=? c) && (c <=? 122) then Some (c - 71)
  else if (48 <=? c) && (c <=? 57) then Some (c + 4)
  else if (c =? 43) || (c =? 45) then Some 62
  else if (c =? 47) || (c =? 95) then Some 63
  else None.

Fixpoint decode64 (acc : N) (bits : N) (s : jsstring) : list byte :=
  match s with
  | [] => []
  | c :: s' =>
      if c =? 61 then []
      else match sextet c with
           | None => decode64 acc bits s'
           | Some v =>
               let acc := acc * 64 + v in
               let bits := bits + 6 in
               if 8 <=? bits then
                 BufferFrom.byte_of_N (N.shiftr acc (bits - 8))
                   :: decode64 (acc mod 2 ^ (bits - 8)) (bits - 8) s'
               else decode64 acc bits s'
           end
  end.

#[export] Instance runtime : Runtime := {|
  path_extname := extname;
  path_basename := basename;
  URL_protocol := protocol;
  base64_decode := decode64 0 0;
  ToUint8_other := fun _ => x00;
  Buffer_fromObject := fun _ =>
    Throw (Error (js "The first argument must be of type string or an instance of Buffer, ArrayBuffer, or Array or an Array-like Object."));
  TypeError_message := fun _ _ => js "TypeError";
  toISOString := Number_toString
|}.

End Posix.

(** A quiet surrounding: the clock advances by one millisecond per reading,
    no key is required and every request to the network times out. *)
Definition quiet : Env := {|
  clock := fun i => Z.of_nat i;
  REQUIRE_API_KEY := None;
  NODE_ENV := None;
  https_get := fun _ => GetEmits [EvTimeout]
|}.

Definition startup : World :=
  {| rateLimitStore := ∅; ticks := 0; console := [] |}.

Definition post (body : value) : Request := {|
  method := js "POST";
  url := js "/api/extract-text";
  headers := [("content-type", js "application/json");
              ("x-api-key", js "test-api-key")];
  remoteAddress := Some (js "127.0.0.1");
  multipart := ParseRejects (Error (js "not multipart"));
  json := Json body
|}.

(** The registered signatures and the tag each is mapped to. *)
Definition signatures : list (jsstring * jsstring) :=
  [(MAGIC_NUMBERS.PDF, js "pdf");
   (MAGIC_NUMBERS.PNG, js "image");
   (MAGIC_NUMBERS.JPEG, js "image");
   (MAGIC_NUMBERS.DOC, js "document");
   (MAGIC_NUMBERS.ZIP, js "document")].

(** The bytes of an ASCII literal. *)
Definition bytes (s : string) : list byte :=
  map byte_of_ascii (list_ascii_of_string s).

(** ** Vocabulary of the properties and example inputs *)

(** Two patterns that differ in their first code unit exclude each other. *)
Definition heads_differ (p q : jsstring) : Prop :=
  match p, q with
  | a :: _, b :: _ => a <> b
  | _, _ => False
  end.

Definition pdfHeader : list byte := bytes "%PDF-1.4".

Definition pngHeader : list byte := [x89; x50; x4e; x47; x0d; x0a; x1a; x0a].

(** As many zero bytes as [MAX_FILE_SIZE] allows. *)
Definition padding : list byte := replicate (N.to_nat 52428800) x00.

(** The bodies the handler sends with a status other than 200. *)
Inductive ErrorBody : Z -> value -> Prop :=
| EnvelopeBody message type hint allowedTypes elapsed :
    ErrorBody 400
      (VObject
         [("success", VBool false);
          ("error", VObject [("message", VString message);
                             ("type", type);
                             ("hint", hint);
                             ("allowedTypes", allowedTypes)]);
          ("executionTime", VString (Number_toString elapsed ++ js "ms"))])
| PlainBody code error :
    code ∈ [400; 401; 405]%Z ->
    ErrorBody code (VObject [("error", VString error)])
| RateLimitBody retryAfter :
    ErrorBody 429
      (VObject [("error", VString (js "Rate limit exceeded"));
                ("retryAfter", retryAfter)])
| InternalBody details :
    ErrorBody 500
      (VObject [("success", VBool false);
                ("error", VString (js "Internal server error"));
                ("details", details)]).

(** The rejections of the transport resolver whose text is fixed; the
    sixth, of a download, ends in the reason. *)
Definition resolverErrors : list jsstring :=
  [js "Invalid JSON body";
   js "No file uploaded. Supported fields: 'file', 'resume', 'document'";
   js "Invalid base64 encoding";
   js "Invalid binary data";
   js "Missing file data. Provide fileUrl, fileBase64, or binaryData"].

Definition downloadFailed (reason : jsstring) : jsstring :=
  js "URL download failed: " ++ reason.

Definition getRequest : Request := {|
  method := js "GET";
  url := js "/api/extract-text";
  headers := [];
  remoteAddress := Some (js "127.0.0.1");
  multipart := ParseRejects (Error (js "not multipart"));
  json := InvalidJson
|}.

(** The number of bytes in a list of chunks. *)
Definition total (cs : list (list byte)) : N := N.of_nat (length (concat cs)).

(** The download after a response with status 200, while data arrive. *)
Definition receiving (cs : list (list byte)) (size : N) : Download :=
  {| promise := Pending; listening := true; chunks := cs; totalSize := size |}.

Definition tooLarge (n : N) : exn :=
  Error (js "File too large: " ++ Number_toString (Z.of_N n) ++ js " bytes").

(** The events that reject a download while it is pending: a response
    with a status other than 200, a chunk that takes the size over the
    maximum, an error of the response once it is listened to, an error of
    the request, and the timeout. *)
Definition fails (d : Download) (ev : NetEvent) : bool :=
  match ev with
  | EvResponse statusCode _ => negb (statusCode =? 200)%Z
  | EvData chunk =>
      listening d
      && (MAX_FILE_SIZE CONFIG <? totalSize d + N.of_nat (length chunk))
  | EvEnd => false
  | EvResponseError _ => listening d
  | EvRequestError _ => true
  | EvTimeout => true
  end.

(** The state of a download after the events [evs]. *)
Definition after (evs : list NetEvent) : Download :=
  foldl on_event download_start evs.

(** A fetch that is answered and runs to its end. *)
Definition complete (statusCode : Z) (statusMessage : jsstring)
    (cs : list (list byte)) : HttpsGet :=
  GetEmits (EvResponse statusCode statusMessage :: map EvData cs ++ [EvEnd]).

Definition schemes : list jsstring := [js "http:"; js "https:"].

Definition exampleUrl : value := VString (js "https://example.com/cv.txt").

(** A surrounding like [quiet] whose network answers every request with
    status 200 and the bytes of [test] in two chunks. *)
Definition served : Env := {|
  clock := fun i => Z.of_nat i;
  REQUIRE_API_KEY := None;
  NODE_ENV := None;
  https_get := fun _ => GetEmits [EvResponse 200 (js "OK");
                                  EvData (bytes "te"); EvData (bytes "st");
                                  EvEnd]
|}.

(** The request with another parsed body. *)
Definition withJson (req : Request) (body : value) : Request := {|
  method := method req;
  url := url req;
  headers := headers req;
  remoteAddress := remoteAddress req;
  multipart := multipart req;
  json := Json body
|}.

Definition missingFileData : jsstring :=
  js "Missing file data. Provide fileUrl, fileBase64, or binaryData".

(** One byte more than [MAX_TEXT_LENGTH] allows. *)
Definition longText : list byte := replicate (N.to_nat 50001) "a"%byte.

(** The code units the decoder still owes for the bytes it has taken: one
    while it is inside a sequence. *)
Definition owed (st : Buffer.utf8_state) : nat :=
  match Buffer.needed st with
  | O => 0
  | S _ => 1
  end.

(** The tags classification can return. *)
Definition knownTags : list jsstring :=
  [js "pdf"; js "image"; js "document"; js "text"; js "unknown"]
    ++ ALLOWED_FILE_TYPES CONFIG.

(** A byte as the number a JSON array holds for it. *)
Definition byteValue (b : byte) : value := VNumber (Z.of_N (Byte.to_N b)).

(** A PNG header sent as n8n binary data. *)
Definition pngRequest : Request :=
  post (VObject [("binaryData",
                   VObject [("data", VArray (map byteValue pngHeader))])]).

(** A surrounding whose clock stands still at [t]. *)
Definition atTime (t : Z) : Env := {|
  clock := fun _ => t;
  REQUIRE_API_KEY := None;
  NODE_ENV := None;
  https_get := fun _ => GetEmits []
|}.

(** A world in which the client of [post] has made [n] requests at time
    0. *)
Definition visited (n : nat) : World :=
  {| rateLimitStore := {[ js "127.0.0.1" := replicate n 0%Z ]};
     ticks := 0; console := [] |}.

(** The CORS headers every response carries. *)
Definition fixedCORS : list (string * jsstring) :=
  [("Access-Control-Allow-Methods", js "POST, OPTIONS");
   ("Access-Control-Allow-Headers", js "Content-Type, Authorization, X-API-Key");
   ("Access-Control-Max-Age", js "86400")].

(** What is left of the pattern [https://*.n8n.io] once its star is
    removed. *)
Definition starless : jsstring := js "https://.n8n.io".

(** * Properties *)

(** ** Strings *)

Lemma startsWith_cons_inv s a p :
  startsWith s (a :: p) = true ->
  exists s', s = a :: s' /\ startsWith s' p = true.
Proof.
  destruct s as [|b s']; simpl; [discriminate|].
  intros [Hab Hp]%andb_prop. apply N.eqb_eq in Hab. subst b. eauto.
Qed.

Lemma startsWith_exclusive s p q :
  heads_differ p q -> startsWith s p = true -> startsWith s q = false.
Proof.
  destruct p as [|a p], q as [|b q]; simpl; try tauto.
  intros Hne (s' & -> & _)%startsWith_cons_inv. simpl.
  destruct (N.eqb_spec b a); [congruence | reflexivity].
Qed.

Lemma includes_absent s c :
  Forall (fun d => d <> c) s -> includes s [c] = false.
Proof.
  induction 1 as [|d s Hd _ IH]; [reflexivity|].
  simpl. rewrite IH. destruct (N.eqb_spec c d); [congruence | reflexivity].
Qed.

Lemma filter_all {A} (P : A -> Prop) `{forall x, Decision (P x)} (l : list A) :
  Forall P l -> filter P l = l.
Proof.
  induction 1 as [|x l Hx _ IH]; [reflexivity|].
  rewrite filter_cons_True by assumption. now rewrite IH.
Qed.

Lemma split_length sep s :
  length (split sep s) = S (length (filter (fun c => c = sep) s)).
Proof.
  induction s as [|c s IH]; [reflexivity|].
  simpl. destruct (N.eqb_spec c sep) as [->|Hne].
  - rewrite filter_cons_True by reflexivity. simpl. now rewrite IH.
  - rewrite filter_cons_False by assumption.
    destruct (split sep s); simpl in *; congruence.
Qed.

(** ** Decoding *)

Lemma utf8_decode_ascii bs :
  Forall (fun b => Byte.to_N b <= 0x7F) bs ->
  Buffer.toString_utf8 bs = map Byte.to_N bs.
Proof.
  unfold Buffer.toString_utf8.
  induction 1 as [|b bs Hb _ IH]; [reflexivity|].
  cbn [Buffer.utf8_decode map].
  change (Buffer.utf8_step Buffer.utf8_start (Byte.to_N b))
    with (Buffer.utf8_lead (Byte.to_N b)).
  unfold Buffer.utf8_lead.
  apply N.leb_le in Hb. rewrite Hb. cbn [app]. now rewrite IH.
Qed.

Lemma printable_ascii c : printable c = true -> c <= 0x7F /\ c <> 0.
Proof.
  unfold printable, LF, CR, TAB. intros Hp.
  repeat (apply orb_prop in Hp as [Hp|Hp]).
  - apply andb_prop in Hp as [H1 H2].
    apply N.leb_le in H1, H2. lia.
  - apply N.eqb_eq in Hp. lia.
  - apply N.eqb_eq in Hp. lia.
  - apply N.eqb_eq in Hp. lia.
Qed.

Section Classification.
Context `{Runtime}.

Lemma no_signature_text buffer fileName :
  (forall sig tag, (sig, tag) ∈ signatures ->
     startsWith (Buffer.toString_hex buffer 0 8) sig = false) ->
  detectFileType buffer fileName =
    let text := Buffer.toString_utf8 buffer in
    if negb (includes text [0])
       && ratio_exceeds_0_8 (length (filter (fun c => printable c) text))
                            (length text)
    then Ok (js "text")
    else if truthy fileName then
      obind (extname fileName) (fun e =>
        let ext := drop 1 (toLowerCase e) in
        if bool_decide (ext ∈ ALLOWED_FILE_TYPES CONFIG) then Ok ext
        else Ok (js "unknown"))
    else Ok (js "unknown").
Proof.
  intros Hno. unfold detectFileType.
  rewrite (Hno MAGIC_NUMBERS.PDF (js "pdf")) by (unfold signatures; set_solver).
  rewrite (Hno MAGIC_NUMBERS.PNG (js "image")) by (unfold signatures; set_solver).
  rewrite (Hno MAGIC_NUMBERS.JPEG (js "image")) by (unfold signatures; set_solver).
  rewrite (Hno MAGIC_NUMBERS.DOC (js "document")) by (unfold signatures; set_solver).
  rewrite (Hno MAGIC_NUMBERS.ZIP (js "document")) by (unfold signatures; set_solver).
  reflexivity.
Qed.

(** The ordered signature checks, whatever comes after them. *)
Lemma signature_checks (magic sig tag : jsstring) (rest : outcome jsstring) :
  (sig, tag) ∈ signatures ->
  startsWith magic sig = true ->
  (if startsWith magic MAGIC_NUMBERS.PDF then Ok (js "pdf")
   else if startsWith magic MAGIC_NUMBERS.PNG
           || startsWith magic MAGIC_NUMBERS.JPEG then Ok (js "image")
   else if startsWith magic MAGIC_NUMBERS.DOC
           || startsWith magic MAGIC_NUMBERS.ZIP then Ok (js "document")
   else rest) = Ok tag.
Proof.
  intros Hin Hsig. unfold signatures in Hin.
  repeat (apply elem_of_cons in Hin as [Hin|Hin]; [injection Hin as -> ->|]).
  all: rewrite ?Hsig.
  all: repeat match goal with
       | Hp : startsWith ?m ?p = true |- context [startsWith ?m ?q] =>
           rewrite (startsWith_exclusive m p q)
             by first [ exact Hp | vm_compute; discriminate ]
       end.
  all: try reflexivity; try (now rewrite orb_true_r).
  now apply elem_of_nil in Hin.
Qed.

(** C1.  A buffer whose first eight bytes, hex-encoded, start with a
    registered signature is classified with the tag the signature is mapped
    to, whatever the file name: the signature check comes before the text
    heuristic and the extension fallback, and no two signatures can match
    the same buffer. *)
Theorem signature_decides_tag (buffer : list byte) (fileName : value)
    (sig tag : jsstring) :
  (sig, tag) ∈ signatures ->
  startsWith (Buffer.toString_hex buffer 0 8) sig = true ->
  detectFileType buffer fileName = Ok tag.
Proof.
  intros Hin Hsig. unfold detectFileType.
  now apply signature_checks with (sig := sig).
Qed.

(** C2, amended.  A buffer that is not empty, matches no signature and
    consists of printable ASCII and whitespace bytes only (so it holds no
    null byte) is classified as text, whatever the file name. *)
Theorem printable_buffer_is_text (buffer : list byte) (fileName : value) :
  buffer <> [] ->
  (forall sig tag, (sig, tag) ∈ signatures ->
     startsWith (Buffer.toString_hex buffer 0 8) sig = false) ->
  Forall (fun b => printable (Byte.to_N b) = true) buffer ->
  detectFileType buffer fileName = Ok (js "text").
Proof.
  intros Hne Hno Hpr. rewrite no_signature_text by assumption. cbv zeta.
  rewrite utf8_decode_ascii
    by (eapply Forall_impl; [exact Hpr|]; intros b Hb;
        now apply printable_ascii in Hb).
  rewrite includes_absent.
  2:{ apply Forall_fmap. eapply Forall_impl; [exact Hpr|].
      intros b Hb. now apply printable_ascii in Hb. }
  replace (filter (fun c => printable c) (map Byte.to_N buffer))
    with (map Byte.to_N buffer).
  2:{ symmetry. apply filter_all. apply Forall_fmap.
      eapply Forall_impl; [exact Hpr|]. intros b Hb. simpl. now rewrite Hb. }
  unfold ratio_exceeds_0_8. simpl negb. rewrite andb_true_l.
  destruct buffer as [|b bs]; [congruence|].
  replace (_ <? _) with true; [reflexivity|].
  symmetry. apply N.ltb_lt. rewrite length_map. simpl length. lia.
Qed.

End Classification.

Lemma signature_decides_tag_witness :
  (MAGIC_NUMBERS.PNG, js "image") ∈ signatures
  /\ startsWith
       (Buffer.toString_hex [x89; x50; x4e; x47; x0d; x0a; x1a; x0a] 0 8)
       MAGIC_NUMBERS.PNG = true
  /\ detectFileType (H := Posix.runtime)
       [x89; x50; x4e; x47; x0d; x0a; x1a; x0a] (VString (js "notes.txt"))
     = Ok (js "image").
Proof.
  assert (Hin : (MAGIC_NUMBERS.PNG, js "image") ∈ signatures)
    by (unfold signatures; repeat constructor).
  assert (Hsig : startsWith
            (Buffer.toString_hex [x89; x50; x4e; x47; x0d; x0a; x1a; x0a] 0 8)
            MAGIC_NUMBERS.PNG = true) by reflexivity.
  split; [exact Hin|]. split; [exact Hsig|].
  exact (signature_decides_tag (H := Posix.runtime) _ _ _ _ Hin Hsig).
Defined.

Lemma no_signature_of_test :
  forall sig tag, (sig, tag) ∈ signatures ->
    startsWith (Buffer.toString_hex (bytes "test") 0 8) sig = false.
Proof.
  intros sig tag Hin. unfold signatures in Hin.
  repeat (apply elem_of_cons in Hin as [Hin|Hin];
          [injection Hin as -> ->; reflexivity|]).
  now apply elem_of_nil in Hin.
Defined.

Lemma printable_buffer_is_text_witness :
  bytes "test" <> []
  /\ Forall (fun b => printable (Byte.to_N b) = true) (bytes "test")
  /\ detectFileType (H := Posix.runtime) (bytes "test")
       (VString (js "archive.bin")) = Ok (js "text").
Proof.
  assert (Hne : bytes "test" <> []) by discriminate.
  assert (Hpr : Forall (fun b => printable (Byte.to_N b) = true)
                       (bytes "test"))
    by (repeat constructor).
  split; [exact Hne|]. split; [exact Hpr|].
  exact (printable_buffer_is_text (H := Posix.runtime) _ _
           Hne no_signature_of_test Hpr).
Defined.

(** C2 as stated fails on the empty buffer: it matches no signature and
    holds no unprintable byte, yet the printable ratio of the empty string
    is 0/0, which does not exceed 0.8, and classification falls through to
    the extension. *)
Lemma empty_buffer_is_not_text :
  (forall sig tag, (sig, tag) ∈ signatures ->
     startsWith (Buffer.toString_hex [] 0 8) sig = false)
  /\ Forall (fun b => printable (Byte.to_N b) = true) []
  /\ includes (Buffer.toString_utf8 []) [0] = false
  /\ detectFileType (H := Posix.runtime) [] (VString (js "archive.bin"))
     = Ok (js "unknown")
  /\ detectFileType (H := Posix.runtime) [] (VString (js "notes.txt"))
     = Ok (js "txt")
  /\ detectFileType (H := Posix.runtime) [] VUndefined = Ok (js "unknown").
Proof.
  split.
  { intros sig tag Hin. unfold signatures in Hin.
    repeat (apply elem_of_cons in Hin as [Hin|Hin];
            [injection Hin as -> ->; reflexivity|]).
    now apply elem_of_nil in Hin. }
  split; [constructor|]. repeat split; reflexivity.
Qed.

Section Processing.
Context `{Runtime}.

Lemma dispatch_text fileType buffer fileName :
  fileType ∈ textTypes ->
  dispatch fileType buffer fileName =
    textResult fileType fileName (length buffer) (Buffer.toString_utf8 buffer).
Proof.
  intros Hin. unfold dispatch.
  rewrite (bool_decide_eq_true_2 _ Hin).
  rewrite bool_decide_eq_false_2; [reflexivity|].
  intros ->. exact (bool_decide_eq_false_1 (js "pdf" ∈ textTypes) eq_refl Hin).
Qed.

Lemma processBuffer_within buffer fileName fileType :
  detectFileType buffer fileName = Ok fileType ->
  N.of_nat (length buffer) <= MAX_FILE_SIZE CONFIG ->
  processBuffer buffer fileName = Ok (dispatch fileType buffer fileName).
Proof.
  intros Hd Hsize. unfold processBuffer. rewrite Hd. cbn [obind].
  apply N.ltb_ge in Hsize. now rewrite Hsize.
Qed.

Lemma processBuffer_oversized buffer fileName fileType :
  detectFileType buffer fileName = Ok fileType ->
  MAX_FILE_SIZE CONFIG < N.of_nat (length buffer) ->
  processBuffer buffer fileName
  = Ok (oversized (N.of_nat (length buffer)) fileType).
Proof.
  intros Hd Hsize. unfold processBuffer. rewrite Hd. cbn [obind].
  apply N.ltb_lt in Hsize. now rewrite Hsize.
Qed.

(** C3.  A buffer that reaches the text handler (its tag is one of text,
    txt, html, htm and its size is within the limit): when the decoded
    text has at most [MAX_TEXT_LENGTH] code units the result carries the
    decoded text unchanged and [lines] is one more than the number of line
    feeds in it; when it is longer, the result carries the first
    [MAX_TEXT_LENGTH] code units followed by the truncation notice,
    [truncated] is true, [originalLength] is the decoded length and
    [extractedLength] is [MAX_TEXT_LENGTH]. *)
Theorem text_handler_result (buffer : list byte) (fileName : value)
    (fileType : jsstring) :
  detectFileType buffer fileName = Ok fileType ->
  fileType ∈ textTypes ->
  N.of_nat (length buffer) <= MAX_FILE_SIZE CONFIG ->
  let text := Buffer.toString_utf8 buffer in
  exists result,
    processBuffer buffer fileName = Ok result
    /\ (N.of_nat (length text) <= MAX_TEXT_LENGTH CONFIG ->
        get "text" result = VString text
        /\ get "lines" (get "metadata" result)
           = num (1 + length (filter (fun c => c = LF) text)))
    /\ (MAX_TEXT_LENGTH CONFIG < N.of_nat (length text) ->
        let kept := substring0 text (MAX_TEXT_LENGTH CONFIG) in
        get "text" result = VString (kept ++ truncationNotice)
        /\ N.of_nat (length kept) = MAX_TEXT_LENGTH CONFIG
        /\ get "truncated" result = VBool true
        /\ get "originalLength" result = num (length text)
        /\ get "extractedLength" result
           = VNumber (Z.of_N (MAX_TEXT_LENGTH CONFIG))).
Proof.
  intros Hd Hin Hsize text.
  exists (dispatch fileType buffer fileName).
  split; [now apply processBuffer_within|].
  rewrite dispatch_text by assumption. fold text. unfold textResult.
  split.
  - intros Hle. apply N.ltb_ge in Hle. rewrite Hle.
    split; [reflexivity|]. cbn [get lookup_field String.eqb].
    simpl. now rewrite split_length.
  - intros Hlt. pose proof Hlt as Hlt'. apply N.ltb_lt in Hlt'. rewrite Hlt'.
    cbv zeta. split; [reflexivity|].
    split; [|repeat split; reflexivity].
    unfold substring0. rewrite length_take. lia.
Qed.

End Processing.

Lemma text_handler_result_witness :
  let buffer := bytes "one" ++ [x0a] ++ bytes "two" in
  detectFileType (H := Posix.runtime) buffer (VString (js "notes.txt"))
    = Ok (js "text")
  /\ js "text" ∈ textTypes
  /\ N.of_nat (length buffer) <= MAX_FILE_SIZE CONFIG
  /\ exists result,
       processBuffer (H := Posix.runtime) buffer (VString (js "notes.txt"))
         = Ok result
       /\ get "text" result = VString (js "one" ++ [LF] ++ js "two")
       /\ get "lines" (get "metadata" result) = VNumber 2.
Proof.
  intros buffer.
  assert (Hd : detectFileType (H := Posix.runtime) buffer
                 (VString (js "notes.txt")) = Ok (js "text")) by reflexivity.
  assert (Hin : js "text" ∈ textTypes) by (unfold textTypes; repeat constructor).
  assert (Hsize : N.of_nat (length buffer) <= MAX_FILE_SIZE CONFIG)
    by (vm_compute; discriminate).
  split; [exact Hd|]. split; [exact Hin|]. split; [exact Hsize|].
  destruct (text_handler_result (H := Posix.runtime) buffer
              (VString (js "notes.txt")) (js "text") Hd Hin Hsize)
    as (result & Hres & Hshort & _).
  exists result. split; [exact Hres|].
  apply Hshort. vm_compute. discriminate.
Defined.

(** ** The size guard *)

Lemma max_size_suffix :
  js " bytes (max: " ++ Number_toString (Z.of_N (MAX_FILE_SIZE CONFIG))
    ++ js " bytes)"
  = js " bytes (max: 52428800 bytes)".
Proof. vm_compute. reflexivity. Qed.

Lemma oversized_fields n fileType :
  get "success" (oversized (N.of_nat n) fileType) = VBool false
  /\ get "error" (oversized (N.of_nat n) fileType)
     = VString (js "File too large: " ++ Number_toString (Z.of_nat n)
                  ++ js " bytes (max: 52428800 bytes)")
  /\ get "type" (oversized (N.of_nat n) fileType) = VString fileType.
Proof.
  split; [reflexivity|]. split; [|reflexivity].
  change (get "error" (oversized (N.of_nat n) fileType))
    with (VString (fileTooLarge (N.of_nat n))).
  unfold fileTooLarge. now rewrite max_size_suffix, nat_N_Z.
Qed.

Section SizeGuard.
Context `{Runtime}.

Lemma oversized_is_no_handler_result n fileType t buffer fileName :
  oversized n fileType <> dispatch t buffer fileName.
Proof.
  unfold oversized, dispatch, pdfResult, textResult, rejection.
  repeat case_bool_decide; try discriminate.
  destruct (_ <? _); discriminate.
Qed.

(** C4, amended.  For a buffer longer than [MAX_FILE_SIZE] that
    classification gives a tag, processing returns the file-too-large
    failure: [success] is false, the message reports the actual byte count
    and the maximum, and [type] is the tag classification gave (it runs
    before the size check).  The failure is not the result of a per-type
    handler: those are reached only by buffers within the limit. *)
Theorem oversized_buffer_fails (buffer : list byte) (fileName : value)
    (fileType : jsstring) :
  detectFileType buffer fileName = Ok fileType ->
  MAX_FILE_SIZE CONFIG < N.of_nat (length buffer) ->
  exists result,
    processBuffer buffer fileName = Ok result
    /\ get "success" result = VBool false
    /\ get "error" result
       = VString (js "File too large: "
                    ++ Number_toString (Z.of_nat (length buffer))
                    ++ js " bytes (max: 52428800 bytes)")
    /\ get "type" result = VString fileType
    /\ forall t, result <> dispatch t buffer fileName.
Proof.
  intros Hd Hsize.
  exists (oversized (N.of_nat (length buffer)) fileType).
  split; [now apply processBuffer_oversized|].
  destruct (oversized_fields (length buffer) fileType) as (Hs & He & Ht).
  repeat split; try assumption.
  intros t. apply oversized_is_no_handler_result.
Qed.

Lemma header_decides_tag (header tail : list byte) (fileName : value)
    (sig tag : jsstring) :
  (sig, tag) ∈ signatures ->
  length header = 8%nat ->
  startsWith (Buffer.toString_hex header 0 8) sig = true ->
  detectFileType (header ++ tail) fileName = Ok tag.
Proof.
  intros Hin Hlen Hsig. unfold detectFileType.
  apply signature_checks with (sig := sig); [assumption|].
  revert Hsig. unfold Buffer.toString_hex, Buffer.slice.
  rewrite !drop_0. change (8 - 0)%nat with 8%nat. rewrite <- Hlen.
  now rewrite take_app_length, firstn_all.
Qed.

End SizeGuard.

Lemma padded_is_oversized (header : list byte) :
  length header = 8%nat ->
  MAX_FILE_SIZE CONFIG < N.of_nat (length (header ++ padding)).
Proof.
  intros Hlen. unfold padding. rewrite length_app, length_replicate, Hlen.
  change (MAX_FILE_SIZE CONFIG) with 52428800. lia.
Qed.

Lemma oversized_buffer_fails_witness :
  detectFileType (H := Posix.runtime) (pdfHeader ++ padding) VUndefined
    = Ok (js "pdf")
  /\ MAX_FILE_SIZE CONFIG < N.of_nat (length (pdfHeader ++ padding))
  /\ exists result,
       processBuffer (H := Posix.runtime) (pdfHeader ++ padding) VUndefined
         = Ok result
       /\ get "success" result = VBool false
       /\ get "error" result
          = VString (js "File too large: "
                       ++ Number_toString
                            (Z.of_nat (length (pdfHeader ++ padding)))
                       ++ js " bytes (max: 52428800 bytes)")
       /\ get "type" result = VString (js "pdf")
       /\ forall t, result <> dispatch t (pdfHeader ++ padding) VUndefined.
Proof.
  assert (Hd : detectFileType (H := Posix.runtime) (pdfHeader ++ padding)
                 VUndefined = Ok (js "pdf")).
  { apply header_decides_tag with (sig := MAGIC_NUMBERS.PDF);
      [unfold signatures; repeat constructor | reflexivity | reflexivity]. }
  assert (Hsize : MAX_FILE_SIZE CONFIG
                  < N.of_nat (length (pdfHeader ++ padding)))
    by (apply padded_is_oversized; reflexivity).
  split; [exact Hd|]. split; [exact Hsize|].
  exact (oversized_buffer_fails (H := Posix.runtime) _ _ _ Hd Hsize).
Defined.

(** C4 as stated fails: classification runs before the size check and its
    tag is part of the failure.  Two buffers of the same length, both over
    the limit, get different failures. *)
Lemma oversized_failure_carries_tag :
  length (pdfHeader ++ padding) = length (pngHeader ++ padding)
  /\ MAX_FILE_SIZE CONFIG < N.of_nat (length (pdfHeader ++ padding))
  /\ (exists result,
        processBuffer (H := Posix.runtime) (pdfHeader ++ padding) VUndefined
          = Ok result
        /\ get "success" result = VBool false
        /\ get "type" result = VString (js "pdf"))
  /\ (exists result,
        processBuffer (H := Posix.runtime) (pngHeader ++ padding) VUndefined
          = Ok result
        /\ get "success" result = VBool false
        /\ get "type" result = VString (js "image")).
Proof.
  split; [now rewrite !length_app|].
  split; [apply padded_is_oversized; reflexivity|].
  split.
  - eexists. split.
    + apply processBuffer_oversized; [|apply padded_is_oversized; reflexivity].
      apply header_decides_tag with (sig := MAGIC_NUMBERS.PDF);
        [unfold signatures; repeat constructor | reflexivity | reflexivity].
    + split; reflexivity.
  - eexists. split.
    + apply processBuffer_oversized; [|apply padded_is_oversized; reflexivity].
      apply header_decides_tag with (sig := MAGIC_NUMBERS.PNG);
        [unfold signatures; repeat constructor | reflexivity | reflexivity].
    + split; reflexivity.
Qed.

(** ** The buffer is only read *)

Section ReadOnly.
Context `{Runtime}.

Lemma hbind_read {A B} h ref bytes (method : list byte -> A)
    (k : A -> ByRef.HM B) :
  h !! ref = Some bytes ->
  ByRef.hbind (ByRef.read ref method) k h = k (method bytes) h.
Proof. intros Href. unfold ByRef.hbind, ByRef.read. now rewrite Href. Qed.

Lemma detectFileType_by_ref h ref bytes fileName :
  h !! ref = Some bytes ->
  ByRef.detectFileType ref fileName h = (detectFileType bytes fileName, h).
Proof.
  intros Href. unfold ByRef.detectFileType, detectFileType.
  rewrite (hbind_read _ _ _ _ _ Href).
  destruct (startsWith _ MAGIC_NUMBERS.PDF); [reflexivity|].
  destruct (_ || _); [reflexivity|].
  destruct (_ || _); [reflexivity|].
  rewrite (hbind_read _ _ _ _ _ Href).
  destruct (_ && _); [reflexivity|].
  destruct (truthy fileName); [|reflexivity].
  unfold ByRef.hbind, ByRef.lift.
  destruct (extname fileName) as [e|e]; cbn [obind]; [|reflexivity].
  destruct (bool_decide _); reflexivity.
Qed.

Lemma processBuffer_by_ref h ref bytes fileName :
  h !! ref = Some bytes ->
  ByRef.processBuffer ref fileName h = (processBuffer bytes fileName, h).
Proof.
  intros Href.
  unfold ByRef.processBuffer, processBuffer, ByRef.hbind at 1.
  rewrite (detectFileType_by_ref _ _ _ _ Href).
  destruct (detectFileType bytes fileName) as [fileType|e];
    cbn [obind]; [|reflexivity].
  rewrite (hbind_read _ _ _ _ _ Href).
  destruct (_ <? _); [reflexivity|]. unfold dispatch.
  destruct (bool_decide (fileType = _));
    [now rewrite (hbind_read _ _ _ _ _ Href)|].
  destruct (bool_decide _);
    [now rewrite (hbind_read _ _ _ _ _ Href)|reflexivity].
Qed.

(** C9.  Run on a reference to a buffer in a heap, classification and
    processing return what the functions on the bytes return and leave the
    heap, hence the buffer, as it was; two runs on buffers that hold the
    same bytes, with the same file name, return the same, whatever else
    the heaps hold. *)
Theorem buffer_is_read_only (h : ByRef.Heap) (ref : nat) (bytes : list byte)
    (fileName : value) :
  h !! ref = Some bytes ->
  ByRef.detectFileType ref fileName h = (detectFileType bytes fileName, h)
  /\ ByRef.processBuffer ref fileName h = (processBuffer bytes fileName, h)
  /\ snd (ByRef.processBuffer ref fileName h) !! ref = Some bytes
  /\ forall h' ref',
       h' !! ref' = Some bytes ->
       fst (ByRef.detectFileType ref' fileName h')
         = fst (ByRef.detectFileType ref fileName h)
       /\ fst (ByRef.processBuffer ref' fileName h')
          = fst (ByRef.processBuffer ref fileName h).
Proof.
  intros Href.
  rewrite (detectFileType_by_ref _ _ _ _ Href),
    (processBuffer_by_ref _ _ _ _ Href).
  do 3 (split; [reflexivity || exact Href|]).
  intros h' ref' Href'.
  now rewrite (detectFileType_by_ref _ _ _ _ Href'),
    (processBuffer_by_ref _ _ _ _ Href').
Qed.

End ReadOnly.

Lemma buffer_is_read_only_witness :
  let h : ByRef.Heap := {[ 7%nat := bytes "test" ]} in
  h !! 7%nat = Some (bytes "test")
  /\ ByRef.processBuffer (H := Posix.runtime) 7 (VString (js "a.txt")) h
     = (processBuffer (H := Posix.runtime) (bytes "test")
          (VString (js "a.txt")), h).
Proof.
  intros h.
  assert (Href : h !! 7%nat = Some (bytes "test")) by reflexivity.
  split; [exact Href|].
  exact (proj1 (proj2 (buffer_is_read_only (H := Posix.runtime) h 7 _
                         (VString (js "a.txt")) Href))).
Defined.

(** ** The shapes of the error responses *)

(** Splits the facts stated of an answer and closes those about a status
    the answer does not have. *)
Ltac answered :=
  split; [|split; [|split; [|split; [|split; [|split; [|split]]]]]];
  try solve [intros Hin; apply list_elem_of_In in Hin; simpl in Hin;
             intuition discriminate];
  try solve [intros _; reflexivity];
  try solve [intros [=]];
  try (intros _).

Section Shapes.
Context `{Runtime}.
Variable env : Env.

Lemma fst_bind {A B} (m : State A) (k : A -> State B) w :
  fst (bind m k w) = fst (k (fst (m w)) (snd (m w))).
Proof. unfold bind. now destruct (m w). Qed.

Lemma sendError_response req hdrs code error startTime w :
  fst (sendError env req hdrs code error startTime w)
  = Some {| status := code; headers_out := hdrs;
            body := Some (VObject [("error", VString error)]) |}.
Proof. unfold sendError. now rewrite fst_bind. Qed.

Lemma internalError_response req hdrs e startTime w :
  exists details,
    fst (internalError env req hdrs e startTime w)
    = Some {| status := 500; headers_out := hdrs;
              body := Some (VObject
                [("success", VBool false);
                 ("error", VString (js "Internal server error"));
                 ("details", details)]) |}.
Proof. eexists. unfold internalError. now rewrite !fst_bind. Qed.

(** A failure returned by [processBuffer] carries its message as a
    string. *)
Lemma failure_has_message buffer fileName result :
  processBuffer buffer fileName = Ok result ->
  truthy (get "success" result) = false ->
  exists message, get "error" result = VString message.
Proof.
  unfold processBuffer.
  destruct (detectFileType buffer fileName) as [fileType|e];
    cbn [obind]; [|discriminate].
  destruct (_ <? _); intros [= <-]; [eexists; reflexivity|].
  unfold dispatch, pdfResult, textResult, rejection.
  repeat case_bool_decide; try (cbn; discriminate);
    try (intros _; eexists; reflexivity).
  destruct (_ <? _); cbn; discriminate.
Qed.

Lemma sendResult_success hdrs result startTime w :
  truthy (get "success" result) = true ->
  exists resp,
    fst (sendResult env hdrs result startTime w) = Some resp
    /\ status resp = 200%Z.
Proof.
  intros Hs. unfold sendResult. rewrite fst_bind, Hs. cbn [ret fst].
  eexists. split; reflexivity.
Qed.

Lemma rateLimit_body req w v :
  fst (rateLimit env req w) = inl v ->
  exists retryAfter,
    v = VObject [("error", VString (js "Rate limit exceeded"));
                 ("retryAfter", retryAfter)].
Proof.
  unfold rateLimit. rewrite fst_bind. cbv beta.
  destruct (bool_decide _); cbn [fst]; [|discriminate].
  intros [= <-]. eexists. reflexivity.
Qed.

(** The transport resolver rejects with one of six errors. *)
Lemma intake_rejections req error :
  intake env req = Ok (Reject error) ->
  error ∈ resolverErrors \/ exists reason, error = downloadFailed reason.
Proof.
  assert (Hfixed : forall e, In e resolverErrors ->
            e ∈ resolverErrors \/ exists reason, e = downloadFailed reason)
    by (intros e He; left; now apply list_elem_of_In).
  unfold intake. destruct (includes _ _).
  - destruct (multipart req) as [e|file resume document]; [discriminate|].
    destruct (uploadedFile file resume document) as [f|].
    + destruct (readFileSync f); cbn [obind]; discriminate.
    + intros [= <-]. apply Hfixed. cbn. tauto.
  - destruct (json req) as [e| |body]; [discriminate| |].
    { intros [= <-]. apply Hfixed. cbn. tauto. }
    destruct (get_prop "fileUrl" body) as [fileUrl|e];
      cbn [obind]; [|discriminate].
    destruct (truthy fileUrl).
    { destruct (downloadFileFromUrl _ _) as [|buffer|e]; [discriminate| |].
      - destruct (basename fileUrl) as [fileName|e]; cbn [obind try_catch];
          [discriminate|].
        intros [= <-]. right. eexists. reflexivity.
      - intros [= <-]. right. eexists. reflexivity. }
    destruct (get_prop "fileBase64" body) as [fileBase64|e];
      cbn [obind]; [|discriminate].
    destruct (truthy fileBase64).
    { destruct (BufferFrom.from _ _) as [buffer|e]; cbn [obind try_catch].
      - destruct (get_prop "fileName" body); cbn [obind try_catch];
          [discriminate|].
        intros [= <-]. apply Hfixed. cbn. tauto.
      - intros [= <-]. apply Hfixed. cbn. tauto. }
    destruct (get_prop "binaryData" body) as [binaryData|e];
      cbn [obind]; [|discriminate].
    destruct (truthy binaryData).
    { destruct (get_prop "data" binaryData) as [data|e];
        cbn [obind try_catch];
        [|intros [= <-]; apply Hfixed; cbn; tauto].
      destruct (BufferFrom.from _ _) as [buffer|e]; cbn [obind try_catch];
        [|intros [= <-]; apply Hfixed; cbn; tauto].
      destruct (get_prop "fileName" body); cbn [obind try_catch];
        [discriminate|].
      intros [= <-]. apply Hfixed. cbn. tauto. }
    intros [= <-]. apply Hfixed. cbn. tauto.
Qed.

Lemma sendResult_envelope hdrs result startTime w :
  truthy (get "success" result) = false ->
  exists elapsed,
    fst (sendResult env hdrs result startTime w)
    = Some {| status := 400; headers_out := hdrs;
              body := Some (VObject
                [("success", VBool false);
                 ("error", VObject
                    [("message", get "error" result);
                     ("type", get "type" result);
                     ("hint", get "hint" result);
                     ("allowedTypes", get "allowedTypes" result)]);
                 ("executionTime",
                   VString (Number_toString elapsed ++ js "ms"))]) |}.
Proof.
  intros Hs. unfold sendResult. rewrite fst_bind, Hs. cbn [ret fst].
  eexists. reflexivity.
Qed.

Lemma internalError_details req hdrs e startTime w :
  fst (internalError env req hdrs e startTime w)
  = Some {| status := 500; headers_out := hdrs;
            body := Some (VObject
              [("success", VBool false);
               ("error", VString (js "Internal server error"));
               ("details",
                 if bool_decide (NODE_ENV env = Some (js "development"))
                 then VString (message e) else VUndefined)]) |}.
Proof. unfold internalError. now rewrite !fst_bind. Qed.

(** C5, amended.  Every response with a status other than 200 has a body,
    and the body has one of four shapes, each tied to its cause.  The
    uniform envelope (success false, an error object with the message, the
    type, the hint and the allowed types of the result, executionTime) is
    sent with status 400 for a failure result of [processBuffer], and for
    nothing else: a 400 for a request the transport resolver rejects is
    [{ error }] with one of the resolver's six errors.  The 401 is
    [{ error }] with the error of the key check, the 405 is [{ error }]
    for a method other than POST, the 429 is the [{ error, retryAfter }] of
    the rate limiter, the 500 is [{ success: false, error, details }] for
    an exception of the resolver or of [processBuffer].  None of the 401,
    405, 429 and 500 bodies has an executionTime, and none of the 401, 405
    and 429 bodies has a success field.  Conversely each cause is answered
    with its body: the method, the rate limiter, the key check, the
    resolver and [processBuffer], in this order. *)
Theorem error_response_shapes (req : Request) (w : World) :
  let answer code b :=
    fst (handler env req w)
    = Some {| status := code;
              headers_out := setSecurityHeaders ++ handleCORS req;
              body := Some b |} in
  let plain error := VObject [("error", VString error)] in
  let internal e :=
    VObject [("success", VBool false);
             ("error", VString (js "Internal server error"));
             ("details",
               if bool_decide (NODE_ENV env = Some (js "development"))
               then VString (message e) else VUndefined)] in
  let envelope result message elapsed :=
    VObject [("success", VBool false);
             ("error", VObject
                [("message", VString message);
                 ("type", get "type" result);
                 ("hint", get "hint" result);
                 ("allowedTypes", get "allowedTypes" result)]);
             ("executionTime",
               VString (Number_toString elapsed ++ js "ms"))] in
  let limited := fst (rateLimit env req (snd (Date_now env w))) in
  (forall resp,
     fst (handler env req w) = Some resp ->
     status resp <> 200%Z ->
     exists b,
       body resp = Some b
       /\ ErrorBody (status resp) b
       /\ (status resp ∈ [401; 405; 429; 500]%Z ->
           get "executionTime" b = VUndefined)
       /\ (status resp ∈ [401; 405; 429]%Z -> get "success" b = VUndefined)
       /\ (status resp = 400%Z ->
           (exists buffer fileName result message elapsed,
              intake env req = Ok (File buffer fileName)
              /\ processBuffer buffer fileName = Ok result
              /\ truthy (get "success" result) = false
              /\ get "error" result = VString message
              /\ b = envelope result message elapsed)
           \/ (exists error,
                 intake env req = Ok (Reject error)
                 /\ (error ∈ resolverErrors
                     \/ exists reason, error = downloadFailed reason)
                 /\ b = plain error))
       /\ (status resp = 401%Z ->
           exists error,
             authenticateAPIKey env req = Some error /\ b = plain error)
       /\ (status resp = 405%Z ->
           method req <> js "POST"
           /\ b = plain (js "Method not allowed. Only POST requests accepted."))
       /\ (status resp = 429%Z ->
           limited = inl b
           /\ exists retryAfter,
                b = VObject [("error", VString (js "Rate limit exceeded"));
                             ("retryAfter", retryAfter)])
       /\ (status resp = 500%Z ->
           exists e,
             (intake env req = Throw e
              \/ exists buffer fileName,
                   intake env req = Ok (File buffer fileName)
                   /\ processBuffer buffer fileName = Throw e)
             /\ b = internal e))
  /\ (method req <> js "OPTIONS" -> method req <> js "POST" ->
      answer 405%Z
        (plain (js "Method not allowed. Only POST requests accepted.")))
  /\ (method req = js "POST" ->
      (forall tooMany, limited = inl tooMany -> answer 429%Z tooMany)
      /\ (limited = inr tt ->
          (forall error,
             authenticateAPIKey env req = Some error ->
             answer 401%Z (plain error))
          /\ (authenticateAPIKey env req = None ->
              (forall error,
                 intake env req = Ok (Reject error) ->
                 answer 400%Z (plain error))
              /\ (forall e,
                    intake env req = Throw e -> answer 500%Z (internal e))
              /\ (forall buffer fileName,
                    intake env req = Ok (File buffer fileName) ->
                    (forall e,
                       processBuffer buffer fileName = Throw e ->
                       answer 500%Z (internal e))
                    /\ (forall result,
                          processBuffer buffer fileName = Ok result ->
                          truthy (get "success" result) = false ->
                          exists message elapsed,
                            get "error" result = VString message
                            /\ answer 400%Z
                                 (envelope result message elapsed)))))).
Proof.
  intros answer plain internal envelope limited.
  subst answer plain internal envelope limited. cbv beta.
  split; [|split].
  { intros resp.
    unfold handler. rewrite fst_bind.
    set (startTime := fst (Date_now env w)). set (w1 := snd (Date_now env w)).
    set (hdrs := setSecurityHeaders ++ handleCORS req).
    case_bool_decide as Hopt.
    { cbn. intros [= <-]. cbn. congruence. }
    destruct (negb _) eqn:Hpost.
    { rewrite sendError_response. intros [= <-] _. cbn [status body].
      eexists. split; [reflexivity|]. answered.
      - constructor. set_solver.
      - apply negb_true_iff in Hpost. split; [|reflexivity].
        intros Hm. rewrite Hm, bool_decide_eq_true_2 in Hpost by reflexivity.
        discriminate. }
    rewrite fst_bind.
    destruct (fst (rateLimit env req w1)) as [tooMany|[]] eqn:Hlimit.
    { destruct (rateLimit_body _ _ _ Hlimit) as [retryAfter ->].
      rewrite fst_bind. cbn [ret fst]. intros [= <-] _. cbn [status body].
      eexists. split; [reflexivity|]. answered.
      - constructor.
      - split; [reflexivity|]. eexists. reflexivity. }
    set (w2 := snd (rateLimit env req w1)).
    destruct (authenticateAPIKey env req) as [error|].
    { rewrite sendError_response. intros [= <-] _. cbn [status body].
      eexists. split; [reflexivity|]. answered.
      - constructor. set_solver.
      - eexists. split; reflexivity. }
    destruct (intake env req) as [[buffer fileName|error|]|e] eqn:Hintake.
    - destruct (processBuffer buffer fileName) as [result|e] eqn:Hresult.
      + rewrite fst_bind.
        destruct (truthy (get "success" result)) eqn:Hs.
        * destruct (sendResult_success hdrs result startTime
                      (snd (logRequest env req result startTime w2)) Hs)
            as (resp' & -> & Hst).
          intros [= <-]. congruence.
        * destruct (failure_has_message _ _ _ Hresult Hs) as [message He].
          destruct (sendResult_envelope hdrs result startTime
                      (snd (logRequest env req result startTime w2)) Hs)
            as [elapsed ->].
          intros [= <-] _. cbn [status body]. rewrite He.
          eexists. split; [reflexivity|]. answered.
          -- constructor.
          -- left. exists buffer, fileName, result, message, elapsed.
             repeat (split; [reflexivity || assumption|]). reflexivity.
      + rewrite internalError_details.
        intros [= <-] _. cbn [status body].
        eexists. split; [reflexivity|]. answered.
        * constructor.
        * exists e. split; [|reflexivity]. right. eauto.
    - rewrite sendError_response. intros [= <-] _. cbn [status body].
      eexists. split; [reflexivity|]. answered.
      + constructor. set_solver.
      + right. exists error. split; [reflexivity|].
        split; [now apply intake_rejections with (req := req)|reflexivity].
    - discriminate.
    - rewrite internalError_details.
      intros [= <-] _. cbn [status body].
      eexists. split; [reflexivity|]. answered.
      + constructor.
      + exists e. split; [|reflexivity]. left. reflexivity.
  }
  { intros Hopt Hpost. unfold handler. rewrite fst_bind.
    rewrite (bool_decide_eq_false_2 _ Hopt), (bool_decide_eq_false_2 _ Hpost).
    cbn [negb]. apply sendError_response. }
  intros Hm.
  unfold handler. rewrite fst_bind, Hm.
  rewrite bool_decide_eq_false_2 by discriminate.
  rewrite bool_decide_eq_true_2 by reflexivity. cbn [negb].
  rewrite fst_bind.
  split.
  { intros tooMany ->. now rewrite fst_bind. }
  intros ->. split.
  { intros error ->. apply sendError_response. }
  intros ->. split; [|split].
  - intros error ->. apply sendError_response.
  - intros e ->. apply internalError_details.
  - intros buffer fileName ->. split.
    + intros e ->. apply internalError_details.
    + intros result Hresult Hs. rewrite Hresult, fst_bind.
      destruct (failure_has_message _ _ _ Hresult Hs) as [message He].
      match goal with
      | |- context [sendResult env ?hdrs result ?startTime ?w'] =>
          destruct (sendResult_envelope hdrs result startTime w' Hs)
            as [elapsed ->]
      end.
      exists message, elapsed. split; [exact He|]. now rewrite He.
Qed.

End Shapes.

Lemma error_response_shapes_witness :
  let resp :=
    {| status := 400;
       headers_out := setSecurityHeaders ++ handleCORS pngRequest;
       body := Some (VObject
         [("success", VBool false);
          ("error", VObject
             [("message", VString (js "Image files not supported. OCR service required."));
              ("type", VString (js "image"));
              ("hint", VString (js "Convert image to PDF or text first, or enable OCR capabilities"));
              ("allowedTypes", VUndefined)]);
          ("executionTime", VString (js "4ms"))]) |} in
  let result := rejection (js "image") in
  fst (handler (H := Posix.runtime) quiet pngRequest startup) = Some resp
  /\ status resp <> 200%Z
  /\ method pngRequest = js "POST"
  /\ fst (rateLimit quiet pngRequest (snd (Date_now quiet startup))) = inr tt
  /\ authenticateAPIKey quiet pngRequest = None
  /\ intake (H := Posix.runtime) quiet pngRequest
     = Ok (File pngHeader (VString (js "n8n_upload")))
  /\ processBuffer (H := Posix.runtime) pngHeader (VString (js "n8n_upload")) = Ok result
  /\ truthy (get "success" result) = false
  /\ (exists buffer fileName failure,
        intake (H := Posix.runtime) quiet pngRequest
          = Ok (File buffer fileName)
        /\ processBuffer (H := Posix.runtime) buffer fileName = Ok failure
        /\ truthy (get "success" failure) = false)
  /\ exists message elapsed,
       get "error" result = VString message
       /\ fst (handler (H := Posix.runtime) quiet pngRequest startup)
          = Some {| status := 400;
                    headers_out := setSecurityHeaders ++ handleCORS pngRequest;
                    body := Some (VObject
                      [("success", VBool false);
                       ("error", VObject
                          [("message", VString message);
                           ("type", get "type" result);
                           ("hint", get "hint" result);
                           ("allowedTypes", get "allowedTypes" result)]);
                       ("executionTime",
                         VString (Number_toString elapsed ++ js "ms"))]) |}.
Proof.
  intros resp result.
  assert (Hresp : fst (handler (H := Posix.runtime) quiet pngRequest startup)
                  = Some resp) by (vm_compute; reflexivity).
  assert (Hstatus : status resp <> 200%Z) by discriminate.
  assert (Hm : method pngRequest = js "POST") by reflexivity.
  assert (Hl : fst (rateLimit quiet pngRequest (snd (Date_now quiet startup)))
               = inr tt) by (vm_compute; reflexivity).
  assert (Ha : authenticateAPIKey quiet pngRequest = None) by reflexivity.
  assert (Hi : intake (H := Posix.runtime) quiet pngRequest
               = Ok (File pngHeader (VString (js "n8n_upload")))) by (vm_compute; reflexivity).
  assert (Hr : processBuffer (H := Posix.runtime) pngHeader (VString (js "n8n_upload"))
               = Ok result) by (vm_compute; reflexivity).
  assert (Hs : truthy (get "success" result) = false) by reflexivity.
  do 8 (split; [assumption|]).
  destruct (error_response_shapes (H := Posix.runtime) quiet pngRequest
              startup) as (Hcause & _ & Hanswer).
  split.
  - destruct (Hcause resp Hresp Hstatus) as (b & _ & _ & _ & _ & H400 & _).
    destruct (H400 eq_refl)
      as [(buffer & fileName & failure & message & elapsed
           & Hi' & Hr' & Hs' & _) | (error & Hi' & _)].
    + exists buffer, fileName, failure. auto.
    + rewrite Hi in Hi'. discriminate.
  - destruct (Hanswer Hm) as (_ & Hadmitted).
    destruct (Hadmitted Hl) as (_ & Hkey).
    destruct (Hkey Ha) as (_ & _ & Hfile).
    exact (proj2 (Hfile _ _ Hi) result Hr Hs).
Defined.

(** C5 as stated fails: the 405 sent for a GET is [{ error }], with a
    string for [error], no success field and no executionTime; the 500
    sent for the JSON body [null] has no executionTime. *)
Lemma plain_errors_are_no_envelope :
  (exists hdrs b,
     fst (handler (H := Posix.runtime) quiet getRequest startup)
       = Some {| status := 405; headers_out := hdrs; body := Some b |}
     /\ get "success" b = VUndefined
     /\ get "executionTime" b = VUndefined
     /\ get "message" (get "error" b) = VUndefined)
  /\ (exists hdrs b,
        fst (handler (H := Posix.runtime) quiet (post VNull) startup)
          = Some {| status := 500; headers_out := hdrs; body := Some b |}
        /\ get "executionTime" b = VUndefined
        /\ get "message" (get "error" b) = VUndefined).
Proof.
  split; eexists; eexists; (split; [vm_compute; reflexivity|]);
    repeat split; reflexivity.
Qed.

(** ** Downloads *)

Lemma settled_stays d ev :
  promise d <> Pending -> promise (on_event d ev) = promise d.
Proof.
  intros Hs.
  assert (Hsettle : forall p d', promise d' = promise d ->
            promise (settle p d') = promise d).
  { intros p d' Hd'. unfold settle. rewrite Hd'.
    destruct (promise d); [congruence|exact Hd'|exact Hd']. }
  destruct ev; cbn [on_event];
    repeat match goal with
           | |- context [if ?c then _ else _] => destruct c
           end;
    try reflexivity; now apply Hsettle.
Qed.

Lemma foldl_settled evs d :
  promise d <> Pending -> promise (foldl on_event d evs) = promise d.
Proof.
  revert d. induction evs as [|ev evs IH]; intros d Hs; [reflexivity|].
  cbn [foldl]. rewrite IH; rewrite settled_stays by assumption; auto.
Qed.

Lemma total_cons c cs : total (c :: cs) = N.of_nat (length c) + total cs.
Proof. unfold total. cbn [concat]. rewrite length_app. lia. Qed.

Lemma data_within cs acc size :
  size + total cs <= MAX_FILE_SIZE CONFIG ->
  foldl on_event (receiving acc size) (map EvData cs)
  = receiving (acc ++ cs) (size + total cs).
Proof.
  revert acc size. induction cs as [|c cs IH]; intros acc size Hle.
  - cbn. unfold total. cbn. now rewrite app_nil_r, N.add_0_r.
  - rewrite total_cons in Hle. cbn [map foldl on_event receiving listening
      totalSize chunks promise].
    replace (_ <? _) with false by (symmetry; apply N.ltb_ge; lia).
    fold (receiving (acc ++ [c]) (size + N.of_nat (length c))).
    rewrite IH by lia. rewrite total_cons, <- app_assoc. f_equal. lia.
Qed.

Lemma data_overflow cs acc size :
  size <= MAX_FILE_SIZE CONFIG ->
  MAX_FILE_SIZE CONFIG < size + total cs ->
  exists n,
    MAX_FILE_SIZE CONFIG < n /\ n <= size + total cs
    /\ forall evs,
         promise (foldl on_event (receiving acc size) (map EvData cs ++ evs))
         = Rejected (tooLarge n).
Proof.
  revert acc size. induction cs as [|c cs IH]; intros acc size Hle Hlt.
  - unfold total in Hlt. cbn [concat length] in Hlt. lia.
  - rewrite total_cons in Hlt.
    destruct (N.ltb_spec (MAX_FILE_SIZE CONFIG) (size + N.of_nat (length c)))
      as [Hover|Hfit].
    + exists (size + N.of_nat (length c)).
      split; [assumption|]. split; [rewrite total_cons; lia|].
      intros evs. cbn [map app foldl].
      rewrite foldl_settled.
      * cbn [on_event receiving listening totalSize].
        apply N.ltb_lt in Hover. rewrite Hover. reflexivity.
      * cbn [on_event receiving listening totalSize].
        apply N.ltb_lt in Hover. rewrite Hover. discriminate.
    + destruct (IH (acc ++ [c]) (size + N.of_nat (length c)))
        as (n & Hn1 & Hn2 & Hrej); [lia|lia|].
      exists n. split; [assumption|]. split; [rewrite total_cons; lia|].
      intros evs. cbn [map app foldl on_event receiving listening
        totalSize chunks promise].
      replace (_ <? _) with false by (symmetry; apply N.ltb_ge; lia).
      apply Hrej.
Qed.

Section DownloadOutcome.
Context `{Runtime}.

Lemma download_refused_url url e net :
  URL_protocol url = Throw e -> downloadFileFromUrl url net = Rejected e.
Proof. intros Hu. unfold downloadFileFromUrl. now rewrite Hu. Qed.

Lemma download_events url protocol events :
  URL_protocol url = Ok protocol ->
  protocol ∈ schemes ->
  downloadFileFromUrl url (GetEmits events)
  = promise (foldl on_event download_start events).
Proof.
  intros Hu Hin. unfold downloadFileFromUrl. rewrite Hu.
  fold schemes. now rewrite (bool_decide_eq_true_2 _ Hin).
Qed.

Lemma complete_not_200 url protocol statusCode statusMessage cs :
  URL_protocol url = Ok protocol ->
  protocol ∈ schemes ->
  statusCode <> 200%Z ->
  downloadFileFromUrl url (complete statusCode statusMessage cs)
  = Rejected (Error (js "HTTP " ++ Number_toString statusCode
                       ++ js ": " ++ statusMessage)).
Proof.
  intros Hu Hin Hs. unfold complete.
  rewrite (download_events _ _ _ Hu Hin). cbn [foldl].
  rewrite foldl_settled; cbn [on_event];
    apply Z.eqb_neq in Hs; rewrite Hs; cbn [negb]; [reflexivity|discriminate].
Qed.

Lemma complete_200_within url protocol statusMessage cs :
  URL_protocol url = Ok protocol ->
  protocol ∈ schemes ->
  total cs <= MAX_FILE_SIZE CONFIG ->
  downloadFileFromUrl url (complete 200 statusMessage cs)
  = Resolved (concat cs).
Proof.
  intros Hu Hin Hle. unfold complete.
  rewrite (download_events _ _ _ Hu Hin). cbn [foldl].
  change (on_event download_start (EvResponse 200 statusMessage))
    with (receiving [] 0).
  rewrite foldl_app, data_within by (rewrite N.add_0_l; exact Hle).
  reflexivity.
Qed.

Lemma complete_200_overflow url protocol statusMessage cs :
  URL_protocol url = Ok protocol ->
  protocol ∈ schemes ->
  MAX_FILE_SIZE CONFIG < total cs ->
  exists n,
    MAX_FILE_SIZE CONFIG < n /\ n <= total cs
    /\ downloadFileFromUrl url (complete 200 statusMessage cs)
       = Rejected (tooLarge n).
Proof.
  intros Hu Hin Hlt. unfold complete.
  rewrite (download_events _ _ _ Hu Hin). cbn [foldl].
  change (on_event download_start (EvResponse 200 statusMessage))
    with (receiving [] 0).
  destruct (data_overflow cs [] 0) as (n & Hn1 & Hn2 & Hrej);
    [apply N.le_0_l | now rewrite N.add_0_l |].
  exists n. rewrite N.add_0_l in Hn2. auto.
Qed.

Lemma download_after url protocol before ev later :
  URL_protocol url = Ok protocol ->
  protocol ∈ schemes ->
  downloadFileFromUrl url (GetEmits (before ++ ev :: later))
  = promise (foldl on_event (on_event (after before) ev) later).
Proof.
  intros Hu Hin. rewrite (download_events _ _ _ Hu Hin).
  now rewrite foldl_app.
Qed.

(** An event that settles a pending download decides its outcome. *)
Lemma settling_event url protocol before ev later p :
  URL_protocol url = Ok protocol ->
  protocol ∈ schemes ->
  promise (on_event (after before) ev) = p ->
  p <> Pending ->
  downloadFileFromUrl url (GetEmits (before ++ ev :: later)) = p.
Proof.
  intros Hu Hin Hp Hs. rewrite (download_after _ _ _ _ _ Hu Hin).
  rewrite foldl_settled; rewrite Hp; [reflexivity|exact Hs].
Qed.

Lemma settle_pending p d :
  promise d = Pending -> promise (settle p d) = p.
Proof. intros Hd. unfold settle. now rewrite Hd. Qed.

(** A pending download is rejected by the events that fail, and by no
    other. *)
Lemma fails_rejects d ev :
  promise d = Pending ->
  (fails d ev = true -> exists e, promise (on_event d ev) = Rejected e)
  /\ (fails d ev = false -> forall e, promise (on_event d ev) <> Rejected e).
Proof.
  intros Hd. destruct ev; cbn [fails on_event].
  - destruct (negb _); split; try discriminate.
    + intros _. rewrite settle_pending by assumption. eauto.
    + intros _ e. cbn [promise]. now rewrite Hd.
  - destruct (listening d); cbn [andb];
      [|split; [discriminate|intros _ e; now rewrite Hd]].
    destruct (_ <? _); split; try discriminate.
    + intros _. rewrite settle_pending by assumption. eauto.
    + intros _ e. cbn [promise]. now rewrite Hd.
  - split; [discriminate|]. intros _ e.
    destruct (listening d); [|now rewrite Hd].
    now rewrite settle_pending by assumption.
  - destruct (listening d); split; try discriminate.
    + intros _. rewrite settle_pending by assumption. eauto.
    + intros _ e'. now rewrite Hd.
  - split; [|discriminate]. intros _.
    rewrite settle_pending by assumption. eauto.
  - split; [|discriminate]. intros _.
    rewrite settle_pending by assumption. eauto.
Qed.

Lemma rejected_by_failing_event evs d :
  promise d = Pending ->
  (exists e, promise (foldl on_event d evs) = Rejected e)
  <-> exists before ev later,
        evs = before ++ ev :: later
        /\ promise (foldl on_event d before) = Pending
        /\ fails (foldl on_event d before) ev = true.
Proof.
  revert d. induction evs as [|ev evs IH]; intros d Hd.
  - cbn [foldl]. split.
    + intros [e He]. congruence.
    + intros (before & ev & later & Hevs & _). now destruct before.
  - cbn [foldl]. destruct (fails_rejects d ev Hd) as [Hyes Hno].
    destruct (fails d ev) eqn:Hf.
    + destruct (Hyes eq_refl) as [e He]. split.
      * intros _. exists [], ev, evs. cbn [foldl app]. auto.
      * intros _. exists e. rewrite foldl_settled; rewrite He; congruence.
    + specialize (Hno eq_refl).
      destruct (promise (on_event d ev)) as [|buffer|e] eqn:Hp.
      * rewrite (IH _ Hp). split.
        -- intros (before & ev' & later & -> & Hb & Hf').
           exists (ev :: before), ev', later. cbn [foldl app]. auto.
        -- intros (before & ev' & later & Hevs & Hb & Hf').
           destruct before as [|ev0 before]; cbn [app foldl] in *.
           ++ injection Hevs as <- <-. congruence.
           ++ injection Hevs as <- ->. eauto 6.
      * split.
        -- intros [e He]. rewrite foldl_settled in He; congruence.
        -- intros (before & ev' & later & Hevs & Hb & Hf').
           destruct before as [|ev0 before]; cbn [app foldl] in *.
           ++ injection Hevs as <- <-. congruence.
           ++ injection Hevs as <- ->.
              rewrite foldl_settled in Hb; congruence.
      * now destruct (Hno e).
Qed.

(** The response is listened to from the first answer with status 200
    on. *)
Lemma on_event_listening d ev :
  listening d = true -> listening (on_event d ev) = true.
Proof.
  intros Hl.
  assert (Hsettle : forall p d', listening d' = true ->
            listening (settle p d') = true).
  { intros p d' Hd'. unfold settle. now destruct (promise d'). }
  destruct ev; cbn [on_event]; rewrite ?Hl;
    repeat match goal with
           | |- context [if ?c then _ else _] => destruct c
           end;
    try reflexivity; try assumption; now apply Hsettle.
Qed.

Lemma foldl_listening evs d :
  listening d = true -> listening (foldl on_event d evs) = true.
Proof.
  revert d. induction evs as [|ev evs IH]; intros d Hl; [exact Hl|].
  cbn [foldl]. now apply IH, on_event_listening.
Qed.

Lemma answered_200_listening evs statusMessage d :
  EvResponse 200 statusMessage ∈ evs ->
  listening (foldl on_event d evs) = true.
Proof.
  revert d. induction evs as [|ev evs IH]; intros d Hin.
  - now apply elem_of_nil in Hin.
  - cbn [foldl]. apply elem_of_cons in Hin as [<-|Hin]; [|now apply IH].
    now apply foldl_listening.
Qed.

(** C6, amended.  A URL the [URL] constructor refuses fails, as does one
    with a scheme other than http and https.  With one of the two the
    download fails when [https.get] throws, and, as long as it is pending,
    when the request times out, when the request emits an error, when the
    response emits an error after an answer with status 200, when an answer
    has a status other than 200 (a 2xx status other than 200 included), and
    when a chunk takes the bytes received over [MAX_FILE_SIZE]; these are
    the only failures: it is rejected exactly when one of these events
    comes while it is pending.  A fetch that is answered and runs to its
    end fails exactly when the status is not 200 or the bytes received
    exceed [MAX_FILE_SIZE], and resolves to the bytes received
    otherwise. *)
Theorem download_outcome (url : value) :
  (forall e net,
     URL_protocol url = Throw e -> downloadFileFromUrl url net = Rejected e)
  /\ forall protocol,
       URL_protocol url = Ok protocol ->
       (protocol ∉ schemes ->
        forall net,
          downloadFileFromUrl url net
          = Rejected (Error (js "Invalid URL protocol")))
       /\ (protocol ∈ schemes ->
           (forall e, downloadFileFromUrl url (GetThrows e) = Rejected e)
           /\ (forall before later,
                 promise (after before) = Pending ->
                 downloadFileFromUrl url
                   (GetEmits (before ++ EvTimeout :: later))
                 = Rejected (Error (js "Request timeout"))
                 /\ (forall e,
                       downloadFileFromUrl url
                         (GetEmits (before ++ EvRequestError e :: later))
                       = Rejected e)
                 /\ (forall e statusMessage,
                       EvResponse 200 statusMessage ∈ before ->
                       downloadFileFromUrl url
                         (GetEmits (before ++ EvResponseError e :: later))
                       = Rejected e)
                 /\ (forall statusCode statusMessage,
                       statusCode <> 200%Z ->
                       downloadFileFromUrl url
                         (GetEmits (before
                                      ++ EvResponse statusCode statusMessage
                                      :: later))
                       = Rejected (Error (js "HTTP "
                                            ++ Number_toString statusCode
                                            ++ js ": " ++ statusMessage)))
                 /\ (forall chunk statusMessage,
                       EvResponse 200 statusMessage ∈ before ->
                       let size :=
                         totalSize (after before) + N.of_nat (length chunk)
                       in
                       MAX_FILE_SIZE CONFIG < size ->
                       downloadFileFromUrl url
                         (GetEmits (before ++ EvData chunk :: later))
                       = Rejected (tooLarge size)))
           /\ (forall events,
                 (exists e,
                    downloadFileFromUrl url (GetEmits events) = Rejected e)
                 <-> exists before ev later,
                       events = before ++ ev :: later
                       /\ promise (after before) = Pending
                       /\ fails (after before) ev = true)
           /\ (forall statusCode statusMessage cs,
                 let p :=
                   downloadFileFromUrl url
                     (complete statusCode statusMessage cs)
                 in
                 (statusCode <> 200%Z ->
                  p = Rejected (Error (js "HTTP "
                                         ++ Number_toString statusCode
                                         ++ js ": " ++ statusMessage)))
                 /\ (statusCode = 200%Z ->
                     total cs <= MAX_FILE_SIZE CONFIG ->
                     p = Resolved (concat cs))
                 /\ ((exists e, p = Rejected e) <->
                     statusCode <> 200%Z
                     \/ MAX_FILE_SIZE CONFIG < total cs))).
Proof.
  split; [intros e net Hu; now apply download_refused_url|].
  intros protocol Hu. split.
  - intros Hout net. unfold downloadFileFromUrl. rewrite Hu. fold schemes.
    now rewrite (bool_decide_eq_false_2 _ Hout).
  - intros Hin. split; [|split; [|split]].
    + intros e. unfold downloadFileFromUrl. rewrite Hu. fold schemes.
      now rewrite (bool_decide_eq_true_2 _ Hin).
    + intros before later Hp. split; [|split; [|split; [|split]]].
      * apply (settling_event _ _ _ _ _ _ Hu Hin); [|discriminate].
        cbn [on_event]. now apply settle_pending.
      * intros e. apply (settling_event _ _ _ _ _ _ Hu Hin).
        -- cbn [on_event]. now apply settle_pending.
        -- discriminate.
      * intros e statusMessage Hans.
        apply (settling_event _ _ _ _ _ _ Hu Hin); [|discriminate].
        cbn [on_event]. unfold after.
        rewrite (answered_200_listening _ _ _ Hans).
        now apply settle_pending.
      * intros statusCode statusMessage Hs.
        apply (settling_event _ _ _ _ _ _ Hu Hin); [|discriminate].
        cbn [on_event]. apply Z.eqb_neq in Hs. rewrite Hs. cbn [negb].
        now apply settle_pending.
      * intros chunk statusMessage Hans size Hover.
        apply (settling_event _ _ _ _ _ _ Hu Hin); [|discriminate].
        cbn [on_event]. unfold after in *.
        rewrite (answered_200_listening _ _ _ Hans).
        fold size. apply N.ltb_lt in Hover. rewrite Hover.
        now apply settle_pending.
    + intros events. rewrite (download_events _ _ _ Hu Hin).
      now apply rejected_by_failing_event.
    + intros statusCode statusMessage cs p. subst p.
      split; [now apply complete_not_200 with (protocol := protocol)|].
      split; [intros ->; now apply complete_200_within
                                    with (protocol := protocol)|].
      destruct (Z.eq_dec statusCode 200%Z) as [->|Hs].
      * destruct (N.le_gt_cases (total cs) (MAX_FILE_SIZE CONFIG))
          as [Hle|Hlt].
        -- rewrite (complete_200_within _ _ statusMessage _ Hu Hin Hle).
           split; [intros [e [=]]|intros [Hs|Hlt]; [congruence|lia]].
        -- destruct (complete_200_overflow _ _ statusMessage _ Hu Hin Hlt)
             as (n & _ & _ & ->).
           split; [auto|eauto].
      * rewrite (complete_not_200 _ _ _ statusMessage cs Hu Hin Hs).
        split; [auto|eauto].
Qed.

End DownloadOutcome.

Lemma download_outcome_witness :
  let before := [EvResponse 200 (js "OK"); EvData (bytes "te")] in
  URL_protocol (Runtime := Posix.runtime) exampleUrl = Ok (js "https:")
  /\ js "https:" ∈ schemes
  /\ promise (after before) = Pending
  /\ EvResponse 200 (js "OK") ∈ before
  /\ total [bytes "te"; bytes "st"] <= MAX_FILE_SIZE CONFIG
  /\ downloadFileFromUrl (H := Posix.runtime) exampleUrl
       (GetEmits (before ++ EvTimeout :: [EvData (bytes "st"); EvEnd]))
     = Rejected (Error (js "Request timeout"))
  /\ downloadFileFromUrl (H := Posix.runtime) exampleUrl
       (GetEmits (before ++ EvResponseError (Error (js "aborted")) :: [EvEnd]))
     = Rejected (Error (js "aborted"))
  /\ downloadFileFromUrl (H := Posix.runtime) exampleUrl
       (complete 200 (js "OK") [bytes "te"; bytes "st"])
     = Resolved (bytes "test").
Proof.
  intros before.
  assert (Hu : URL_protocol (Runtime := Posix.runtime) exampleUrl
               = Ok (js "https:")) by reflexivity.
  assert (Hin : js "https:" ∈ schemes) by (unfold schemes; repeat constructor).
  assert (Hp : promise (after before) = Pending) by reflexivity.
  assert (Hans : EvResponse 200 (js "OK") ∈ before) by constructor.
  assert (Hle : total [bytes "te"; bytes "st"] <= MAX_FILE_SIZE CONFIG)
    by (vm_compute; discriminate).
  destruct (proj2 (proj2 (download_outcome (H := Posix.runtime) exampleUrl)
                     _ Hu) Hin) as (_ & Hpending & _ & Hcomplete).
  destruct (Hpending before [EvData (bytes "st"); EvEnd] Hp)
    as (Htimeout & _).
  destruct (Hpending before [EvEnd] Hp) as (_ & _ & Hresponse & _).
  do 5 (split; [assumption|]). split; [exact Htimeout|].
  split; [exact (Hresponse _ _ Hans)|].
  exact (proj1 (proj2 (Hcomplete 200%Z (js "OK") [bytes "te"; bytes "st"]))
           eq_refl Hle).
Defined.

(** C6 as stated fails: a fetch answered with status 204, or with 206 and a
    body, is complete, has a 2xx status and is within the limits, and is
    rejected on the status check; the handler answers 400. *)
Lemma other_2xx_is_rejected :
  downloadFileFromUrl (H := Posix.runtime) exampleUrl
    (complete 204 (js "No Content") [])
  = Rejected (Error (js "HTTP 204: No Content"))
  /\ downloadFileFromUrl (H := Posix.runtime) exampleUrl
       (complete 206 (js "Partial Content") [bytes "test"])
     = Rejected (Error (js "HTTP 206: Partial Content"))
  /\ exists hdrs,
       fst (handler (H := Posix.runtime)
              {| clock := fun i => Z.of_nat i;
                 REQUIRE_API_KEY := None;
                 NODE_ENV := None;
                 https_get := fun _ => complete 204 (js "No Content") [] |}
              (post (VObject [("fileUrl", exampleUrl)])) startup)
       = Some {| status := 400; headers_out := hdrs;
                 body := Some (VObject
                   [("error", VString (js "URL download failed: HTTP 204: No Content"))]) |}.
Proof.
  split; [vm_compute; reflexivity|]. split; [vm_compute; reflexivity|].
  eexists. vm_compute. reflexivity.
Qed.

(** ** Key dispatch *)

Section KeyDispatch.
Context `{Runtime}.
Variable env : Env.

Lemma get_prop_get k body :
  body <> VNull -> body <> VUndefined -> get_prop k body = Ok (get k body).
Proof. intros Hn Hu. destruct body; try reflexivity; congruence. Qed.

Lemma intake_json req body :
  includes (contentType req) (js "multipart/form-data") = false ->
  json req = Json body ->
  body <> VNull -> body <> VUndefined ->
  intake env req =
    if truthy (get "fileUrl" body) then
      match downloadFileFromUrl (get "fileUrl" body)
              (https_get env (get "fileUrl" body)) with
      | Pending => Ok Hang
      | Rejected e => Ok (Reject (js "URL download failed: " ++ message e))
      | Resolved buffer =>
          Ok (try_catch
                (obind (basename (get "fileUrl" body)) (fun fileName =>
                   Ok (File buffer (VString fileName))))
                (fun e => Reject (js "URL download failed: " ++ message e)))
      end
    else if truthy (get "fileBase64" body) then
      Ok (try_catch
            (obind (BufferFrom.from (get "fileBase64" body) BufferFrom.base64)
               (fun buffer =>
                  Ok (File buffer (or_else (get "fileName" body)
                                           (VString (js "uploaded_file"))))))
            (fun _ => Reject (js "Invalid base64 encoding")))
    else if truthy (get "binaryData" body) then
      Ok (try_catch
            (obind (get_prop "data" (get "binaryData" body)) (fun data =>
               obind (BufferFrom.from data BufferFrom.utf8) (fun buffer =>
                  Ok (File buffer (or_else (get "fileName" body)
                                           (VString (js "n8n_upload")))))))
            (fun _ => Reject (js "Invalid binary data")))
    else Ok (Reject missingFileData).
Proof.
  intros Hm Hj Hn Hu. unfold intake. rewrite Hm, Hj.
  rewrite !(get_prop_get _ body) by assumption. cbn [obind].
  destruct (truthy (get "fileUrl" body)); [reflexivity|].
  destruct (truthy (get "fileBase64" body)).
  { destruct (BufferFrom.from _ _); reflexivity. }
  destruct (truthy (get "binaryData" body)); [|reflexivity].
  destruct (get_prop "data" _) as [data|]; cbn [obind]; [|reflexivity].
  destruct (BufferFrom.from _ _); reflexivity.
Qed.

(** A request that passes the method check, the rate limit and the key
    check, and that the transport resolver rejects, is answered with status
    400 and the error alone. *)
Lemma rejected_intake_response req w error :
  method req = js "POST" ->
  fst (rateLimit env req (snd (Date_now env w))) = inr tt ->
  authenticateAPIKey env req = None ->
  intake env req = Ok (Reject error) ->
  fst (handler env req w)
  = Some {| status := 400;
            headers_out := setSecurityHeaders ++ handleCORS req;
            body := Some (VObject [("error", VString error)]) |}.
Proof.
  intros Hm Hr Ha Hi. unfold handler. rewrite fst_bind, Hm.
  rewrite bool_decide_eq_false_2 by discriminate.
  rewrite bool_decide_eq_true_2 by reflexivity. cbn [negb].
  rewrite fst_bind, Hr, Ha, Hi. apply sendError_response.
Qed.

(** C7, amended.  For a request that is not multipart and whose body parses
    to a JSON value other than [null], the transport is chosen by the first
    of fileUrl, fileBase64, binaryData whose value is truthy.  A truthy
    fileUrl is downloaded: the resolver hands on the bytes the download
    resolves to, named by the base name of the URL, rejects with the reason
    when the download or the naming fails, and waits as long as the
    download is pending.  Otherwise a truthy fileBase64 is decoded and
    handed on under fileName or [uploaded_file], or rejected as invalid
    base64 when decoding throws.  Otherwise the data of a truthy binaryData
    is copied and handed on under fileName or [n8n_upload], or rejected as
    invalid binary data.  In each case the result depends on that value
    alone (and on fileName for the last two): the keys after it are not
    looked at, and a key before it that is present with a falsy value is
    passed over.  When none of the three holds a truthy value the resolver
    returns the missing-file-data rejection, which the handler answers
    with status 400. *)
Theorem json_key_dispatch (req : Request) (body : value) :
  includes (contentType req) (js "multipart/form-data") = false ->
  json req = Json body ->
  body <> VNull -> body <> VUndefined ->
  let fileUrl := get "fileUrl" body in
  let fileBase64 := get "fileBase64" body in
  let binaryData := get "binaryData" body in
  let fileName := get "fileName" body in
  (truthy fileUrl = true ->
   intake env req
   = match downloadFileFromUrl fileUrl (https_get env fileUrl) with
     | Pending => Ok Hang
     | Rejected e => Ok (Reject (downloadFailed (message e)))
     | Resolved buffer =>
         match basename fileUrl with
         | Ok name => Ok (File buffer (VString name))
         | Throw e => Ok (Reject (downloadFailed (message e)))
         end
     end
   /\ intake env req
      = intake env (withJson req (VObject [("fileUrl", fileUrl)])))
  /\ (truthy fileUrl = false -> truthy fileBase64 = true ->
      intake env req
      = match BufferFrom.from fileBase64 BufferFrom.base64 with
        | Ok buffer =>
            Ok (File buffer (or_else fileName (VString (js "uploaded_file"))))
        | Throw _ => Ok (Reject (js "Invalid base64 encoding"))
        end
      /\ intake env req
         = intake env (withJson req (VObject [("fileBase64", fileBase64);
                                              ("fileName", fileName)])))
  /\ (truthy fileUrl = false -> truthy fileBase64 = false ->
      truthy binaryData = true ->
      intake env req
      = match obind (get_prop "data" binaryData)
                (fun data => BufferFrom.from data BufferFrom.utf8) with
        | Ok buffer =>
            Ok (File buffer (or_else fileName (VString (js "n8n_upload"))))
        | Throw _ => Ok (Reject (js "Invalid binary data"))
        end
      /\ intake env req
         = intake env (withJson req (VObject [("binaryData", binaryData);
                                              ("fileName", fileName)])))
  /\ (truthy fileUrl = false -> truthy fileBase64 = false ->
      truthy binaryData = false ->
      intake env req = Ok (Reject missingFileData)
      /\ forall w,
           method req = js "POST" ->
           fst (rateLimit env req (snd (Date_now env w))) = inr tt ->
           authenticateAPIKey env req = None ->
           fst (handler env req w)
           = Some {| status := 400;
                     headers_out := setSecurityHeaders ++ handleCORS req;
                     body := Some (VObject
                       [("error", VString missingFileData)]) |}).
Proof.
  intros Hm Hj Hn Hu fileUrl fileBase64 binaryData fileName.
  rewrite (intake_json req body Hm Hj Hn Hu).
  fold fileUrl fileBase64 binaryData fileName.
  split; [|split; [|split]].
  - intros Hurl. rewrite Hurl. split.
    { destruct (downloadFileFromUrl _ _); try reflexivity.
      now destruct (basename fileUrl). }
    rewrite (intake_json (withJson req _) (VObject [("fileUrl", fileUrl)]))
      by (reflexivity || discriminate || exact Hm).
    cbn [get lookup_field String.eqb Ascii.eqb Bool.eqb].
    now rewrite Hurl.
  - intros Hurl H64. rewrite Hurl, H64. split.
    { now destruct (BufferFrom.from fileBase64 BufferFrom.base64). }
    rewrite (intake_json (withJson req _)
               (VObject [("fileBase64", fileBase64); ("fileName", fileName)]))
      by (reflexivity || discriminate || exact Hm).
    cbn [get lookup_field String.eqb Ascii.eqb Bool.eqb truthy].
    now rewrite H64.
  - intros Hurl H64 Hbin. rewrite Hurl, H64, Hbin. split.
    { destruct (get_prop "data" binaryData) as [data|e]; cbn [obind];
        [|reflexivity].
      now destruct (BufferFrom.from data BufferFrom.utf8). }
    rewrite (intake_json (withJson req _)
               (VObject [("binaryData", binaryData); ("fileName", fileName)]))
      by (reflexivity || discriminate || exact Hm).
    cbn [get lookup_field String.eqb Ascii.eqb Bool.eqb truthy].
    now rewrite Hbin.
  - intros Hurl H64 Hbin. split; [now rewrite Hurl, H64, Hbin|].
    intros w Hpost Hrate Hauth.
    apply rejected_intake_response; try assumption.
    rewrite (intake_json req body Hm Hj Hn Hu).
    fold fileUrl fileBase64 binaryData.
    now rewrite Hurl, H64, Hbin.
Qed.

End KeyDispatch.

Lemma json_key_dispatch_witness :
  let data := ("binaryData",
                VObject [("data", VArray (map byteValue pngHeader))]) in
  let all := VObject [("fileUrl", exampleUrl);
                      ("fileBase64", VString (js "aGVsbG8="));
                      data] in
  let two := VObject [("fileUrl", VString []);
                      ("fileBase64", VString (js "aGVsbG8="));
                      data] in
  let one := VObject [("fileUrl", VNull);
                      ("fileBase64", VNumber 0);
                      data;
                      ("fileName", VString (js "photo.png"))] in
  let none := VObject [("fileName", VString (js "cv.txt"))] in
  (truthy (get "fileUrl" all) = true
   /\ intake (H := Posix.runtime) served (post all)
      = Ok (File (bytes "test") (VString (js "cv.txt"))))
  /\ (truthy (get "fileUrl" two) = false
      /\ truthy (get "fileBase64" two) = true
      /\ intake (H := Posix.runtime) served (post two)
         = Ok (File (bytes "hello") (VString (js "uploaded_file"))))
  /\ (truthy (get "fileUrl" one) = false
      /\ truthy (get "fileBase64" one) = false
      /\ truthy (get "binaryData" one) = true
      /\ intake (H := Posix.runtime) served (post one)
         = Ok (File pngHeader (VString (js "photo.png"))))
  /\ (truthy (get "fileUrl" none) = false
      /\ truthy (get "fileBase64" none) = false
      /\ truthy (get "binaryData" none) = false
      /\ intake (H := Posix.runtime) served (post none)
         = Ok (Reject missingFileData)
      /\ fst (handler (H := Posix.runtime) served (post none) startup)
         = Some {| status := 400;
                   headers_out := setSecurityHeaders ++ handleCORS (post none);
                   body := Some (VObject
                     [("error", VString missingFileData)]) |}).
Proof.
  intros data all two one none.
  assert (Hobject : forall fs, VObject fs <> VNull /\ VObject fs <> VUndefined)
    by (intros fs; split; discriminate).
  pose (dispatched := fun body =>
          json_key_dispatch (H := Posix.runtime) served (post body) body
            eq_refl eq_refl).
  destruct (dispatched all (proj1 (Hobject _)) (proj2 (Hobject _)))
    as (Hall & _).
  destruct (dispatched two (proj1 (Hobject _)) (proj2 (Hobject _)))
    as (_ & Htwo & _).
  destruct (dispatched one (proj1 (Hobject _)) (proj2 (Hobject _)))
    as (_ & _ & Hone & _).
  destruct (dispatched none (proj1 (Hobject _)) (proj2 (Hobject _)))
    as (_ & _ & _ & Hnone).
  split; [|split; [|split]].
  - split; [reflexivity|].
    etransitivity; [exact (proj1 (Hall eq_refl))|]. vm_compute. reflexivity.
  - do 2 (split; [reflexivity|]).
    etransitivity; [exact (proj1 (Htwo eq_refl eq_refl))|].
    vm_compute. reflexivity.
  - do 3 (split; [reflexivity|]).
    etransitivity; [exact (proj1 (Hone eq_refl eq_refl eq_refl))|].
    vm_compute. reflexivity.
  - do 3 (split; [reflexivity|]).
    destruct (Hnone eq_refl eq_refl eq_refl) as [Hi Hh].
    split; [exact Hi|]. apply Hh; reflexivity.
Defined.

(** C7 as stated fails twice.  A fileUrl key that is present with an empty
    string does not determine the transport, fileBase64 does; and the body
    [null], which holds none of the three keys, is answered with status 500
    from the [catch] of the handler. *)
Lemma present_key_is_passed_over :
  let body := VObject [("fileUrl", VString []);
                       ("fileBase64", VString (js "dGVzdA=="))] in
  lookup_field "fileUrl" [("fileUrl", VString []);
                          ("fileBase64", VString (js "dGVzdA=="))]
    = VString []
  /\ intake (H := Posix.runtime) quiet (post body)
     = Ok (File (bytes "test") (VString (js "uploaded_file")))
  /\ exists hdrs,
       fst (handler (H := Posix.runtime) quiet (post VNull) startup)
       = Some {| status := 500; headers_out := hdrs;
                 body := Some (VObject
                   [("success", VBool false);
                    ("error", VString (js "Internal server error"));
                    ("details", VUndefined)]) |}.
Proof.
  intros body. split; [reflexivity|]. split; [vm_compute; reflexivity|].
  eexists. vm_compute. reflexivity.
Qed.

(** ** Decoding the payload *)

Section Payload.
Context `{Runtime}.
Variable env : Env.

Lemma rateLimit_startup req w :
  rateLimitStore w = ∅ -> fst (rateLimit env req w) = inr tt.
Proof.
  intros Hw. unfold rateLimit. rewrite fst_bind. cbv beta.
  cbn [Date_now snd rateLimitStore]. rewrite Hw, fmap_empty, lookup_empty.
  reflexivity.
Qed.

Lemma post_has_key body : authenticateAPIKey env (post body) = None.
Proof.
  unfold authenticateAPIKey.
  destruct (bool_decide (REQUIRE_API_KEY env = _)); reflexivity.
Qed.

End Payload.

(** C8.  There is a request whose fileBase64 value is not a base64
    encoding, a number, for which decoding throws: the transport resolver
    rejects it with the invalid-encoding error and the handler answers with
    status 400, and no buffer is classified. *)
Theorem invalid_base64_is_rejected :
  exists fileBase64 : value,
    truthy fileBase64 = true
    /\ forall (R : Runtime) (env : Env),
         let req := post (VObject [("fileBase64", fileBase64)]) in
         BufferFrom.from fileBase64 BufferFrom.base64
           = Throw (Error (TypeError_message "Buffer.from" fileBase64))
         /\ intake env req = Ok (Reject (js "Invalid base64 encoding"))
         /\ fst (handler env req startup)
            = Some {| status := 400;
                      headers_out := setSecurityHeaders ++ handleCORS req;
                      body := Some (VObject
                        [("error",
                          VString (js "Invalid base64 encoding"))]) |}.
Proof.
  exists (VNumber 5). split; [reflexivity|].
  intros R env req. split; [reflexivity|].
  assert (Hi : intake env req = Ok (Reject (js "Invalid base64 encoding")))
    by reflexivity.
  split; [exact Hi|].
  apply rejected_intake_response;
    [reflexivity | now apply rateLimit_startup | apply post_has_key | exact Hi].
Qed.

(** ** Metadata of the text results *)

Lemma lookup_pruned_absent f k fs :
  k ∉ map fst fs -> lookup_field k (prune f fs) = VUndefined.
Proof.
  induction fs as [|[k' x] fs IH]; [reflexivity|].
  cbn [map fst]. intros [Hk Hfs]%not_elem_of_cons. cbn [prune].
  destruct (f x); try (now apply IH);
    cbn [lookup_field]; (destruct (String.eqb_spec k k'); [congruence|]);
    now apply IH.
Qed.

(** Reading a property on the wire is reading it on the object. *)
Lemma get_wire k fs :
  NoDup (map fst fs) ->
  get k (wire (VObject fs)) = wire (lookup_field k fs).
Proof.
  cbn [wire get]. induction fs as [|[k' x] fs IH]; [reflexivity|].
  cbn [map fst]. intros [Hk' Hfs]%NoDup_cons. cbn [prune lookup_field].
  destruct (String.eqb_spec k k') as [->|Hne].
  - destruct (wire x) eqn:Hx; cbn [lookup_field];
      rewrite ?String.eqb_refl; try reflexivity.
    now apply lookup_pruned_absent.
  - destruct (wire x); cbn [lookup_field];
      try (destruct (String.eqb_spec k k'); [congruence|]); now apply IH.
Qed.

Section Metadata.
Context `{Runtime}.
Variable env : Env.

Lemma success_envelope hdrs result startTime w :
  truthy (get "success" result) = true ->
  exists resp b,
    fst (sendResult env hdrs result startTime w) = Some resp
    /\ status resp = 200%Z
    /\ body resp = Some b
    /\ get "metadata" (get "data" (wire b))
       = wire (or_else (get "metadata" result) (VObject []))
    /\ get "truncated" (get "data" (wire b))
       = wire (or_else (get "truncated" result) (VBool false)).
Proof.
  intros Hs. unfold sendResult. rewrite fst_bind, Hs. cbn [ret fst].
  eexists. eexists. split; [reflexivity|]. cbn [status body].
  split; [reflexivity|]. split; [reflexivity|].
  rewrite !get_wire by (apply (bool_decide_unpack _); reflexivity).
  cbn [lookup_field String.eqb Ascii.eqb Bool.eqb].
  rewrite !get_wire by (apply (bool_decide_unpack _); reflexivity).
  split; reflexivity.
Qed.

(** C10.  For a buffer that reaches the text handler and whose decoded text
    is longer than [MAX_TEXT_LENGTH], the result has no metadata property
    and the success envelope on the wire has the empty object for metadata
    (and true for truncated); when the text is not longer, the metadata of
    the result and of the envelope hold fileSize, textLength and lines. *)
Theorem truncated_result_has_no_metadata (buffer : list byte)
    (fileName : value) (fileType : jsstring) :
  detectFileType buffer fileName = Ok fileType ->
  fileType ∈ textTypes ->
  N.of_nat (length buffer) <= MAX_FILE_SIZE CONFIG ->
  let text := Buffer.toString_utf8 buffer in
  let metadata :=
    VObject [("fileSize", num (length buffer));
             ("textLength", num (length text));
             ("lines", num (length (split LF text)))] in
  exists result,
    processBuffer buffer fileName = Ok result
    /\ (MAX_TEXT_LENGTH CONFIG < N.of_nat (length text) ->
        get "metadata" result = VUndefined
        /\ forall hdrs startTime w,
             exists resp b,
               fst (sendResult env hdrs result startTime w) = Some resp
               /\ status resp = 200%Z
               /\ body resp = Some b
               /\ get "metadata" (get "data" (wire b)) = VObject []
               /\ get "truncated" (get "data" (wire b)) = VBool true)
    /\ (N.of_nat (length text) <= MAX_TEXT_LENGTH CONFIG ->
        get "metadata" result = metadata
        /\ forall hdrs startTime w,
             exists resp b,
               fst (sendResult env hdrs result startTime w) = Some resp
               /\ status resp = 200%Z
               /\ body resp = Some b
               /\ get "metadata" (get "data" (wire b)) = metadata
               /\ get "truncated" (get "data" (wire b)) = VBool false).
Proof.
  intros Hd Hin Hsize text metadata.
  exists (dispatch fileType buffer fileName).
  split; [now apply processBuffer_within|].
  rewrite dispatch_text by assumption. fold text. unfold textResult.
  split.
  - intros Hlt. apply N.ltb_lt in Hlt. rewrite Hlt.
    split; [reflexivity|]. intros hdrs startTime w.
    match goal with
    | |- context [sendResult env hdrs ?r startTime w] =>
        destruct (success_envelope hdrs r startTime w eq_refl)
          as (resp & b & Hr & Hst & Hb & Hmeta & Htr)
    end.
    exists resp, b. split; [exact Hr|]. split; [exact Hst|].
    split; [exact Hb|]. split; [exact Hmeta|exact Htr].
  - intros Hle. apply N.ltb_ge in Hle. rewrite Hle.
    split; [reflexivity|]. intros hdrs startTime w.
    match goal with
    | |- context [sendResult env hdrs ?r startTime w] =>
        destruct (success_envelope hdrs r startTime w eq_refl)
          as (resp & b & Hr & Hst & Hb & Hmeta & Htr)
    end.
    exists resp, b. split; [exact Hr|]. split; [exact Hst|].
    split; [exact Hb|]. split; [exact Hmeta|exact Htr].
Qed.

End Metadata.

Lemma truncated_result_has_no_metadata_witness :
  detectFileType (H := Posix.runtime) longText (VString (js "long.txt"))
    = Ok (js "text")
  /\ js "text" ∈ textTypes
  /\ N.of_nat (length longText) <= MAX_FILE_SIZE CONFIG
  /\ MAX_TEXT_LENGTH CONFIG
     < N.of_nat (length (Buffer.toString_utf8 longText))
  /\ exists result,
       processBuffer (H := Posix.runtime) longText (VString (js "long.txt"))
         = Ok result
       /\ get "metadata" result = VUndefined
       /\ exists resp b,
            fst (sendResult quiet [] result 0 startup) = Some resp
            /\ status resp = 200%Z
            /\ body resp = Some b
            /\ get "metadata" (get "data" (wire b)) = VObject []
            /\ get "truncated" (get "data" (wire b)) = VBool true.
Proof.
  assert (Hd : detectFileType (H := Posix.runtime) longText
                 (VString (js "long.txt")) = Ok (js "text"))
    by (vm_compute; reflexivity).
  assert (Hin : js "text" ∈ textTypes)
    by (unfold textTypes; repeat constructor).
  assert (Hsize : N.of_nat (length longText) <= MAX_FILE_SIZE CONFIG)
    by (vm_compute; discriminate).
  assert (Hlong : MAX_TEXT_LENGTH CONFIG
                  < N.of_nat (length (Buffer.toString_utf8 longText)))
    by (vm_compute; reflexivity).
  split; [exact Hd|]. split; [exact Hin|]. split; [exact Hsize|].
  split; [exact Hlong|].
  destruct (truncated_result_has_no_metadata (H := Posix.runtime) quiet
              longText (VString (js "long.txt")) (js "text") Hd Hin Hsize)
    as (result & Hres & Htrunc & _).
  destruct (Htrunc Hlong) as [Hmeta Hwire].
  exists result. split; [exact Hres|]. split; [exact Hmeta|].
  exact (Hwire [] 0%Z startup).
Defined.

(** ** Scenarios *)

(** [{"fileBase64": "dGVzdA==", "fileName": "test.txt"}] is classified as
    text and answered with the text and its metadata. *)
Example scenario_base64_text :
  exists hdrs elapsed,
    fst (handler (H := Posix.runtime) quiet
           (post (VObject [("fileBase64", VString (js "dGVzdA=="));
                           ("fileName", VString (js "test.txt"))]))
           startup)
    = Some {| status := 200; headers_out := hdrs;
              body := Some (VObject
                [("success", VBool true);
                 ("data", VObject
                    [("extractedText", VString (js "test"));
                     ("fileName", VString (js "test.txt"));
                     ("fileType", VString (js "text"));
                     ("metadata", VObject [("fileSize", VNumber 4);
                                           ("textLength", VNumber 4);
                                           ("lines", VNumber 1)]);
                     ("truncated", VBool false)]);
                 ("executionTime", elapsed)]) |}.
Proof. eexists. eexists. vm_compute. reflexivity. Qed.

(** A buffer that starts with [%PDF] is answered with the preview. *)
Example scenario_pdf :
  exists result,
    processBuffer (H := Posix.runtime) (bytes "%PDF-1.4 resume") VUndefined
      = Ok result
    /\ get "success" result = VBool true
    /\ get "type" result = VString (js "pdf")
    /\ get "fileName" result = VString (js "document.pdf")
    /\ get "text" result = VString (pdfNotice ++ js "%PDF-1.4 resume")
    /\ get "pages" (get "metadata" result) = VNumber 1
    /\ get "hint" result
       = VString (js "Upgrade to full PDF parsing service for complete text extraction").
Proof. eexists. split; [vm_compute; reflexivity|]. repeat split. Qed.

(** A PNG is rejected with the OCR hint. *)
Example scenario_png :
  processBuffer (H := Posix.runtime) pngHeader (VString (js "photo.png"))
  = Ok (VObject
          [("success", VBool false);
           ("error", VString (js "Image files not supported. OCR service required."));
           ("type", VString (js "image"));
           ("hint", VString (js "Convert image to PDF or text first, or enable OCR capabilities"))]).
Proof. vm_compute. reflexivity. Qed.

(** A binary file with an allowed extension takes the extension as its tag;
    doc and docx have no handler. *)
Example scenario_extension :
  detectFileType (H := Posix.runtime) [x00; x01; x02] (VString (js "CV.HTML"))
    = Ok (js "html")
  /\ detectFileType (H := Posix.runtime) [x00; x01; x02]
       (VString (js "/tmp/cv.docx")) = Ok (js "docx")
  /\ get "error" (dispatch (js "docx") [x00; x01; x02]
                    (VString (js "/tmp/cv.docx")))
     = VString (js "Unsupported file type").
Proof. repeat split; vm_compute; reflexivity. Qed.

(** The hundred-and-first request of a client within the window is
    answered 429 with the seconds until the oldest one leaves the window. *)
Example scenario_rate_limit :
  exists hdrs,
    fst (handler (H := Posix.runtime)
           {| clock := fun _ => 1000%Z;
              REQUIRE_API_KEY := None;
              NODE_ENV := None;
              https_get := fun _ => GetEmits [] |}
           (post VNull)
           {| rateLimitStore := {[ js "127.0.0.1" := replicate 100 0%Z ]};
              ticks := 0; console := [] |})
    = Some {| status := 429; headers_out := hdrs;
              body := Some (VObject
                [("error", VString (js "Rate limit exceeded"));
                 ("retryAfter", VNumber 59)]) |}.
Proof. eexists. vm_compute. reflexivity. Qed.

(** With [REQUIRE_API_KEY=true] a request without a key is answered 401. *)
Example scenario_missing_key :
  exists hdrs,
    fst (handler (H := Posix.runtime)
           {| clock := fun _ => 0%Z;
              REQUIRE_API_KEY := Some (js "true");
              NODE_ENV := None;
              https_get := fun _ => GetEmits [] |}
           {| method := js "POST";
              url := js "/api/extract-text";
              headers := [("content-type", js "application/json")];
              remoteAddress := None;
              multipart := ParseRejects (Error (js "not multipart"));
              json := Json (VObject []) |}
           startup)
    = Some {| status := 401; headers_out := hdrs;
              body := Some (VObject
                [("error", VString (js "API key required"))]) |}.
Proof. eexists. vm_compute. reflexivity. Qed.

(** * Further properties of the code *)

(** ** The decoder *)

Lemma utf8_lead_owed n :
  (length (fst (Buffer.utf8_lead n)) + owed (snd (Buffer.utf8_lead n)) <= 1)%nat.
Proof.
  unfold Buffer.utf8_lead, owed.
  repeat match goal with
         | |- context [if ?c then (_, _) else _] => destruct c
         end; cbn; lia.
Qed.

Lemma code_units_length c : (length (Buffer.code_units c) <= 2)%nat.
Proof. unfold Buffer.code_units. destruct (_ <? _); cbn; lia. Qed.

Lemma utf8_step_owed st n :
  (length (fst (Buffer.utf8_step st n)) + owed (snd (Buffer.utf8_step st n))
   <= 1 + owed st)%nat.
Proof.
  unfold owed at 2. unfold Buffer.utf8_step.
  destruct (Buffer.needed st) as [|k].
  - pose proof (utf8_lead_owed n). lia.
  - destruct (_ && _).
    + destruct k; cbn [fst snd].
      * pose proof (code_units_length
                      (N.lor (N.shiftl (Buffer.code_point st) 6)
                             (N.land n 63))).
        unfold owed. cbn. lia.
      * unfold owed. cbn. lia.
    + pose proof (utf8_lead_owed n).
      destruct (Buffer.utf8_lead n) as [out st']. cbn in *. lia.
Qed.

Lemma utf8_decode_length st bs :
  (length (Buffer.utf8_decode st bs) <= length bs + owed st)%nat.
Proof.
  revert st. induction bs as [|b bs IH]; intros st.
  - unfold owed. cbn. destruct (Buffer.needed st); cbn; lia.
  - cbn [Buffer.utf8_decode length].
    pose proof (utf8_step_owed st (Byte.to_N b)) as Hstep.
    destruct (Buffer.utf8_step st (Byte.to_N b)) as [out st'].
    cbn [fst snd] in Hstep. rewrite length_app.
    specialize (IH st'). lia.
Qed.

Lemma decoded_length buffer :
  (length (Buffer.toString_utf8 buffer) <= length buffer)%nat.
Proof.
  unfold Buffer.toString_utf8.
  pose proof (utf8_decode_length Buffer.utf8_start buffer) as Hl.
  unfold owed in Hl. cbn in Hl. lia.
Qed.

(** The states the decoder reaches expect a continuation byte of at least
    0x80. *)
Lemma utf8_lead_lower n : 0x80 <= Buffer.lower (snd (Buffer.utf8_lead n)).
Proof.
  unfold Buffer.utf8_lead.
  repeat match goal with
         | |- context [if ?c then _ else _] => destruct c
         end; cbn; lia.
Qed.

Lemma utf8_step_lower st n :
  0x80 <= Buffer.lower st -> 0x80 <= Buffer.lower (snd (Buffer.utf8_step st n)).
Proof.
  intros Hst. unfold Buffer.utf8_step.
  destruct (Buffer.needed st) as [|k]; [apply utf8_lead_lower|].
  destruct (_ && _).
  - destruct k; cbn; lia.
  - pose proof (utf8_lead_lower n).
    destruct (Buffer.utf8_lead n) as [out st']. assumption.
Qed.

Lemma utf8_step_null st :
  0x80 <= Buffer.lower st -> 0 ∈ fst (Buffer.utf8_step st 0).
Proof.
  intros Hst. unfold Buffer.utf8_step.
  destruct (Buffer.needed st) as [|k]; [cbn; set_solver|].
  replace (Buffer.lower st <=? 0) with false
    by (symmetry; apply N.leb_gt; lia).
  cbn. set_solver.
Qed.

Lemma utf8_decode_null st bs :
  0x80 <= Buffer.lower st -> x00 ∈ bs -> 0 ∈ Buffer.utf8_decode st bs.
Proof.
  revert st. induction bs as [|b bs IH]; intros st Hst Hin.
  - now apply elem_of_nil in Hin.
  - cbn [Buffer.utf8_decode].
    pose proof (utf8_step_lower st (Byte.to_N b) Hst) as Hlow.
    apply elem_of_cons in Hin as [<-|Hin].
    + pose proof (utf8_step_null st Hst) as Hnull.
      change (Byte.to_N x00) with 0 in *.
      destruct (Buffer.utf8_step st 0) as [out st'].
      apply elem_of_app. now left.
    + destruct (Buffer.utf8_step st (Byte.to_N b)) as [out st'].
      apply elem_of_app. right. now apply IH.
Qed.

Lemma includes_present s c : c ∈ s -> includes s [c] = true.
Proof.
  induction s as [|d s IH]; intros Hin; [now apply elem_of_nil in Hin|].
  cbn [includes startsWith].
  apply elem_of_cons in Hin as [->|Hin].
  - now rewrite N.eqb_refl.
  - rewrite IH by assumption. apply orb_true_r.
Qed.

(** ** Classification and the per-type handlers *)

Section MoreProcessing.
Context `{Runtime}.

Lemma dispatch_pdf buffer fileName :
  dispatch (js "pdf") buffer fileName
  = pdfResult fileName (length buffer)
      (Buffer.toString_utf8_range buffer 0 1000).
Proof. reflexivity. Qed.

(** X1.  The decoded text of a buffer that reaches the text handler is
    never longer than the buffer: the result reports it as textLength
    beside fileSize, or as originalLength when it is truncated.  A buffer
    of at most [MAX_TEXT_LENGTH] bytes is therefore never truncated. *)
Theorem text_is_no_longer_than_buffer (buffer : list byte) (fileName : value)
    (fileType : jsstring) :
  detectFileType buffer fileName = Ok fileType ->
  fileType ∈ textTypes ->
  N.of_nat (length buffer) <= MAX_FILE_SIZE CONFIG ->
  let text := Buffer.toString_utf8 buffer in
  exists result,
    processBuffer buffer fileName = Ok result
    /\ (length text <= length buffer)%nat
    /\ (get "textLength" (get "metadata" result) = num (length text)
        /\ get "fileSize" (get "metadata" result) = num (length buffer)
        \/ get "originalLength" result = num (length text))
    /\ (N.of_nat (length buffer) <= MAX_TEXT_LENGTH CONFIG ->
        get "truncated" result = VUndefined
        /\ get "text" result = VString text).
Proof.
  intros Hd Hin Hsize text.
  exists (dispatch fileType buffer fileName).
  split; [now apply processBuffer_within|].
  pose proof (decoded_length buffer) as Hlen. fold text in Hlen.
  split; [exact Hlen|].
  rewrite dispatch_text by assumption. fold text. unfold textResult.
  split.
  - destruct (_ <? _); [right|left; split]; reflexivity.
  - intros Hshort.
    replace (_ <? _) with false by (symmetry; apply N.ltb_ge; lia).
    split; reflexivity.
Qed.

(** X2.  For a buffer tagged pdf, within the size limit, the result is a
    success whose text is the fixed notice followed by a preview of at
    most 1000 code units, none of them outside printable ASCII, line feed
    and carriage return; textPreviewLength is the length of the preview
    and pages is the constant 1. *)
Theorem pdf_preview_is_bounded (buffer : list byte) (fileName : value) :
  detectFileType buffer fileName = Ok (js "pdf") ->
  N.of_nat (length buffer) <= MAX_FILE_SIZE CONFIG ->
  exists result preview,
    processBuffer buffer fileName = Ok result
    /\ get "success" result = VBool true
    /\ get "text" result = VString (pdfNotice ++ preview)
    /\ (length preview <= 1000)%nat
    /\ Forall (fun c => previewable c = true) preview
    /\ get "textPreviewLength" (get "metadata" result) = num (length preview)
    /\ get "pages" (get "metadata" result) = VNumber 1.
Proof.
  intros Hd Hsize.
  exists (dispatch (js "pdf") buffer fileName).
  exists (filter (fun c => previewable c)
                 (Buffer.toString_utf8_range buffer 0 1000)).
  split; [now apply processBuffer_within|].
  rewrite dispatch_pdf. unfold pdfResult.
  do 2 (split; [reflexivity|]).
  split; [|split; [|split; reflexivity]].
  - etransitivity; [apply length_filter|].
    unfold Buffer.toString_utf8_range.
    etransitivity; [apply decoded_length|].
    unfold Buffer.slice. rewrite length_take. lia.
  - apply Forall_forall. intros c [Hc _]%list_elem_of_filter.
    now apply Is_true_true.
Qed.

(** X3.  A buffer that holds a null byte is never tagged text, whatever
    the other bytes and the file name are. *)
Theorem null_byte_is_not_text (buffer : list byte) (fileName : value) :
  x00 ∈ buffer -> detectFileType buffer fileName <> Ok (js "text").
Proof.
  intros Hnull. unfold detectFileType.
  destruct (startsWith _ MAGIC_NUMBERS.PDF); [discriminate|].
  destruct (_ || _); [discriminate|].
  destruct (_ || _); [discriminate|].
  rewrite includes_present
    by (apply utf8_decode_null; [cbn; lia|exact Hnull]).
  cbn [negb andb].
  destruct (truthy fileName); [|discriminate].
  destruct (extname fileName) as [e|e]; cbn [obind]; [|discriminate].
  case_bool_decide as Hext; [|discriminate].
  intros [= Heq]. rewrite Heq in Hext.
  exact (bool_decide_eq_false_1 (js "text" ∈ ALLOWED_FILE_TYPES CONFIG)
           eq_refl Hext).
Qed.

(** X4.  Every tag classification returns is one of pdf, image, document,
    text, unknown or an allowed extension. *)
Theorem tag_is_known (buffer : list byte) (fileName : value) (tag : jsstring) :
  detectFileType buffer fileName = Ok tag -> tag ∈ knownTags.
Proof.
  unfold detectFileType, knownTags.
  destruct (startsWith _ MAGIC_NUMBERS.PDF);
    [intros [= <-]; repeat constructor|].
  destruct (_ || _); [intros [= <-]; repeat constructor|].
  destruct (_ || _); [intros [= <-]; repeat constructor|].
  destruct (_ && _); [intros [= <-]; repeat constructor|].
  destruct (truthy fileName); [|intros [= <-]; repeat constructor].
  destruct (extname fileName) as [e|e]; cbn [obind]; [|discriminate].
  case_bool_decide as Hext; intros [= <-]; [|repeat constructor].
  apply elem_of_app. now right.
Qed.

(** X5.  A buffer that classification cannot tag without a file name (no
    signature, not text) and that comes with a file name that is truthy
    but not a string makes classification, and with it processing, throw;
    the handler answers such a request with status 500. *)
Theorem unreadable_name_throws (buffer : list byte) (fileName : value) :
  detectFileType buffer VUndefined = Ok (js "unknown") ->
  truthy fileName = true ->
  (forall s, fileName <> VString s) ->
  let e := Error (TypeError_message "path.extname" fileName) in
  detectFileType buffer fileName = Throw e
  /\ processBuffer buffer fileName = Throw e
  /\ forall env req w,
       method req = js "POST" ->
       fst (rateLimit env req (snd (Date_now env w))) = inr tt ->
       authenticateAPIKey env req = None ->
       intake env req = Ok (File buffer fileName) ->
       exists resp,
         fst (handler env req w) = Some resp /\ status resp = 500%Z.
Proof.
  intros Hcontent Htruthy Hstring e.
  assert (Hd : detectFileType buffer fileName = Throw e).
  { revert Hcontent. unfold detectFileType.
    destruct (startsWith _ MAGIC_NUMBERS.PDF); [discriminate|].
    destruct (_ || _); [discriminate|].
    destruct (_ || _); [discriminate|].
    destruct (_ && _); [discriminate|].
    intros _. rewrite Htruthy.
    destruct fileName; try reflexivity. now destruct (Hstring s). }
  assert (Hp : processBuffer buffer fileName = Throw e)
    by (unfold processBuffer; now rewrite Hd).
  split; [exact Hd|]. split; [exact Hp|].
  intros env req w Hm Hr Ha Hi. unfold handler. rewrite fst_bind, Hm.
  rewrite bool_decide_eq_false_2 by discriminate.
  rewrite bool_decide_eq_true_2 by reflexivity. cbn [negb].
  rewrite fst_bind, Hr, Ha, Hi, Hp.
  edestruct internalError_response as [details ->].
  eexists. split; reflexivity.
Qed.

(** X6.  Processing succeeds exactly for a buffer within the size limit
    whose tag is pdf, text, txt, html or htm; every other result is a
    failure. *)
Theorem success_iff_supported (buffer : list byte) (fileName : value)
    (tag : jsstring) :
  detectFileType buffer fileName = Ok tag ->
  exists result,
    processBuffer buffer fileName = Ok result
    /\ (get "success" result = VBool true
        \/ get "success" result = VBool false)
    /\ (get "success" result = VBool true <->
        N.of_nat (length buffer) <= MAX_FILE_SIZE CONFIG
        /\ tag ∈ js "pdf" :: textTypes).
Proof.
  intros Hd.
  destruct (N.ltb_spec (MAX_FILE_SIZE CONFIG) (N.of_nat (length buffer)))
    as [Hover|Hfit].
  - exists (oversized (N.of_nat (length buffer)) tag).
    split; [now apply processBuffer_oversized|].
    split; [right; reflexivity|].
    split; [discriminate|]. intros [Hle _]. lia.
  - exists (dispatch tag buffer fileName).
    split; [now apply processBuffer_within|].
    unfold dispatch. case_bool_decide as Hpdf.
    { subst tag. split; [left; reflexivity|].
      split; [intros _; split; [assumption|constructor]|reflexivity]. }
    case_bool_decide as Htext.
    { unfold textResult. destruct (_ <? _);
        (split; [left; reflexivity|]);
        (split; [intros _; split; [assumption|now constructor]
                |reflexivity]). }
    assert (Hno : ~ tag ∈ js "pdf" :: textTypes)
      by (intros [->|Hin]%elem_of_cons; [now apply Hpdf|now apply Htext]).
    unfold rejection. repeat case_bool_decide;
      (split; [right; reflexivity|]);
      (split; [discriminate|intros [_ Hin]; now destruct Hno]).
Qed.

(** X7.  A buffer whose tag is doc or docx, taken from the extension, has
    no handler: it is answered with the unsupported-file-type failure, of
    type unknown, whose allowedTypes lists that very extension. *)
Theorem office_extension_has_no_handler (buffer : list byte)
    (fileName : value) (tag : jsstring) :
  detectFileType buffer fileName = Ok tag ->
  tag ∈ [js "doc"; js "docx"] ->
  N.of_nat (length buffer) <= MAX_FILE_SIZE CONFIG ->
  exists result allowed,
    processBuffer buffer fileName = Ok result
    /\ get "success" result = VBool false
    /\ get "error" result = VString (js "Unsupported file type")
    /\ get "type" result = VString (js "unknown")
    /\ get "allowedTypes" result = VArray allowed
    /\ VString tag ∈ allowed.
Proof.
  intros Hd Htag Hsize.
  exists (dispatch tag buffer fileName).
  exists (map VString (ALLOWED_FILE_TYPES CONFIG)).
  split; [now apply processBuffer_within|].
  apply elem_of_cons in Htag as [->|Htag];
    [|apply elem_of_cons in Htag as [->|Htag];
      [|now apply elem_of_nil in Htag]];
    repeat split; cbn; repeat constructor.
Qed.

End MoreProcessing.

Lemma text_is_no_longer_than_buffer_witness :
  detectFileType (H := Posix.runtime) (bytes "test") (VString (js "a.txt"))
    = Ok (js "text")
  /\ js "text" ∈ textTypes
  /\ N.of_nat (length (bytes "test")) <= MAX_FILE_SIZE CONFIG
  /\ N.of_nat (length (bytes "test")) <= MAX_TEXT_LENGTH CONFIG
  /\ exists result,
       processBuffer (H := Posix.runtime) (bytes "test")
         (VString (js "a.txt")) = Ok result
       /\ get "truncated" result = VUndefined
       /\ get "text" result = VString (js "test").
Proof.
  assert (Hd : detectFileType (H := Posix.runtime) (bytes "test")
                 (VString (js "a.txt")) = Ok (js "text")) by reflexivity.
  assert (Hin : js "text" ∈ textTypes)
    by (unfold textTypes; repeat constructor).
  assert (Hsize : N.of_nat (length (bytes "test")) <= MAX_FILE_SIZE CONFIG)
    by (vm_compute; discriminate).
  assert (Hshort : N.of_nat (length (bytes "test")) <= MAX_TEXT_LENGTH CONFIG)
    by (vm_compute; discriminate).
  do 4 (split; [assumption|]).
  destruct (text_is_no_longer_than_buffer (H := Posix.runtime) _ _ _
              Hd Hin Hsize) as (result & Hres & _ & _ & Hwhole).
  exists result. split; [exact Hres|]. exact (Hwhole Hshort).
Defined.

Lemma pdf_preview_is_bounded_witness :
  detectFileType (H := Posix.runtime) pdfHeader VUndefined = Ok (js "pdf")
  /\ N.of_nat (length pdfHeader) <= MAX_FILE_SIZE CONFIG
  /\ exists result preview,
       processBuffer (H := Posix.runtime) pdfHeader VUndefined = Ok result
       /\ get "success" result = VBool true
       /\ get "text" result = VString (pdfNotice ++ preview)
       /\ (length preview <= 1000)%nat
       /\ Forall (fun c => previewable c = true) preview
       /\ get "textPreviewLength" (get "metadata" result)
          = num (length preview)
       /\ get "pages" (get "metadata" result) = VNumber 1.
Proof.
  assert (Hd : detectFileType (H := Posix.runtime) pdfHeader VUndefined
               = Ok (js "pdf")) by reflexivity.
  assert (Hsize : N.of_nat (length pdfHeader) <= MAX_FILE_SIZE CONFIG)
    by (vm_compute; discriminate).
  split; [exact Hd|]. split; [exact Hsize|].
  exact (pdf_preview_is_bounded (H := Posix.runtime) _ _ Hd Hsize).
Defined.

Lemma null_byte_is_not_text_witness :
  x00 ∈ [x61; x00; x62]
  /\ detectFileType (H := Posix.runtime) [x61; x00; x62]
       (VString (js "a.txt")) <> Ok (js "text").
Proof.
  assert (Hin : x00 ∈ [x61; x00; x62]) by (repeat constructor).
  split; [exact Hin|].
  exact (null_byte_is_not_text (H := Posix.runtime) _ _ Hin).
Defined.

Lemma tag_is_known_witness :
  detectFileType (H := Posix.runtime) [x00; x01] (VString (js "cv.DOCX"))
    = Ok (js "docx")
  /\ js "docx" ∈ knownTags.
Proof.
  assert (Hd : detectFileType (H := Posix.runtime) [x00; x01]
                 (VString (js "cv.DOCX")) = Ok (js "docx")) by reflexivity.
  split; [exact Hd|].
  exact (tag_is_known (H := Posix.runtime) _ _ _ Hd).
Defined.

Lemma unreadable_name_throws_witness :
  detectFileType (H := Posix.runtime) [x00; x01] VUndefined
    = Ok (js "unknown")
  /\ truthy (VNumber 5) = true
  /\ (forall s, VNumber 5 <> VString s)
  /\ processBuffer (H := Posix.runtime) [x00; x01] (VNumber 5)
     = Throw (Error (TypeError_message (Runtime := Posix.runtime)
                       "path.extname" (VNumber 5))).
Proof.
  assert (Hd : detectFileType (H := Posix.runtime) [x00; x01] VUndefined
               = Ok (js "unknown")) by reflexivity.
  assert (Ht : truthy (VNumber 5) = true) by reflexivity.
  assert (Hs : forall s, VNumber 5 <> VString s) by discriminate.
  do 3 (split; [assumption|]).
  exact (proj1 (proj2 (unreadable_name_throws (H := Posix.runtime) _ _
                         Hd Ht Hs))).
Defined.

Lemma success_iff_supported_witness :
  detectFileType (H := Posix.runtime) pngHeader VUndefined = Ok (js "image")
  /\ exists result,
       processBuffer (H := Posix.runtime) pngHeader VUndefined = Ok result
       /\ (get "success" result = VBool true
           \/ get "success" result = VBool false)
       /\ (get "success" result = VBool true <->
           N.of_nat (length pngHeader) <= MAX_FILE_SIZE CONFIG
           /\ js "image" ∈ js "pdf" :: textTypes).
Proof.
  assert (Hd : detectFileType (H := Posix.runtime) pngHeader VUndefined
               = Ok (js "image")) by reflexivity.
  split; [exact Hd|].
  exact (success_iff_supported (H := Posix.runtime) _ _ _ Hd).
Defined.

Lemma office_extension_has_no_handler_witness :
  detectFileType (H := Posix.runtime) [x00; x01] (VString (js "cv.DOCX"))
    = Ok (js "docx")
  /\ js "docx" ∈ [js "doc"; js "docx"]
  /\ N.of_nat (length [x00; x01]) <= MAX_FILE_SIZE CONFIG
  /\ exists result allowed,
       processBuffer (H := Posix.runtime) [x00; x01]
         (VString (js "cv.DOCX")) = Ok result
       /\ get "success" result = VBool false
       /\ get "error" result = VString (js "Unsupported file type")
       /\ get "type" result = VString (js "unknown")
       /\ get "allowedTypes" result = VArray allowed
       /\ VString (js "docx") ∈ allowed.
Proof.
  assert (Hd : detectFileType (H := Posix.runtime) [x00; x01]
                 (VString (js "cv.DOCX")) = Ok (js "docx")) by reflexivity.
  assert (Hin : js "docx" ∈ [js "doc"; js "docx"]) by (repeat constructor).
  assert (Hsize : N.of_nat (length [x00; x01]) <= MAX_FILE_SIZE CONFIG)
    by (vm_compute; discriminate).
  do 3 (split; [assumption|]).
  exact (office_extension_has_no_handler (H := Posix.runtime) _ _ _
           Hd Hin Hsize).
Defined.

(** ** Downloads, whatever the network does *)

(** What the download keeps true: the chunks it has kept are within the
    limit and within the size it has counted, and so is a buffer it has
    resolved to. *)
Lemma download_invariant evs d :
  N.of_nat (length (concat (chunks d))) <= MAX_FILE_SIZE CONFIG ->
  N.of_nat (length (concat (chunks d))) <= totalSize d ->
  (forall b, promise d = Resolved b ->
             N.of_nat (length b) <= MAX_FILE_SIZE CONFIG) ->
  forall b, promise (foldl on_event d evs) = Resolved b ->
            N.of_nat (length b) <= MAX_FILE_SIZE CONFIG.
Proof.
  revert d. induction evs as [|ev evs IH]; intros d Hmax Hsize Hres;
    [exact Hres|].
  cbn [foldl]. apply IH; clear IH.
  - destruct ev; cbn [on_event]; unfold settle;
      repeat match goal with
             | |- context [if ?c then _ else _] => destruct c eqn:?
             | |- context [match promise ?x with _ => _ end] =>
                 destruct (promise x)
             end; cbn [chunks]; try assumption; try (cbn; lia).
    rewrite concat_app, length_app. cbn [concat]. rewrite app_nil_r.
    match goal with Hc : (_ <? _) = false |- _ => apply N.ltb_ge in Hc end.
    lia.
  - destruct ev; cbn [on_event]; unfold settle;
      repeat match goal with
             | |- context [if ?c then _ else _] => destruct c eqn:?
             | |- context [match promise ?x with _ => _ end] =>
                 destruct (promise x)
             end; cbn [chunks totalSize]; try assumption; try (cbn; lia).
    rewrite concat_app, length_app. cbn [concat]. rewrite app_nil_r. lia.
  - intros b. destruct ev; cbn [on_event]; unfold settle;
      repeat match goal with
             | |- context [if ?c then _ else _] => destruct c eqn:?
             end;
      try (destruct (promise d) eqn:Hp; cbn [promise]; rewrite ?Hp;
           try discriminate; try (intros [= <-]; assumption);
           try (intros Hb; apply Hres; congruence));
      try (cbn [promise]; apply Hres).
Qed.

Section DownloadSafety.
Context `{Runtime}.

(** X8.  Whatever the network does, a download never resolves to more
    bytes than [MAX_FILE_SIZE]. *)
Theorem download_resolves_within_limit (url : value) (net : HttpsGet)
    (buffer : list byte) :
  downloadFileFromUrl url net = Resolved buffer ->
  N.of_nat (length buffer) <= MAX_FILE_SIZE CONFIG.
Proof.
  unfold downloadFileFromUrl.
  destruct (URL_protocol url) as [protocol|e]; [|discriminate].
  destruct (negb _); [discriminate|].
  destruct net as [e|events]; [discriminate|].
  apply download_invariant; cbn; try lia. discriminate.
Qed.

(** X9.  A download settles once: when the promise is settled after some
    events, whatever the network emits afterwards (a response that arrives
    after the timeout, data after an error) does not change the outcome. *)
Theorem download_settles_once (url : value) (events later : list NetEvent) :
  downloadFileFromUrl url (GetEmits events) <> Pending ->
  downloadFileFromUrl url (GetEmits (events ++ later))
  = downloadFileFromUrl url (GetEmits events).
Proof.
  unfold downloadFileFromUrl.
  destruct (URL_protocol url) as [protocol|e]; [|reflexivity].
  destruct (negb _); [reflexivity|].
  intros Hsettled. rewrite foldl_app. now apply foldl_settled.
Qed.

End DownloadSafety.

Lemma download_resolves_within_limit_witness :
  downloadFileFromUrl (H := Posix.runtime) exampleUrl
    (GetEmits [EvResponse 200 (js "OK"); EvData (bytes "te");
               EvData (bytes "st"); EvEnd; EvTimeout])
  = Resolved (bytes "test")
  /\ N.of_nat (length (bytes "test")) <= MAX_FILE_SIZE CONFIG.
Proof.
  assert (Hd : downloadFileFromUrl (H := Posix.runtime) exampleUrl
                 (GetEmits [EvResponse 200 (js "OK"); EvData (bytes "te");
                            EvData (bytes "st"); EvEnd; EvTimeout])
               = Resolved (bytes "test")) by reflexivity.
  split; [exact Hd|].
  exact (download_resolves_within_limit (H := Posix.runtime) _ _ _ Hd).
Defined.

Lemma download_settles_once_witness :
  downloadFileFromUrl (H := Posix.runtime) exampleUrl (GetEmits [EvTimeout])
    <> Pending
  /\ downloadFileFromUrl (H := Posix.runtime) exampleUrl
       (GetEmits ([EvTimeout]
                    ++ [EvResponse 200 (js "OK"); EvData (bytes "late");
                        EvEnd]))
     = downloadFileFromUrl (H := Posix.runtime) exampleUrl
         (GetEmits [EvTimeout]).
Proof.
  assert (Hs : downloadFileFromUrl (H := Posix.runtime) exampleUrl
                 (GetEmits [EvTimeout]) <> Pending) by discriminate.
  split; [exact Hs|].
  exact (download_settles_once (H := Posix.runtime) _ _ _ Hs).
Defined.

(** ** The rate limiter *)

Section RateLimiter.
Context `{Runtime}.
Variable env : Env.

Lemma rateLimit_run req w :
  let now := clock env (ticks w) in
  let store :=
    (fun timestamps =>
       filter (fun t => (now - RATE_LIMIT_WINDOW_MS CONFIG < t)%Z) timestamps)
      <$> rateLimitStore w in
  let clientTimestamps := default [] (store !! clientIP req) in
  rateLimit env req w =
    if bool_decide (RATE_LIMIT_MAX_REQUESTS CONFIG
                    <= length clientTimestamps)%nat
    then
      (inl (VObject
              [("error", VString (js "Rate limit exceeded"));
               ("retryAfter",
                 match clientTimestamps with
                 | first :: _ =>
                     VNumber (ceil_div_1000
                                (first + RATE_LIMIT_WINDOW_MS CONFIG - now))
                 | [] => VNull
                 end)]),
       {| rateLimitStore := store; ticks := S (ticks w);
          console := console w |})
    else
      (inr tt,
       {| rateLimitStore := <[clientIP req := clientTimestamps ++ [now]]> store;
          ticks := S (ticks w); console := console w |}).
Proof. reflexivity. Qed.

Lemma cleaned_lookup (now : Z) (m : gmap jsstring (list Z)) ip :
  default [] (((fun timestamps =>
                  filter (fun t => (now - RATE_LIMIT_WINDOW_MS CONFIG < t)%Z)
                         timestamps) <$> m) !! ip)
  = filter (fun t => (now - RATE_LIMIT_WINDOW_MS CONFIG < t)%Z)
           (default [] (m !! ip)).
Proof. rewrite lookup_fmap. now destruct (m !! ip). Qed.

Lemma filtered_in_window (now : Z) ts :
  Forall (fun t => (now - RATE_LIMIT_WINDOW_MS CONFIG < t)%Z)
         (filter (fun t => (now - RATE_LIMIT_WINDOW_MS CONFIG < t)%Z) ts).
Proof. apply Forall_forall. now intros t [Ht _]%list_elem_of_filter. Qed.

(** X10.  After a call of the rate limiter every timestamp in the store,
    of every client, is younger than the window: older ones are dropped on
    each call. *)
Theorem rate_limit_store_is_in_window (req : Request) (w : World)
    (ip : jsstring) (ts : list Z) :
  rateLimitStore (snd (rateLimit env req w)) !! ip = Some ts ->
  Forall (fun t => (clock env (ticks w) - RATE_LIMIT_WINDOW_MS CONFIG < t)%Z)
         ts.
Proof.
  rewrite rateLimit_run. cbv zeta.
  destruct (bool_decide _); cbn [snd rateLimitStore].
  - rewrite lookup_fmap. destruct (rateLimitStore w !! ip) as [old|];
      [|discriminate].
    intros [= <-]. apply filtered_in_window.
  - destruct (decide (clientIP req = ip)) as [<-|Hne].
    + rewrite lookup_insert_eq. intros [= <-]. rewrite cleaned_lookup.
      apply Forall_app. split; [apply filtered_in_window|].
      constructor; [|constructor]. cbn. lia.
    + rewrite lookup_insert_ne by assumption. rewrite lookup_fmap.
      destruct (rateLimitStore w !! ip) as [old|]; [|discriminate].
      intros [= <-]. apply filtered_in_window.
Qed.

(** X11.  The rate limiter keeps the lists bounded: when no client has
    more than [RATE_LIMIT_MAX_REQUESTS] timestamps before a call, none has
    after it. *)
Theorem rate_limit_lists_stay_bounded (req : Request) (w : World) :
  (forall ip ts, rateLimitStore w !! ip = Some ts ->
                 (length ts <= RATE_LIMIT_MAX_REQUESTS CONFIG)%nat) ->
  forall ip ts,
    rateLimitStore (snd (rateLimit env req w)) !! ip = Some ts ->
    (length ts <= RATE_LIMIT_MAX_REQUESTS CONFIG)%nat.
Proof.
  intros Hbound ip ts. rewrite rateLimit_run. cbv zeta.
  assert (Hold : forall old,
            rateLimitStore w !! ip = Some old ->
            (length (filter (fun t => (clock env (ticks w)
                                       - RATE_LIMIT_WINDOW_MS CONFIG < t)%Z)
                            old)
             <= RATE_LIMIT_MAX_REQUESTS CONFIG)%nat).
  { intros old Hip. etransitivity; [apply length_filter|]. eauto. }
  case_bool_decide as Hfull; cbn [snd rateLimitStore].
  - rewrite lookup_fmap. destruct (rateLimitStore w !! ip) as [old|];
      [|discriminate].
    intros [= <-]. now apply Hold.
  - destruct (decide (clientIP req = ip)) as [<-|Hne].
    + rewrite lookup_insert_eq. intros [= <-].
      set (mine := default [] _) in *.
      rewrite length_app. cbn [length]. lia.
    + rewrite lookup_insert_ne by assumption. rewrite lookup_fmap.
      destruct (rateLimitStore w !! ip) as [old|]; [|discriminate].
      intros [= <-]. now apply Hold.
Qed.

(** X12.  The rate limiter never forgets a client: a key of the store
    stays a key after every call. *)
Theorem rate_limit_keeps_clients (req : Request) (w : World) (ip : jsstring) :
  is_Some (rateLimitStore w !! ip) ->
  is_Some (rateLimitStore (snd (rateLimit env req w)) !! ip).
Proof.
  intros [old Hold]. rewrite rateLimit_run. cbv zeta.
  destruct (bool_decide _); cbn [snd rateLimitStore].
  - rewrite lookup_fmap, Hold. eauto.
  - destruct (decide (clientIP req = ip)) as [<-|Hne].
    + rewrite lookup_insert_eq. eauto.
    + rewrite lookup_insert_ne by assumption. rewrite lookup_fmap, Hold. eauto.
Qed.

(** X13.  When the limiter refuses a request and no stored timestamp lies
    in the future, the retryAfter it sends is a number of seconds between
    1 and 60. *)
Theorem retry_after_is_within_a_minute (req : Request) (w : World)
    (tooMany : value) :
  fst (rateLimit env req w) = inl tooMany ->
  (forall ip ts, rateLimitStore w !! ip = Some ts ->
                 Forall (fun t => (t <= clock env (ticks w))%Z) ts) ->
  exists seconds,
    tooMany = VObject [("error", VString (js "Rate limit exceeded"));
                       ("retryAfter", VNumber seconds)]
    /\ (1 <= seconds <= 60)%Z.
Proof.
  rewrite rateLimit_run. cbv zeta. rewrite cleaned_lookup.
  case_bool_decide as Hfull; cbn [fst]; [|discriminate].
  intros [= <-] Hpast.
  destruct (filter _ _) as [|first rest] eqn:Hts;
    [cbn in Hfull; lia|].
  eexists. split; [reflexivity|].
  assert (Hin : first ∈ filter
            (fun t => (clock env (ticks w) - RATE_LIMIT_WINDOW_MS CONFIG < t)%Z)
            (default [] (rateLimitStore w !! clientIP req)))
    by (rewrite Hts; constructor).
  apply list_elem_of_filter in Hin as [Hyoung Hstored].
  assert (Hold : (first <= clock env (ticks w))%Z).
  { destruct (rateLimitStore w !! clientIP req) as [ts|] eqn:Hip;
      [|now apply elem_of_nil in Hstored].
    specialize (Hpast _ _ Hip). rewrite Forall_forall in Hpast. auto. }
  change (RATE_LIMIT_WINDOW_MS CONFIG) with 60000%Z in *.
  unfold ceil_div_1000. Z.div_mod_to_equations. lia.
Qed.

(** X14.  The decision depends on the client's own timestamps within the
    window only: the request is admitted exactly when there are fewer than
    [RATE_LIMIT_MAX_REQUESTS] of them.  An admitted request is recorded
    after them, a refused one is not recorded, and the lists of the other
    clients are only cleaned. *)
Theorem rate_limit_counts_the_window (req : Request) (w : World) :
  let now := clock env (ticks w) in
  let young ts :=
    filter (fun t => (now - RATE_LIMIT_WINDOW_MS CONFIG < t)%Z) ts in
  let mine := young (default [] (rateLimitStore w !! clientIP req)) in
  let after := rateLimitStore (snd (rateLimit env req w)) in
  (fst (rateLimit env req w) = inr tt <->
   (length mine < RATE_LIMIT_MAX_REQUESTS CONFIG)%nat)
  /\ (fst (rateLimit env req w) = inr tt ->
      after !! clientIP req = Some (mine ++ [now]))
  /\ (fst (rateLimit env req w) <> inr tt ->
      after !! clientIP req = young <$> rateLimitStore w !! clientIP req)
  /\ (forall ip, ip <> clientIP req ->
                 after !! ip = young <$> rateLimitStore w !! ip).
Proof.
  intros now young mine after. subst after.
  rewrite rateLimit_run. cbv zeta. rewrite cleaned_lookup.
  fold now. fold (young (default [] (rateLimitStore w !! clientIP req))).
  fold mine.
  case_bool_decide as Hfull; cbn [fst snd rateLimitStore].
  - split; [split; [discriminate|lia]|].
    split; [discriminate|].
    split; [intros _; now rewrite lookup_fmap|].
    intros ip _. now rewrite lookup_fmap.
  - split; [split; [lia|reflexivity]|].
    split; [intros _; now rewrite lookup_insert_eq|].
    split; [congruence|].
    intros ip Hne. rewrite lookup_insert_ne by congruence.
    now rewrite lookup_fmap.
Qed.

End RateLimiter.

Lemma visited_lookup n ip ts :
  rateLimitStore (visited n) !! ip = Some ts -> ts = replicate n 0%Z.
Proof.
  unfold visited. cbn [rateLimitStore].
  now intros [_ <-]%lookup_singleton_Some.
Qed.

Lemma rate_limit_store_is_in_window_witness :
  rateLimitStore
    (snd (rateLimit (atTime 70000) (post VNull)
            (visited 2))) !! js "127.0.0.1" = Some [70000%Z]
  /\ Forall (fun t => (70000 - RATE_LIMIT_WINDOW_MS CONFIG < t)%Z) [70000%Z].
Proof.
  assert (Hl : rateLimitStore
                 (snd (rateLimit (atTime 70000)
                         (post VNull) (visited 2))) !! js "127.0.0.1"
               = Some [70000%Z]) by (vm_compute; reflexivity).
  split; [exact Hl|].
  exact (rate_limit_store_is_in_window (atTime 70000)
           (post VNull) (visited 2) _ _ Hl).
Defined.

Lemma rate_limit_lists_stay_bounded_witness :
  (forall ip ts, rateLimitStore (visited 100) !! ip = Some ts ->
                 (length ts <= RATE_LIMIT_MAX_REQUESTS CONFIG)%nat)
  /\ rateLimitStore
       (snd (rateLimit (atTime 1000) (post VNull)
               (visited 100))) !! js "127.0.0.1"
     = Some (replicate 100 0%Z)
  /\ (length (replicate 100 0%Z) <= RATE_LIMIT_MAX_REQUESTS CONFIG)%nat.
Proof.
  assert (Hb : forall ip ts,
            rateLimitStore (visited 100) !! ip = Some ts ->
            (length ts <= RATE_LIMIT_MAX_REQUESTS CONFIG)%nat).
  { intros ip ts ->%visited_lookup. rewrite length_replicate.
    apply le_n. }
  assert (Hl : rateLimitStore
                 (snd (rateLimit (atTime 1000)
                         (post VNull) (visited 100))) !! js "127.0.0.1"
               = Some (replicate 100 0%Z)) by (vm_compute; reflexivity).
  split; [exact Hb|]. split; [exact Hl|].
  exact (rate_limit_lists_stay_bounded (atTime 1000)
           (post VNull) (visited 100) Hb _ _ Hl).
Defined.

Lemma rate_limit_keeps_clients_witness :
  is_Some (rateLimitStore (visited 1) !! js "127.0.0.1")
  /\ is_Some (rateLimitStore
                (snd (rateLimit (atTime 500000)
                        (post VNull) (visited 1))) !! js "127.0.0.1").
Proof.
  assert (Hs : is_Some (rateLimitStore (visited 1) !! js "127.0.0.1"))
    by (eexists; vm_compute; reflexivity).
  split; [exact Hs|].
  exact (rate_limit_keeps_clients (atTime 500000)
           (post VNull) (visited 1) _ Hs).
Defined.

Lemma retry_after_is_within_a_minute_witness :
  let tooMany := VObject [("error", VString (js "Rate limit exceeded"));
                          ("retryAfter", VNumber 59)] in
  fst (rateLimit (atTime 1000) (post VNull)
         (visited 100)) = inl tooMany
  /\ (forall ip ts, rateLimitStore (visited 100) !! ip = Some ts ->
                    Forall (fun t => (t <= 1000)%Z) ts)
  /\ exists seconds,
       tooMany = VObject [("error", VString (js "Rate limit exceeded"));
                          ("retryAfter", VNumber seconds)]
       /\ (1 <= seconds <= 60)%Z.
Proof.
  intros tooMany.
  assert (Hr : fst (rateLimit (atTime 1000) (post VNull)
                      (visited 100)) = inl tooMany)
    by (vm_compute; reflexivity).
  assert (Hp : forall ip ts,
            rateLimitStore (visited 100) !! ip = Some ts ->
            Forall (fun t => (t <= 1000)%Z) ts).
  { intros ip ts ->%visited_lookup. apply Forall_replicate. discriminate. }
  split; [exact Hr|]. split; [exact Hp|].
  exact (retry_after_is_within_a_minute (atTime 1000)
           (post VNull) (visited 100) tooMany Hr Hp).
Defined.

Lemma rate_limit_counts_the_window_witness :
  fst (rateLimit (atTime 1000) (post VNull) (visited 99))
    = inr tt
  /\ rateLimitStore
       (snd (rateLimit (atTime 1000) (post VNull)
               (visited 99))) !! clientIP (post VNull)
     = Some (filter (fun t => (1000 - RATE_LIMIT_WINDOW_MS CONFIG < t)%Z)
                    (default [] (rateLimitStore (visited 99)
                                   !! clientIP (post VNull)))
               ++ [1000%Z]).
Proof.
  assert (Hr : fst (rateLimit (atTime 1000) (post VNull)
                      (visited 99)) = inr tt) by (vm_compute; reflexivity).
  split; [exact Hr|].
  exact (proj1 (proj2 (rate_limit_counts_the_window
                         (atTime 1000) (post VNull) (visited 99))) Hr).
Defined.

(** ** The key check and the CORS headers *)

Lemma bearer_token token :
  replace (js "Bearer " ++ token) (js "Bearer ") [] = token.
Proof. reflexivity. Qed.

Lemma or_string_nonempty a b : or_string a b = None -> or_string a None = None.
Proof. destruct a as [[|c s]|]; [reflexivity|discriminate|reflexivity]. Qed.

(** X15.  The key check looks at presence only.  It passes every request
    when [REQUIRE_API_KEY] is not the string true, and every request with a
    non-empty X-API-Key header.  When a key is required and that header is
    missing or empty, [Authorization: Bearer <token>] passes exactly when
    the token is not empty, and a request without either header is refused
    with "API key required". *)
Theorem api_key_is_checked_for_presence (env : Env) (req : Request) :
  (REQUIRE_API_KEY env <> Some (js "true") ->
   authenticateAPIKey env req = None)
  /\ (forall key,
        header req "x-api-key" = Some key -> key <> [] ->
        authenticateAPIKey env req = None)
  /\ (REQUIRE_API_KEY env = Some (js "true") ->
      or_string (header req "x-api-key") None = None ->
      (forall token,
         header req "authorization" = Some (js "Bearer " ++ token) ->
         (authenticateAPIKey env req = None <-> token <> []))
      /\ (header req "authorization" = None ->
          authenticateAPIKey env req = Some (js "API key required"))).
Proof.
  unfold authenticateAPIKey. split; [|split].
  - intros Hno. now rewrite (bool_decide_eq_false_2 _ Hno).
  - intros key -> Hkey. destruct key as [|c key]; [congruence|].
    cbn [or_string]. rewrite (bool_decide_eq_true_2 (is_Some _)) by eauto.
    cbn [negb]. now rewrite andb_false_r.
  - intros Hreq Hkey. rewrite (bool_decide_eq_true_2 _ Hreq). cbn [andb].
    assert (Hor : forall b, or_string (header req "x-api-key") b = b).
    { intros b. destruct (header req "x-api-key") as [[|c s]|];
        [reflexivity|discriminate|reflexivity]. }
    rewrite Hor. split.
    + intros token ->. cbn [fmap option_fmap option_map].
      rewrite bearer_token.
      destruct token as [|c token]; cbn [or_string].
      * rewrite bool_decide_eq_false_2 by (intros [? [=]]).
        cbn [negb]. split; [discriminate|congruence].
      * rewrite (bool_decide_eq_true_2 (is_Some _)) by eauto.
        cbn [negb]. split; [discriminate|reflexivity].
    + intros ->. cbn [fmap option_fmap option_map or_string].
      now rewrite bool_decide_eq_false_2 by (intros [? [=]]).
Qed.

Lemma api_key_is_checked_for_presence_witness :
  let env := {| clock := fun _ => 0%Z;
                REQUIRE_API_KEY := Some (js "true");
                NODE_ENV := None;
                https_get := fun _ => GetEmits [] |} in
  let req := {| method := js "POST";
                url := js "/api/extract-text";
                headers := [("authorization", js "Bearer " ++ js "secret")];
                remoteAddress := None;
                multipart := ParseRejects (Error []);
                json := InvalidJson |} in
  REQUIRE_API_KEY env = Some (js "true")
  /\ or_string (header req "x-api-key") None = None
  /\ header req "authorization" = Some (js "Bearer " ++ js "secret")
  /\ js "secret" <> []
  /\ authenticateAPIKey env req = None.
Proof.
  intros env req.
  assert (Hreq : REQUIRE_API_KEY env = Some (js "true")) by reflexivity.
  assert (Hkey : or_string (header req "x-api-key") None = None)
    by reflexivity.
  assert (Hauth : header req "authorization"
                  = Some (js "Bearer " ++ js "secret")) by reflexivity.
  assert (Htoken : js "secret" <> []) by discriminate.
  do 4 (split; [assumption|]).
  exact (proj2 (proj1 (proj2 (proj2 (api_key_is_checked_for_presence env req))
                         Hreq Hkey) (js "secret") Hauth) Htoken).
Defined.

Lemma includes_step s p :
  includes s p = startsWith s p
                 || match s with [] => false | _ :: s' => includes s' p end.
Proof. now destruct s. Qed.

Lemma startsWith_app p t : startsWith (p ++ t) p = true.
Proof.
  induction p as [|a p IH]; [reflexivity|].
  cbn [app startsWith]. now rewrite N.eqb_refl, IH.
Qed.

Lemma startsWith_app_inv s p :
  startsWith s p = true -> exists t, s = p ++ t.
Proof.
  revert s. induction p as [|a p IH]; intros s Hs; [now exists s|].
  apply startsWith_cons_inv in Hs as (s' & -> & Hs').
  destruct (IH _ Hs') as [t ->]. now exists t.
Qed.

Lemma includes_app before p after : includes (before ++ p ++ after) p = true.
Proof.
  induction before as [|c before IH]; rewrite includes_step.
  - cbn [app]. now rewrite startsWith_app.
  - cbn [app]. rewrite IH. apply orb_true_r.
Qed.

(** A string in which a code unit of the pattern does not occur does not
    include the pattern. *)
Lemma includes_without s p x :
  x ∈ p -> Forall (fun d => d <> x) s -> includes s p = false.
Proof.
  intros Hx Hs.
  assert (Hstart : forall t, Forall (fun d => d <> x) t ->
                             startsWith t p = false).
  { intros t Ht. destruct (startsWith t p) eqn:Hst; [|reflexivity].
    apply startsWith_app_inv in Hst as [u ->].
    apply Forall_app in Ht as [Ht _]. rewrite Forall_forall in Ht.
    now destruct (Ht x Hx). }
  induction Hs as [|d s Hd Hs IH]; rewrite includes_step.
  - now rewrite Hstart by constructor.
  - rewrite Hstart by now constructor. exact IH.
Qed.

Lemma allowed_origin o :
  existsb (fun allowed =>
             if includes allowed (js "*")
             then includes o (replace allowed (js "*") [])
             else bool_decide (o = allowed))
          (ALLOWED_ORIGINS CONFIG)
  = includes o starless
    || (bool_decide (o = js "https://n8n.io")
        || (bool_decide (o = js "http://localhost:3000")
            || (bool_decide (o = js "http://localhost:5678") || false))).
Proof. reflexivity. Qed.

Lemma subdomain_misses_starless c sub :
  c <> 46 -> Forall (fun d => d <> 58) (c :: sub) ->
  includes (js "https://" ++ c :: sub ++ js ".n8n.io") starless = false.
Proof.
  intros Hc Hcolon.
  assert (Hrest : includes (c :: sub ++ js ".n8n.io") starless = false).
  { apply includes_without with (x := 58).
    - unfold starless. apply list_elem_of_In. cbn. tauto.
    - rewrite app_comm_cons. apply Forall_app. split; [exact Hcolon|].
      apply Forall_forall. intros d Hd%list_elem_of_In.
      cbn in Hd. intuition (subst; discriminate). }
  change (js "https://") with [104; 116; 116; 112; 115; 58; 47; 47].
  unfold starless in *.
  change (js "https://.n8n.io")
    with ([104; 116; 116; 112; 115; 58; 47; 47] ++ js ".n8n.io") in *.
  set (tail := c :: sub ++ js ".n8n.io") in *.
  set (pattern := [104; 116; 116; 112; 115; 58; 47; 47] ++ js ".n8n.io") in *.
  do 8 (rewrite includes_step; cbn [app]).
  rewrite Hrest.
  subst pattern tail.
  cbn [app startsWith N.eqb Pos.eqb andb orb].
  change (js ".n8n.io") with (46 :: js "n8n.io"). cbn [startsWith].
  destruct (N.eqb_spec 46 c); [congruence|reflexivity].
Qed.

(** X16.  The wildcard origin [https://*.n8n.io] is matched as a substring
    of the pattern without its star.  An origin [https://<sub>.n8n.io],
    with a non-empty <sub> that has no colon and does not start with a dot,
    is therefore not echoed in Access-Control-Allow-Origin, while every
    origin in which [https://.n8n.io] occurs anywhere is. *)
Theorem wildcard_origin_is_a_substring (req : Request) :
  (forall c sub,
     header req "origin" = Some (js "https://" ++ c :: sub ++ js ".n8n.io") ->
     c <> 46 -> Forall (fun d => d <> 58) (c :: sub) ->
     handleCORS req = fixedCORS)
  /\ (forall before after,
        header req "origin" = Some (before ++ starless ++ after) ->
        handleCORS req
        = ("Access-Control-Allow-Origin", before ++ starless ++ after)
            :: fixedCORS).
Proof.
  unfold handleCORS. split.
  - intros c sub -> Hc Hcolon. rewrite allowed_origin.
    rewrite subdomain_misses_starless by assumption.
    rewrite !bool_decide_eq_false_2; [reflexivity|..].
    + intros [=].
    + intros [=].
    + intros Heq. apply (f_equal length) in Heq.
      rewrite !length_app, length_cons, length_app in Heq.
      cbn in Heq. lia.
  - intros before after ->. rewrite allowed_origin.
    now rewrite includes_app.
Qed.

Lemma wildcard_origin_is_a_substring_witness :
  let req := {| method := js "POST";
                url := js "/api/extract-text";
                headers := [("origin", js "https://app.n8n.io")];
                remoteAddress := None;
                multipart := ParseRejects (Error []);
                json := InvalidJson |} in
  header req "origin" = Some (js "https://" ++ 97 :: js "pp" ++ js ".n8n.io")
  /\ 97 <> 46
  /\ Forall (fun d => d <> 58) (97 :: js "pp")
  /\ handleCORS req = fixedCORS.
Proof.
  intros req.
  assert (Ho : header req "origin"
               = Some (js "https://" ++ 97 :: js "pp" ++ js ".n8n.io"))
    by reflexivity.
  assert (Hc : 97 <> 46) by discriminate.
  assert (Hcolon : Forall (fun d => d <> 58) (97 :: js "pp"))
    by (repeat constructor; discriminate).
  do 3 (split; [assumption|]).
  exact (proj1 (wildcard_origin_is_a_substring req) 97 (js "pp") Ho Hc Hcolon).
Defined.

(** ** The handler as a whole *)

Section WholeHandler.
Context `{Runtime}.
Variable env : Env.

Lemma snd_bind {A B} (m : State A) (k : A -> State B) w :
  snd (bind m k w) = snd (k (fst (m w)) (snd (m w))).
Proof. unfold bind. now destruct (m w). Qed.

Lemma sendError_world req hdrs code error startTime w :
  exists entry,
    snd (sendError env req hdrs code error startTime w)
    = {| rateLimitStore := rateLimitStore w; ticks := S (S (ticks w));
         console := console w ++ [entry] |}.
Proof. eexists. reflexivity. Qed.

Lemma sendResult_world hdrs result startTime w :
  snd (sendResult env hdrs result startTime w)
  = {| rateLimitStore := rateLimitStore w; ticks := S (ticks w);
       console := console w |}.
Proof. unfold sendResult. rewrite snd_bind. now destruct (truthy _). Qed.

Lemma sendResult_response hdrs result startTime w :
  exists code b,
    fst (sendResult env hdrs result startTime w)
    = Some {| status := code; headers_out := hdrs; body := Some b |}
    /\ (code = 200 \/ code = 400)%Z.
Proof.
  unfold sendResult. rewrite fst_bind.
  destruct (truthy _); eexists; eexists; (split; [reflexivity|]); auto.
Qed.

Lemma rateLimit_console req w :
  console (snd (rateLimit env req w)) = console w.
Proof. rewrite rateLimit_run. cbv zeta. now destruct (bool_decide _). Qed.

(** X17.  A request that is not a POST is never counted by the rate
    limiter: the store is left as it was.  OPTIONS is answered 200 without
    a body and without a log entry; any other method is answered 405. *)
Theorem only_post_is_counted (req : Request) (w : World) :
  method req <> js "POST" ->
  rateLimitStore (snd (handler env req w)) = rateLimitStore w
  /\ (method req = js "OPTIONS" ->
      fst (handler env req w)
      = Some {| status := 200;
                headers_out := setSecurityHeaders ++ handleCORS req;
                body := None |}
      /\ console (snd (handler env req w)) = console w)
  /\ (method req <> js "OPTIONS" ->
      fst (handler env req w)
      = Some {| status := 405;
                headers_out := setSecurityHeaders ++ handleCORS req;
                body := Some (VObject
                  [("error", VString (js "Method not allowed. Only POST requests accepted."))]) |}).
Proof.
  intros Hpost. unfold handler. rewrite fst_bind, snd_bind.
  case_bool_decide as Hopt.
  - split; [reflexivity|]. split; [intros _; split; reflexivity|congruence].
  - rewrite (bool_decide_eq_false_2 _ Hpost). cbn [negb].
    split; [reflexivity|]. split; [congruence|].
    intros _. apply sendError_response.
Qed.

(** X18.  The rate limit comes before the key check.  A POST without the
    required key that the limiter admits is answered 401 and still
    recorded: the store after the request is the limiter's, with the time
    of the request last in the client's list.  One that the limiter
    refuses is answered 429, not 401. *)
Theorem rate_limit_comes_before_key_check (req : Request) (w : World)
    (error : jsstring) :
  method req = js "POST" ->
  authenticateAPIKey env req = Some error ->
  let limited := rateLimit env req (snd (Date_now env w)) in
  (fst limited = inr tt ->
   fst (handler env req w)
   = Some {| status := 401;
             headers_out := setSecurityHeaders ++ handleCORS req;
             body := Some (VObject [("error", VString error)]) |}
   /\ rateLimitStore (snd (handler env req w)) = rateLimitStore (snd limited)
   /\ exists earlier,
        rateLimitStore (snd (handler env req w)) !! clientIP req
        = Some (earlier ++ [clock env (S (ticks w))]))
  /\ (forall tooMany,
        fst limited = inl tooMany ->
        fst (handler env req w)
        = Some {| status := 429;
                  headers_out := setSecurityHeaders ++ handleCORS req;
                  body := Some tooMany |}).
Proof.
  intros Hpost Hauth limited. subst limited.
  unfold handler. rewrite fst_bind, snd_bind, Hpost.
  rewrite bool_decide_eq_false_2 by discriminate.
  rewrite bool_decide_eq_true_2 by reflexivity. cbn [negb].
  rewrite fst_bind, snd_bind, Hauth.
  split.
  - intros Hlim. rewrite Hlim.
    split; [apply sendError_response|].
    destruct (sendError_world req (setSecurityHeaders ++ handleCORS req)
                401 error (fst (Date_now env w))
                (snd (rateLimit env req (snd (Date_now env w)))))
      as [entry ->].
    cbn [rateLimitStore]. split; [reflexivity|].
    revert Hlim. rewrite rateLimit_run. cbv zeta.
    destruct (bool_decide _); cbn [fst snd rateLimitStore]; [discriminate|].
    intros _. rewrite lookup_insert_eq. eauto.
  - intros tooMany Hlim. rewrite Hlim. now rewrite fst_bind.
Qed.

Lemma logRequest_entry req result startTime w :
  exists entry,
    snd (logRequest env req result startTime w)
    = {| rateLimitStore := rateLimitStore w; ticks := S (S (ticks w));
         console := console w ++ [entry] |}
    /\ get "ip" entry = VString (clientIP req)
    /\ get "method" entry = VString (method req)
    /\ get "endpoint" entry = VString (url req)
    /\ get "success" entry = get "success" result.
Proof. eexists. split; [reflexivity|]. repeat split. Qed.

(** The success field of a result of [processBuffer] is a boolean. *)
Lemma success_is_boolean buffer fileName result :
  processBuffer buffer fileName = Ok result ->
  get "success" result = VBool (truthy (get "success" result)).
Proof.
  unfold processBuffer.
  destruct (detectFileType buffer fileName) as [fileType|e];
    cbn [obind]; [|discriminate].
  destruct (_ <? _); intros [= <-]; [reflexivity|].
  unfold dispatch, pdfResult, textResult, rejection.
  repeat case_bool_decide; try reflexivity.
  destruct (_ <? _); reflexivity.
Qed.

Lemma sendResult_status hdrs result startTime w :
  exists b,
    fst (sendResult env hdrs result startTime w)
    = Some {| status := if truthy (get "success" result) then 200 else 400;
              headers_out := hdrs; body := Some b |}.
Proof.
  unfold sendResult. rewrite fst_bind.
  destruct (truthy _); eexists; reflexivity.
Qed.

(** X19.  Every request that is answered, OPTIONS apart, is logged once:
    the console gains one entry, which names the client, the method and
    the endpoint and whose success field is true for a 200 response only.
    A 500 response prints two: first the error that was caught, by
    [console.error], then the entry. *)
Theorem every_answer_is_logged_once (req : Request) (w : World)
    (resp : Response) :
  fst (handler env req w) = Some resp ->
  method req <> js "OPTIONS" ->
  let printed := console (snd (handler env req w)) in
  length printed
  = (length (console w) + if bool_decide (status resp = 500%Z) then 2 else 1)%nat
  /\ exists entry,
       get "ip" entry = VString (clientIP req)
       /\ get "method" entry = VString (method req)
       /\ get "endpoint" entry = VString (url req)
       /\ get "success" entry = VBool (bool_decide (status resp = 200%Z))
       /\ (status resp <> 500%Z -> printed = console w ++ [entry])
       /\ (status resp = 500%Z ->
           exists e,
             (intake env req = Throw e
              \/ exists buffer fileName,
                   intake env req = Ok (File buffer fileName)
                   /\ processBuffer buffer fileName = Throw e)
             /\ printed
                = console w
                    ++ [VArray [VString (js "API Error:");
                                VString (message e)];
                        entry]).
Proof.
  intros Hresp Hopt printed.
  set (Logged := fun (answer : Response) (lines : list value) =>
    exists entry,
      get "ip" entry = VString (clientIP req)
      /\ get "method" entry = VString (method req)
      /\ get "endpoint" entry = VString (url req)
      /\ get "success" entry = VBool (bool_decide (status answer = 200%Z))
      /\ (status answer <> 500%Z -> lines = console w ++ [entry])
      /\ (status answer = 500%Z ->
          exists e,
            (intake env req = Throw e
             \/ exists buffer fileName,
                  intake env req = Ok (File buffer fileName)
                  /\ processBuffer buffer fileName = Throw e)
            /\ lines
               = console w
                   ++ [VArray [VString (js "API Error:");
                               VString (message e)];
                       entry])).
  assert (Hlog : Logged resp printed).
  { subst printed. revert Hresp.
    unfold handler. rewrite fst_bind, snd_bind.
    rewrite (bool_decide_eq_false_2 _ Hopt).
    set (startTime := fst (Date_now env w)).
    set (hdrs := setSecurityHeaders ++ handleCORS req).
    assert (Hplain : forall code error w',
              console w' = console w ->
              code <> 500%Z -> code <> 200%Z ->
              fst (sendError env req hdrs code error startTime w')
                = Some resp ->
              Logged resp (console (snd (sendError env req hdrs code error
                                           startTime w')))).
    { intros code error w' Hw' H500 H200.
      rewrite sendError_response. intros [= <-].
      unfold sendError. rewrite snd_bind. cbn [ret snd].
      destruct (logRequest_entry req
                  (VObject [("success", VBool false);
                            ("error", get "error"
                                        (VObject [("error", VString error)]))])
                  startTime w')
        as (entry & -> & Hip & Hmethod & Hurl & Hsuccess).
      exists entry. cbn [console status].
      rewrite (bool_decide_eq_false_2 _ H200), Hw'.
      do 4 (split; [assumption|]). split; [reflexivity|congruence]. }
    assert (Hfault : forall e w',
              console w' = console w ->
              (intake env req = Throw e
               \/ exists buffer fileName,
                    intake env req = Ok (File buffer fileName)
                    /\ processBuffer buffer fileName = Throw e) ->
              fst (internalError env req hdrs e startTime w') = Some resp ->
              Logged resp (console (snd (internalError env req hdrs e
                                           startTime w')))).
    { intros e w' Hw' Hcause.
      rewrite internalError_details. intros [= <-].
      unfold internalError. rewrite !snd_bind. cbn [ret snd].
      match goal with
      | |- context [logRequest env req ?result startTime ?w''] =>
          destruct (logRequest_entry req result startTime w'')
            as (entry & -> & Hip & Hmethod & Hurl & Hsuccess)
      end.
      exists entry. cbn [console status console_log snd].
      rewrite bool_decide_eq_false_2 by discriminate. rewrite Hw'.
      do 4 (split; [assumption|]). split; [congruence|].
      intros _. exists e. split; [exact Hcause|].
      now rewrite <- app_assoc. }
    destruct (negb _).
    { intros Hresp. apply Hplain;
        [reflexivity|discriminate|discriminate|assumption]. }
    rewrite fst_bind, snd_bind.
    pose proof (rateLimit_console req (snd (Date_now env w))) as Hconsole.
    change (console (snd (Date_now env w))) with (console w) in Hconsole.
    set (w2 := snd (rateLimit env req (snd (Date_now env w)))) in *.
    destruct (fst (rateLimit env req (snd (Date_now env w))))
      as [tooMany|[]].
    { rewrite fst_bind, snd_bind. cbn [ret fst snd]. intros [= <-].
      destruct (logRequest_entry req
                  (VObject [("success", VBool false);
                            ("error", VString (js "Rate limit exceeded"))])
                  startTime w2)
        as (entry & -> & Hip & Hmethod & Hurl & Hsuccess).
      exists entry. cbn [console status].
      rewrite bool_decide_eq_false_2 by discriminate. rewrite Hconsole.
      do 4 (split; [assumption|]). split; [reflexivity|discriminate]. }
    destruct (authenticateAPIKey env req) as [error|].
    { intros Hresp. apply Hplain;
        [assumption|discriminate|discriminate|assumption]. }
    destruct (intake env req) as [[buffer fileName|error|]|e].
    - destruct (processBuffer buffer fileName) as [result|e] eqn:Hresult.
      + rewrite fst_bind, snd_bind, sendResult_world.
        destruct (logRequest_entry req result startTime w2)
          as (entry & -> & Hip & Hmethod & Hurl & Hsuccess).
        cbn [console].
        match goal with
        | |- context [sendResult env hdrs result startTime ?w''] =>
            destruct (sendResult_status hdrs result startTime w'')
              as [b ->]
        end.
        intros [= <-]. exists entry. cbn [status].
        rewrite (success_is_boolean _ _ _ Hresult) in Hsuccess.
        rewrite Hconsole.
        do 3 (split; [assumption|]).
        destruct (truthy (get "success" result));
          (split; [exact Hsuccess|]); (split; [reflexivity|discriminate]).
      + intros Hresp. apply Hfault; [assumption|eauto|assumption].
    - intros Hresp. apply Hplain;
        [assumption|discriminate|discriminate|assumption].
    - discriminate.
    - intros Hresp. apply Hfault; [assumption|now left|assumption]. }
  split; [|exact Hlog].
  destruct Hlog as (entry & _ & _ & _ & _ & Hother & Hfault).
  case_bool_decide as Hs.
  - destruct (Hfault Hs) as (e & _ & ->). rewrite length_app. cbn [length]. lia.
  - rewrite (Hother Hs), length_app. cbn [length]. lia.
Qed.

(** X20.  Every response carries the four security headers and the CORS
    headers, whatever its status. *)
Theorem every_response_has_the_headers (req : Request) (w : World)
    (resp : Response) :
  fst (handler env req w) = Some resp ->
  headers_out resp = setSecurityHeaders ++ handleCORS req
  /\ (forall h, h ∈ setSecurityHeaders -> h ∈ headers_out resp)
  /\ (forall h, h ∈ fixedCORS -> h ∈ headers_out resp).
Proof.
  intros Hresp.
  assert (Hh : headers_out resp = setSecurityHeaders ++ handleCORS req).
  { revert Hresp. unfold handler. rewrite fst_bind.
    set (startTime := fst (Date_now env w)).
    set (hdrs := setSecurityHeaders ++ handleCORS req).
    destruct (bool_decide _); [now intros [= <-]|].
    destruct (negb _); [rewrite sendError_response; now intros [= <-]|].
    rewrite fst_bind.
    destruct (fst (rateLimit env req _)) as [tooMany|[]];
      [rewrite fst_bind; now intros [= <-]|].
    destruct (authenticateAPIKey env req) as [error|];
      [rewrite sendError_response; now intros [= <-]|].
    destruct (intake env req) as [[buffer fileName|error|]|e].
    - destruct (processBuffer buffer fileName) as [result|e].
      + rewrite fst_bind.
        edestruct sendResult_response as (code & b & -> & _).
        now intros [= <-].
      + edestruct internalError_response as [details ->]. now intros [= <-].
    - rewrite sendError_response. now intros [= <-].
    - discriminate.
    - edestruct internalError_response as [details ->]. now intros [= <-]. }
  split; [exact Hh|]. rewrite Hh. split; intros h Hin.
  - apply elem_of_app. now left.
  - apply elem_of_app. right. unfold handleCORS.
    apply elem_of_app. now right.
Qed.

End WholeHandler.

Lemma only_post_is_counted_witness :
  method getRequest <> js "POST"
  /\ rateLimitStore (snd (handler (H := Posix.runtime) quiet getRequest
                            (visited 3)))
     = rateLimitStore (visited 3).
Proof.
  assert (Hm : method getRequest <> js "POST") by discriminate.
  split; [exact Hm|].
  exact (proj1 (only_post_is_counted (H := Posix.runtime) quiet getRequest
                  (visited 3) Hm)).
Defined.

Lemma rate_limit_comes_before_key_check_witness :
  let env := {| clock := fun i => Z.of_nat i;
                REQUIRE_API_KEY := Some (js "true");
                NODE_ENV := None;
                https_get := fun _ => GetEmits [] |} in
  let req := {| method := js "POST";
                url := js "/api/extract-text";
                headers := [("content-type", js "application/json")];
                remoteAddress := Some (js "127.0.0.1");
                multipart := ParseRejects (Error []);
                json := Json (VObject []) |} in
  method req = js "POST"
  /\ authenticateAPIKey env req = Some (js "API key required")
  /\ fst (rateLimit env req (snd (Date_now env startup))) = inr tt
  /\ fst (handler (H := Posix.runtime) env req startup)
     = Some {| status := 401;
               headers_out := setSecurityHeaders ++ handleCORS req;
               body := Some (VObject
                 [("error", VString (js "API key required"))]) |}
  /\ exists earlier,
       rateLimitStore (snd (handler (H := Posix.runtime) env req startup))
         !! clientIP req
       = Some (earlier ++ [clock env 1]).
Proof.
  intros env req.
  assert (Hm : method req = js "POST") by reflexivity.
  assert (Ha : authenticateAPIKey env req = Some (js "API key required"))
    by reflexivity.
  assert (Hr : fst (rateLimit env req (snd (Date_now env startup))) = inr tt)
    by (vm_compute; reflexivity).
  do 3 (split; [assumption|]).
  destruct (proj1 (rate_limit_comes_before_key_check (H := Posix.runtime)
                     env req startup _ Hm Ha) Hr) as (Hresp & _ & Hstore).
  split; [exact Hresp|exact Hstore].
Defined.

Lemma every_answer_is_logged_once_witness :
  let req := post VNull in
  let resp := {| status := 500;
                 headers_out := setSecurityHeaders ++ handleCORS req;
                 body := Some (VObject
                   [("success", VBool false);
                    ("error", VString (js "Internal server error"));
                    ("details", VUndefined)]) |} in
  let printed := console (snd (handler (H := Posix.runtime) quiet req
                                 startup)) in
  fst (handler (H := Posix.runtime) quiet req startup) = Some resp
  /\ method req <> js "OPTIONS"
  /\ length printed = 2%nat
  /\ exists entry e,
       get "success" entry = VBool false
       /\ printed = [VArray [VString (js "API Error:"); VString (message e)];
                     entry].
Proof.
  intros req resp printed.
  assert (Hresp : fst (handler (H := Posix.runtime) quiet req startup)
                  = Some resp) by (vm_compute; reflexivity).
  assert (Hopt : method req <> js "OPTIONS") by discriminate.
  split; [exact Hresp|]. split; [exact Hopt|].
  destruct (every_answer_is_logged_once (H := Posix.runtime) quiet req
              startup resp Hresp Hopt)
    as (Hlength & entry & _ & _ & _ & Hsuccess & _ & Hfault).
  split; [exact Hlength|].
  destruct (Hfault eq_refl) as (e & _ & Hprinted).
  exists entry, e. split; [exact Hsuccess|exact Hprinted].
Defined.

Lemma every_response_has_the_headers_witness :
  let resp := {| status := 405;
                 headers_out := setSecurityHeaders ++ handleCORS getRequest;
                 body := Some (VObject
                   [("error", VString (js "Method not allowed. Only POST requests accepted."))]) |} in
  fst (handler (H := Posix.runtime) quiet getRequest startup) = Some resp
  /\ ("X-Frame-Options", js "DENY") ∈ setSecurityHeaders
  /\ ("X-Frame-Options", js "DENY") ∈ headers_out resp.
Proof.
  intros resp.
  assert (Hresp : fst (handler (H := Posix.runtime) quiet getRequest startup)
                  = Some resp) by (vm_compute; reflexivity).
  assert (Hin : ("X-Frame-Options", js "DENY") ∈ setSecurityHeaders)
    by (unfold setSecurityHeaders; repeat constructor).
  split; [exact Hresp|]. split; [exact Hin|].
  exact (proj1 (proj2 (every_response_has_the_headers (H := Posix.runtime)
                         quiet getRequest startup resp Hresp)) _ Hin).
Defined.

(** ** The transport resolver *)

Lemma byte_value_round_trip b :
  BufferFrom.byte_of_N (Z.to_N (Z.of_N (Byte.to_N b) mod 256)) = b.
Proof.
  pose proof (Byte.to_N_bounded b) as Hb.
  rewrite Z.mod_small by lia. rewrite N2Z.id.
  unfold BufferFrom.byte_of_N. rewrite N.mod_small by lia.
  now rewrite Byte.of_to_N.
Qed.

Section Resolver.
Context `{Runtime}.
Variable env : Env.

Lemma bytes_are_copied bs :
  map BufferFrom.ToUint8 (map byteValue bs) = bs.
Proof.
  induction bs as [|b bs IH]; [reflexivity|].
  cbn [map]. rewrite IH. unfold byteValue at 1. cbn [BufferFrom.ToUint8].
  now rewrite byte_value_round_trip.
Qed.

(** X21.  binaryData is copied as it is: when fileUrl and fileBase64 are
    not truthy and binaryData.data is the array of the byte values of some
    bytes, the resolver hands on exactly those bytes, with the fileName of
    the body or, failing that, "n8n_upload".  A number outside 0..255 in
    the array is stored modulo 256. *)
Theorem binary_data_is_copied (req : Request) (body : value)
    (bs : list byte) :
  includes (contentType req) (js "multipart/form-data") = false ->
  json req = Json body ->
  body <> VNull -> body <> VUndefined ->
  truthy (get "fileUrl" body) = false ->
  truthy (get "fileBase64" body) = false ->
  get "data" (get "binaryData" body) = VArray (map byteValue bs) ->
  intake env req
  = Ok (File bs (or_else (get "fileName" body) (VString (js "n8n_upload"))))
  /\ forall n, BufferFrom.ToUint8 (VNumber (n + 256))
               = BufferFrom.ToUint8 (VNumber n).
Proof.
  intros Hm Hj Hn Hu Hurl H64 Hdata. split.
  - rewrite (intake_json env req body Hm Hj Hn Hu), Hurl, H64.
    destruct (get "binaryData" body) as [| | | | | |fields] eqn:Hbin;
      try discriminate.
    cbn [truthy get_prop obind]. cbn [get] in Hdata. rewrite Hdata.
    cbn [BufferFrom.from obind try_catch]. now rewrite bytes_are_copied.
  - intros n. cbn [BufferFrom.ToUint8]. do 2 f_equal.
    replace (n + 256)%Z with (n + 1 * 256)%Z by lia.
    now rewrite Z.mod_add by lia.
Qed.

(** X22.  A JSON body other than [null] never makes the resolver throw:
    it hands on a file, rejects the request or, for a truthy fileUrl only,
    waits for a download that does not settle.  In particular a truthy
    binaryData of any shape is either turned into a buffer or rejected
    with "Invalid binary data". *)
Theorem json_body_never_throws (req : Request) (body : value) :
  includes (contentType req) (js "multipart/form-data") = false ->
  json req = Json body ->
  body <> VNull -> body <> VUndefined ->
  exists outcome,
    intake env req = Ok outcome
    /\ (truthy (get "fileUrl" body) = false -> outcome <> Hang)
    /\ (truthy (get "fileUrl" body) = false ->
        truthy (get "fileBase64" body) = false ->
        truthy (get "binaryData" body) = true ->
        (exists buffer fileName, outcome = File buffer fileName)
        \/ outcome = Reject (js "Invalid binary data")).
Proof.
  intros Hm Hj Hn Hu. rewrite (intake_json env req body Hm Hj Hn Hu).
  destruct (truthy (get "fileUrl" body)).
  { destruct (downloadFileFromUrl _ _); eexists;
      (split; [reflexivity|]); split; discriminate. }
  destruct (truthy (get "fileBase64" body)).
  { destruct (BufferFrom.from _ _); eexists;
      (split; [reflexivity|]); (split; [discriminate|]); discriminate. }
  destruct (truthy (get "binaryData" body)).
  - destruct (get_prop "data" _) as [data|]; cbn [obind try_catch].
    + destruct (BufferFrom.from data _); cbn [obind try_catch];
        eexists; (split; [reflexivity|]); (split; [discriminate|]);
        intros _ _ _; eauto.
    + eexists. split; [reflexivity|]. split; [discriminate|]. auto.
  - eexists. split; [reflexivity|]. split; discriminate.
Qed.

Lemma uploadedFile_head file resume document :
  uploadedFile file resume document = head (file ++ resume ++ document).
Proof. destruct file, resume; reflexivity. Qed.

(** X23.  For a multipart request the JSON body is not looked at.  The
    file is the first one of the fields file, resume, document, in that
    order; without any the request is rejected with "No file uploaded"; a
    failure of the form parser or of reading the file leaves the resolver
    as an exception, which the handler answers with status 500. *)
Theorem multipart_takes_the_first_field (req : Request) :
  includes (contentType req) (js "multipart/form-data") = true ->
  (forall file resume document,
     multipart req = Parsed file resume document ->
     (file ++ resume ++ document = [] ->
      intake env req
      = Ok (Reject (js "No file uploaded. Supported fields: 'file', 'resume', 'document'")))
     /\ (forall f rest buffer,
           file ++ resume ++ document = f :: rest ->
           readFileSync f = Ok buffer ->
           intake env req = Ok (File buffer (originalFilename f)))
     /\ (forall f rest e,
           file ++ resume ++ document = f :: rest ->
           readFileSync f = Throw e ->
           intake env req = Throw e))
  /\ (forall e,
        multipart req = ParseRejects e ->
        intake env req = Throw e)
  /\ (forall e w,
        intake env req = Throw e ->
        method req = js "POST" ->
        fst (rateLimit env req (snd (Date_now env w))) = inr tt ->
        authenticateAPIKey env req = None ->
        exists resp,
          fst (handler env req w) = Some resp /\ status resp = 500%Z).
Proof.
  intros Hm. unfold intake. rewrite Hm. split; [|split].
  - intros file resume document ->. rewrite uploadedFile_head.
    split; [intros ->; reflexivity|].
    split; intros f rest x -> Hread; cbn [head]; now rewrite Hread.
  - now intros e ->.
  - intros e w Hi Hpost Hr Ha. unfold handler. rewrite fst_bind, Hpost.
    rewrite bool_decide_eq_false_2 by discriminate.
    rewrite bool_decide_eq_true_2 by reflexivity. cbn [negb].
    rewrite fst_bind, Hr, Ha. unfold intake. rewrite Hm, Hi.
    edestruct internalError_response as [details ->].
    eexists. split; reflexivity.
Qed.

Lemma ascii_code_point c :
  c <= 0x7F ->
  BufferFrom.is_high c = false /\ BufferFrom.is_low c = false
  /\ BufferFrom.encode_code_point c = [BufferFrom.byte_of_N c]
  /\ Byte.to_N (BufferFrom.byte_of_N c) = c.
Proof.
  intros Hc. unfold BufferFrom.is_high, BufferFrom.is_low,
    BufferFrom.encode_code_point.
  replace (0xD800 <=? c) with false by (symmetry; apply N.leb_gt; lia).
  replace (0xDC00 <=? c) with false by (symmetry; apply N.leb_gt; lia).
  replace (c <? 0x80) with true by (symmetry; apply N.ltb_lt; lia).
  repeat split.
  unfold BufferFrom.byte_of_N. rewrite N.mod_small by lia.
  destruct (Byte.of_N c) as [b|] eqn:Hb.
  - now apply Byte.to_of_N in Hb.
  - apply Byte.of_N_None_iff in Hb. lia.
Qed.

Lemma utf8_encode_ascii s :
  Forall (fun c => c <= 0x7F) s ->
  BufferFrom.utf8_encode s = map BufferFrom.byte_of_N s
  /\ map Byte.to_N (map BufferFrom.byte_of_N s) = s.
Proof.
  induction 1 as [|c s Hc _ [IH1 IH2]]; [split; reflexivity|].
  destruct (ascii_code_point c Hc) as (Hh & Hl & He & Hb).
  cbn [BufferFrom.utf8_encode map]. rewrite Hh, Hl, He, IH1, IH2, Hb.
  split; reflexivity.
Qed.

(** X24.  A printable string sent as binaryData.data comes back as it
    went in.  For a non-empty string of printable ASCII and whitespace, of
    at most [MAX_TEXT_LENGTH] code units, whose bytes match no signature:
    [Buffer.from] gives one byte per code unit, the buffer is tagged text
    and the result carries the string itself, not truncated, with its
    length as textLength and as fileSize. *)
Theorem printable_string_round_trip (s : jsstring) (fileName : value) :
  s <> [] ->
  Forall (fun c => printable c = true) s ->
  N.of_nat (length s) <= MAX_TEXT_LENGTH CONFIG ->
  (forall sig tag, (sig, tag) ∈ signatures ->
     startsWith (Buffer.toString_hex (BufferFrom.utf8_encode s) 0 8) sig
     = false) ->
  exists buffer result,
    BufferFrom.from (VString s) BufferFrom.utf8 = Ok buffer
    /\ length buffer = length s
    /\ processBuffer buffer fileName = Ok result
    /\ get "type" result = VString (js "text")
    /\ get "text" result = VString s
    /\ get "truncated" result = VUndefined
    /\ get "textLength" (get "metadata" result) = num (length s)
    /\ get "fileSize" (get "metadata" result) = num (length s).
Proof.
  intros Hne Hpr Hlen Hsig.
  assert (Hascii : Forall (fun c => c <= 0x7F) s).
  { eapply Forall_impl; [exact Hpr|]. intros c Hc.
    now apply printable_ascii in Hc. }
  destruct (utf8_encode_ascii s Hascii) as [Henc Hdec].
  assert (Htext : Buffer.toString_utf8 (BufferFrom.utf8_encode s) = s).
  { rewrite Henc, utf8_decode_ascii; [exact Hdec|].
    apply Forall_fmap. eapply Forall_impl; [exact Hascii|].
    intros c Hc. cbn. now rewrite (proj2 (proj2 (proj2
                                     (ascii_code_point c Hc)))). }
  assert (Hsize : length (BufferFrom.utf8_encode s) = length s)
    by (rewrite Henc; apply length_map).
  assert (Hd : detectFileType (BufferFrom.utf8_encode s) fileName
               = Ok (js "text")).
  { rewrite no_signature_text by assumption. cbv zeta. rewrite Htext.
    rewrite includes_absent.
    2:{ eapply Forall_impl; [exact Hpr|]. intros c Hc.
        now apply printable_ascii in Hc. }
    rewrite filter_all
      by (eapply Forall_impl; [exact Hpr|]; intros c Hc; cbn;
          now rewrite Hc).
    unfold ratio_exceeds_0_8. cbn [negb andb].
    replace (_ <? _) with true; [reflexivity|].
    symmetry. apply N.ltb_lt. destruct s; [congruence|]. cbn [length]. lia. }
  exists (BufferFrom.utf8_encode s).
  exists (dispatch (js "text") (BufferFrom.utf8_encode s) fileName).
  split; [reflexivity|]. split; [exact Hsize|].
  split.
  { apply processBuffer_within; [exact Hd|]. rewrite Hsize.
    change (MAX_FILE_SIZE CONFIG) with 52428800.
    change (MAX_TEXT_LENGTH CONFIG) with 50000 in Hlen. lia. }
  rewrite dispatch_text by (unfold textTypes; repeat constructor).
  rewrite Htext, Hsize. unfold textResult.
  replace (_ <? _) with false by (symmetry; apply N.ltb_ge; exact Hlen).
  repeat split.
Qed.

End Resolver.

Lemma binary_data_is_copied_witness :
  let body := VObject [("binaryData",
                         VObject [("data", VArray (map byteValue (bytes "hi")))])] in
  includes (contentType (post body)) (js "multipart/form-data") = false
  /\ json (post body) = Json body
  /\ truthy (get "fileUrl" body) = false
  /\ truthy (get "fileBase64" body) = false
  /\ get "data" (get "binaryData" body) = VArray (map byteValue (bytes "hi"))
  /\ intake (H := Posix.runtime) quiet (post body)
     = Ok (File (bytes "hi") (VString (js "n8n_upload"))).
Proof.
  intros body.
  assert (Hm : includes (contentType (post body)) (js "multipart/form-data")
               = false) by reflexivity.
  assert (Hj : json (post body) = Json body) by reflexivity.
  assert (Hn : body <> VNull) by discriminate.
  assert (Hu : body <> VUndefined) by discriminate.
  assert (Hurl : truthy (get "fileUrl" body) = false) by reflexivity.
  assert (H64 : truthy (get "fileBase64" body) = false) by reflexivity.
  assert (Hdata : get "data" (get "binaryData" body)
                  = VArray (map byteValue (bytes "hi"))) by reflexivity.
  do 5 (split; [assumption|]).
  exact (proj1 (binary_data_is_copied (H := Posix.runtime) quiet (post body)
                  body (bytes "hi") Hm Hj Hn Hu Hurl H64 Hdata)).
Defined.

Lemma json_body_never_throws_witness :
  let body := VObject [("binaryData", VBool true)] in
  includes (contentType (post body)) (js "multipart/form-data") = false
  /\ json (post body) = Json body
  /\ exists outcome,
       intake (H := Posix.runtime) quiet (post body) = Ok outcome
       /\ (truthy (get "fileUrl" body) = false -> outcome <> Hang)
       /\ (truthy (get "fileUrl" body) = false ->
           truthy (get "fileBase64" body) = false ->
           truthy (get "binaryData" body) = true ->
           (exists buffer fileName, outcome = File buffer fileName)
           \/ outcome = Reject (js "Invalid binary data")).
Proof.
  intros body.
  assert (Hm : includes (contentType (post body)) (js "multipart/form-data")
               = false) by reflexivity.
  assert (Hj : json (post body) = Json body) by reflexivity.
  assert (Hn : body <> VNull) by discriminate.
  assert (Hu : body <> VUndefined) by discriminate.
  do 2 (split; [assumption|]).
  exact (json_body_never_throws (H := Posix.runtime) quiet (post body) body
           Hm Hj Hn Hu).
Defined.

Lemma multipart_takes_the_first_field_witness :
  let cv := {| filepath := js "/tmp/upload_1";
               originalFilename := VString (js "cv.txt");
               readFileSync := Ok (bytes "resume") |} in
  let photo := {| filepath := js "/tmp/upload_2";
                  originalFilename := VString (js "photo.png");
                  readFileSync := Ok pngHeader |} in
  let req := {| method := js "POST";
                url := js "/api/extract-text";
                headers := [("content-type",
                             js "multipart/form-data; boundary=x")];
                remoteAddress := None;
                multipart := Parsed [] [cv] [photo];
                json := InvalidJson |} in
  includes (contentType req) (js "multipart/form-data") = true
  /\ intake (H := Posix.runtime) quiet req
     = Ok (File (bytes "resume") (VString (js "cv.txt"))).
Proof.
  intros cv photo req.
  assert (Hm : includes (contentType req) (js "multipart/form-data") = true)
    by reflexivity.
  split; [exact Hm|].
  exact (proj1 (proj2 (proj1 (multipart_takes_the_first_field
                                (H := Posix.runtime) quiet req Hm)
                         [] [cv] [photo] eq_refl))
           cv [photo] (bytes "resume") eq_refl eq_refl).
Defined.

Lemma no_signature_of_hello :
  forall sig tag, (sig, tag) ∈ signatures ->
    startsWith (Buffer.toString_hex (BufferFrom.utf8_encode (js "hello")) 0 8)
               sig = false.
Proof.
  intros sig tag Hin. unfold signatures in Hin.
  repeat (apply elem_of_cons in Hin as [Hin|Hin];
          [injection Hin as -> ->; reflexivity|]).
  now apply elem_of_nil in Hin.
Defined.

Lemma printable_string_round_trip_witness :
  js "hello" <> []
  /\ Forall (fun c => printable c = true) (js "hello")
  /\ N.of_nat (length (js "hello")) <= MAX_TEXT_LENGTH CONFIG
  /\ exists buffer result,
       BufferFrom.from (H := Posix.runtime) (VString (js "hello"))
         BufferFrom.utf8 = Ok buffer
       /\ length buffer = length (js "hello")
       /\ processBuffer (H := Posix.runtime) buffer VUndefined = Ok result
       /\ get "type" result = VString (js "text")
       /\ get "text" result = VString (js "hello")
       /\ get "truncated" result = VUndefined
       /\ get "textLength" (get "metadata" result)
          = num (length (js "hello"))
       /\ get "fileSize" (get "metadata" result)
          = num (length (js "hello")).
Proof.
  assert (Hne : js "hello" <> []) by discriminate.
  assert (Hpr : Forall (fun c => printable c = true) (js "hello"))
    by (repeat constructor).
  assert (Hlen : N.of_nat (length (js "hello")) <= MAX_TEXT_LENGTH CONFIG)
    by (vm_compute; discriminate).
  do 3 (split; [assumption|]).
  exact (printable_string_round_trip (H := Posix.runtime) (js "hello")
           VUndefined Hne Hpr Hlen no_signature_of_hello).
Defined.

(** ** Requests that are never answered 500 *)

Section NoFault.
Context `{Runtime}.
Variable env : Env.

Lemma string_name_is_tagged buffer fileName :
  (truthy fileName = true -> exists s, fileName = VString s) ->
  exists tag, detectFileType buffer fileName = Ok tag.
Proof.
  intros Hname. unfold detectFileType.
  destruct (startsWith _ MAGIC_NUMBERS.PDF); [eauto|].
  destruct (_ || _); [eauto|].
  destruct (_ || _); [eauto|].
  destruct (_ && _); [eauto|].
  destruct (truthy fileName); [|eauto].
  destruct (Hname eq_refl) as [s ->]. cbn [extname obind].
  destruct (bool_decide _); eauto.
Qed.

Lemma string_name_is_processed buffer fileName :
  (truthy fileName = true -> exists s, fileName = VString s) ->
  exists result, processBuffer buffer fileName = Ok result.
Proof.
  intros Hname. unfold processBuffer.
  destruct (string_name_is_tagged buffer fileName Hname) as [tag ->].
  cbn [obind]. destruct (_ <? _); eauto.
Qed.

Lemma default_name_is_a_string fileName d :
  (truthy fileName = true -> exists s, fileName = VString s) ->
  exists s, or_else fileName (VString d) = VString s.
Proof.
  intros Hname. unfold or_else.
  destruct (truthy fileName); [now apply Hname|eauto].
Qed.

(** X25.  A request with a JSON body other than [null] whose fileName, if
    it is truthy, is a string is never answered with status 500: every
    failure of the resolver and of processing is reported as a 400. *)
Theorem json_request_is_never_a_500 (req : Request) (body : value)
    (w : World) (resp : Response) :
  includes (contentType req) (js "multipart/form-data") = false ->
  json req = Json body ->
  body <> VNull -> body <> VUndefined ->
  (truthy (get "fileName" body) = true ->
   exists s, get "fileName" body = VString s) ->
  fst (handler env req w) = Some resp ->
  status resp <> 500%Z.
Proof.
  intros Hm Hj Hn Hu Hname.
  assert (Hin : exists outcome,
            intake env req = Ok outcome
            /\ forall buffer fileName,
                 outcome = File buffer fileName ->
                 exists s, fileName = VString s).
  { rewrite (intake_json env req body Hm Hj Hn Hu).
    destruct (truthy (get "fileUrl" body)).
    { destruct (downloadFileFromUrl _ _) as [|buffer|e];
        try (eexists; split; [reflexivity|]; discriminate).
      destruct (basename (get "fileUrl" body)) as [name|e];
        cbn [obind try_catch]; eexists; (split; [reflexivity|]);
        [intros ? ? [= _ <-]; eauto|discriminate]. }
    destruct (truthy (get "fileBase64" body)).
    { destruct (BufferFrom.from _ _) as [buffer|e];
        cbn [obind try_catch]; eexists; (split; [reflexivity|]);
        [|discriminate].
      intros ? ? [= _ <-]. now apply default_name_is_a_string. }
    destruct (truthy (get "binaryData" body)).
    - destruct (get_prop "data" _) as [data|];
        cbn [obind try_catch];
        [|eexists; split; [reflexivity|discriminate]].
      destruct (BufferFrom.from data _) as [buffer|e];
        cbn [obind try_catch]; eexists; (split; [reflexivity|]);
        [|discriminate].
      intros ? ? [= _ <-]. now apply default_name_is_a_string.
    - eexists. split; [reflexivity|discriminate]. }
  destruct Hin as (outcome & Hi & Hfile).
  unfold handler. rewrite fst_bind.
  destruct (bool_decide _); [intros [= <-]; discriminate|].
  destruct (negb _);
    [rewrite sendError_response; intros [= <-]; discriminate|].
  rewrite fst_bind.
  destruct (fst (rateLimit env req _)) as [tooMany|[]];
    [rewrite fst_bind; intros [= <-]; discriminate|].
  destruct (authenticateAPIKey env req) as [error|];
    [rewrite sendError_response; intros [= <-]; discriminate|].
  rewrite Hi. destruct outcome as [buffer fileName|error|].
  - destruct (Hfile buffer fileName eq_refl) as [s ->].
    destruct (string_name_is_processed buffer (VString s)) as [result ->];
      [eauto|].
    rewrite fst_bind.
    edestruct sendResult_response as (code & b & -> & Hcode).
    intros [= <-]. cbn [status]. destruct Hcode; subst; discriminate.
  - rewrite sendError_response. intros [= <-]. discriminate.
  - discriminate.
Qed.

End NoFault.

Lemma json_request_is_never_a_500_witness :
  let body := VObject [("fileBase64", VString (js "AAEC"));
                       ("fileName", VString (js "blob.bin"))] in
  let resp := {| status := 400;
                 headers_out := setSecurityHeaders ++ handleCORS (post body);
                 body := Some (VObject
                   [("success", VBool false);
                    ("error", VObject
                       [("message", VString (js "Unsupported file type"));
                        ("type", VString (js "unknown"));
                        ("hint", VUndefined);
                        ("allowedTypes",
                          VArray (map VString (ALLOWED_FILE_TYPES CONFIG)))]);
                    ("executionTime", VString (js "4ms"))]) |} in
  includes (contentType (post body)) (js "multipart/form-data") = false
  /\ json (post body) = Json body
  /\ fst (handler (H := Posix.runtime) quiet (post body) startup) = Some resp
  /\ status resp <> 500%Z.
Proof.
  intros body resp.
  assert (Hm : includes (contentType (post body)) (js "multipart/form-data")
               = false) by reflexivity.
  assert (Hj : json (post body) = Json body) by reflexivity.
  assert (Hn : body <> VNull) by discriminate.
  assert (Hu : body <> VUndefined) by discriminate.
  assert (Hname : truthy (get "fileName" body) = true ->
                  exists s, get "fileName" body = VString s)
    by (intros _; eexists; reflexivity).
  assert (Hresp : fst (handler (H := Posix.runtime) quiet (post body) startup)
                  = Some resp) by (vm_compute; reflexivity).
  do 3 (split; [assumption|]).
  exact (json_request_is_never_a_500 (H := Posix.runtime) quiet (post body)
           body startup resp Hm Hj Hn Hu Hname Hresp).
Defined.
